(** * Artifact Manager (hypha/artifact.py): a shallow embedding

    The development follows [src/hypha/artifact.py].  Pure helpers of the
    controller are Rocq functions; the controller's operations are functions
    from a [State] (the artifacts table, the object store, the vector
    database) to a [result] carrying the returned value and the new state.
    Python exceptions are the constructors of [error]. *)

From stdpp Require Import gmap strings list fin_maps sorting numbers pretty.
From Stdlib Require Import Ascii QArith Qcanon.

Set Warnings "-register-all".
Open Scope string_scope.
Open Scope Z_scope.

(** ** Exceptions and results *)

Inductive error :=
| KeyError | PermissionError | ValueError | AssertionError | TypeError
| AttributeError | IndexError | FileExistsError | FileNotFoundError
| RuntimeError | ClientError | IntegrityError | MultipleResultsFound.

Inductive result (A : Type) :=
| Ok (a : A)
| Err (e : error).
Arguments Ok {A} a.
Arguments Err {A} e.

#[global] Instance result_ret : MRet result := fun _ a => Ok a.
#[global] Instance result_bind : MBind result := fun _ _ f m =>
  match m with
  | Ok a => f a
  | Err e => Err e
  end.

(** [assert cond, msg] *)
Definition py_assert (cond : bool) : result unit :=
  if cond then Ok tt else Err AssertionError.

(** [if cond: raise e] *)
Definition raise_if (cond : bool) (e : error) : result unit :=
  if cond then Err e else Ok tt.

Definition is_ok {A} (r : result A) : bool :=
  match r with Ok _ => true | Err _ => false end.

(** ** JSON payloads *)

Inductive json :=
| JNull
| JBool (b : bool)
| JNum (z : Z)
| JStr (s : string)
| JArr (l : list json)
| JObj (m : gmap string json).

(** Python truthiness of a JSON value. *)
Definition truthy (j : json) : bool :=
  match j with
  | JNull => false
  | JBool b => b
  | JNum z => negb (z =? 0)
  | JStr s => negb (String.eqb s "")
  | JArr l => negb (Nat.eqb (length l) 0)
  | JObj m => negb (Nat.eqb (size m) 0)
  end.

(** Truthiness of an optional dict ([None] and [{}] are falsy). *)
Definition truthy_dict {V} (d : option (gmap string V)) : bool :=
  match d with
  | Some m => negb (Nat.eqb (size m) 0)
  | None => false
  end.

(** ** Strings *)

Fixpoint contains_char (c : ascii) (s : string) : bool :=
  match s with
  | EmptyString => false
  | String a s' => Ascii.eqb a c || contains_char c s'
  end.

(** [s.split(c)] *)
Fixpoint split_char (c : ascii) (s : string) : list string :=
  match s with
  | EmptyString => [EmptyString]
  | String a s' =>
      if Ascii.eqb a c then EmptyString :: split_char c s'
      else match split_char c s' with
           | w :: ws => String a w :: ws
           | [] => [String a EmptyString]
           end
  end.

Definition slash : ascii := "/"%char.

(** [str(x)] of an optional string: [None] prints as "None". *)
Definition py_str (o : option string) : string :=
  match o with Some s => s | None => "None" end.

Definition is_hex (c : ascii) : bool :=
  let n := nat_of_ascii c in
  ((48 <=? n)%nat && (n <=? 57)%nat) || ((97 <=? n)%nat && (n <=? 102)%nat).

Fixpoint uuid_chars (i : nat) (cs : list ascii) : bool :=
  match cs with
  | [] => Nat.eqb i 36
  | c :: cs' =>
      (if bool_decide (i ∈ [8; 13; 18; 23]%nat) then Ascii.eqb c "-"%char
       else is_hex c)
      && (i <? 36)%nat && uuid_chars (S i) cs'
  end.

(** [re.match(r"^[0-9a-f]{8}-[0-9a-f]{4}-[0-9a-f]{4}-[0-9a-f]{4}-[0-9a-f]{12}$", s)];
    [$] also matches just before a final newline. *)
Definition is_uuid (s : string) : bool :=
  let cs := String.list_ascii_of_string s in
  uuid_chars 0 cs
  || match reverse cs with
     | c :: rest => Ascii.eqb c "010"%char && uuid_chars 0 (reverse rest)
     | [] => false
     end.

(** ** Users and workspace permissions *)

Module UserPermission.

Inductive t := read | read_write | admin.

Definition level (p : t) : nat :=
  match p with
  | read => 1
  | read_write => 2
  | admin => 3
  end.

#[global] Instance eq_dec : EqDecision t.
Proof. solve_decision. Defined.

End UserPermission.

(** The requesting user: id, anonymity flag and workspace-role map. *)
Record UserInfo := mkUserInfo {
  user_id : string;
  is_anonymous : bool;
  user_workspaces : gmap string UserPermission.t;
}.

(** Modelled from the spec: [UserInfo.check_permission] is defined in
    hypha.core, which is not among the sources.  Section 4.1: "user's
    effective permission on the artifact's workspace is >= required tier",
    over the user's workspace-role map. *)
Definition check_permission (user_info : UserInfo) (workspace : string)
    (minimal_permission : UserPermission.t) : bool :=
  match user_workspaces user_info !! workspace with
  | Some p => (UserPermission.level minimal_permission <=? UserPermission.level p)%nat
  | None => false
  end.

(** ** Data model *)

(** A value of [config.permissions]: a permission code or an explicit list
    of operations. *)
Inductive permission :=
| PermCode (code : string)
| PermList (operations : list string).

(** An entry of [versions]. *)
Record VersionEntry := mkVersion {
  v_version : string;
  v_comment : option string;
  v_created_at : Z;
}.

(** An entry of [staging]. *)
Record FileInfo := mkFileInfo {
  f_path : string;
  f_download_weight : option Qc;
}.

(** A nullable JSON column as the database stores it: SQL NULL, the JSON
    literal null, or a JSON value.  Python reads both nulls as [None] and
    writes [None] as the JSON literal. *)
Inductive json_column (A : Type) :=
| SqlNull
| JsonNull
| JsonVal (a : A).
Arguments SqlNull {A}.
Arguments JsonNull {A}.
Arguments JsonVal {A} a.

Definition py_value {A} (c : json_column A) : option A :=
  match c with
  | JsonVal a => Some a
  | _ => None
  end.

Definition py_store {A} (o : option A) : json_column A :=
  match o with
  | Some a => JsonVal a
  | None => JsonNull
  end.

(** The [config] dict, by its recognised keys. *)
Record Config := mkConfig {
  c_permissions : option (gmap string permission);
  c_list_fields : option json;
  c_download_weights : option (gmap string Qc);
  c_collection_schema : option json;
  c_zenodo : option json;
  c_child_count : option Z;
  c_vector_count : option Z;
  c_other : gmap string json;
}.

Definition empty_config : Config :=
  mkConfig None None None None None None None ∅.

(** A row of the [artifacts] table ([ArtifactModel]). *)
Record ArtifactModel := mkArtifact {
  a_id : string;
  a_type : option string;
  a_workspace : string;
  a_parent_id : option string;
  a_alias : option string;
  a_manifest : option (gmap string json);
  a_staging : json_column (list FileInfo);
  a_download_count : Qc;
  a_view_count : Qc;
  a_file_count : Z;
  a_created_at : Z;
  a_created_by : option string;
  a_last_modified : Z;
  a_versions : option (list VersionEntry);
  a_config : option Config;
  a_secrets : option (gmap string json);
}.

Definition set_type (v : option string) (a : ArtifactModel) : ArtifactModel :=
  mkArtifact (a_id a) v (a_workspace a) (a_parent_id a) (a_alias a)
    (a_manifest a) (a_staging a) (a_download_count a) (a_view_count a)
    (a_file_count a) (a_created_at a) (a_created_by a) (a_last_modified a)
    (a_versions a) (a_config a) (a_secrets a).

Definition set_parent_id (v : option string) (a : ArtifactModel) : ArtifactModel :=
  mkArtifact (a_id a) (a_type a) (a_workspace a) v (a_alias a)
    (a_manifest a) (a_staging a) (a_download_count a) (a_view_count a)
    (a_file_count a) (a_created_at a) (a_created_by a) (a_last_modified a)
    (a_versions a) (a_config a) (a_secrets a).

Definition set_manifest (v : option (gmap string json)) (a : ArtifactModel) : ArtifactModel :=
  mkArtifact (a_id a) (a_type a) (a_workspace a) (a_parent_id a) (a_alias a)
    v (a_staging a) (a_download_count a) (a_view_count a)
    (a_file_count a) (a_created_at a) (a_created_by a) (a_last_modified a)
    (a_versions a) (a_config a) (a_secrets a).

Definition set_staging (v : json_column (list FileInfo)) (a : ArtifactModel) : ArtifactModel :=
  mkArtifact (a_id a) (a_type a) (a_workspace a) (a_parent_id a) (a_alias a)
    (a_manifest a) v (a_download_count a) (a_view_count a)
    (a_file_count a) (a_created_at a) (a_created_by a) (a_last_modified a)
    (a_versions a) (a_config a) (a_secrets a).

Definition set_download_count (v : Qc) (a : ArtifactModel) : ArtifactModel :=
  mkArtifact (a_id a) (a_type a) (a_workspace a) (a_parent_id a) (a_alias a)
    (a_manifest a) (a_staging a) v (a_view_count a)
    (a_file_count a) (a_created_at a) (a_created_by a) (a_last_modified a)
    (a_versions a) (a_config a) (a_secrets a).

Definition set_view_count (v : Qc) (a : ArtifactModel) : ArtifactModel :=
  mkArtifact (a_id a) (a_type a) (a_workspace a) (a_parent_id a) (a_alias a)
    (a_manifest a) (a_staging a) (a_download_count a) v
    (a_file_count a) (a_created_at a) (a_created_by a) (a_last_modified a)
    (a_versions a) (a_config a) (a_secrets a).

Definition set_file_count (v : Z) (a : ArtifactModel) : ArtifactModel :=
  mkArtifact (a_id a) (a_type a) (a_workspace a) (a_parent_id a) (a_alias a)
    (a_manifest a) (a_staging a) (a_download_count a) (a_view_count a)
    v (a_created_at a) (a_created_by a) (a_last_modified a)
    (a_versions a) (a_config a) (a_secrets a).

Definition set_last_modified (v : Z) (a : ArtifactModel) : ArtifactModel :=
  mkArtifact (a_id a) (a_type a) (a_workspace a) (a_parent_id a) (a_alias a)
    (a_manifest a) (a_staging a) (a_download_count a) (a_view_count a)
    (a_file_count a) (a_created_at a) (a_created_by a) v
    (a_versions a) (a_config a) (a_secrets a).

Definition set_versions (v : option (list VersionEntry)) (a : ArtifactModel) : ArtifactModel :=
  mkArtifact (a_id a) (a_type a) (a_workspace a) (a_parent_id a) (a_alias a)
    (a_manifest a) (a_staging a) (a_download_count a) (a_view_count a)
    (a_file_count a) (a_created_at a) (a_created_by a) (a_last_modified a)
    v (a_config a) (a_secrets a).

Definition set_config (v : option Config) (a : ArtifactModel) : ArtifactModel :=
  mkArtifact (a_id a) (a_type a) (a_workspace a) (a_parent_id a) (a_alias a)
    (a_manifest a) (a_staging a) (a_download_count a) (a_view_count a)
    (a_file_count a) (a_created_at a) (a_created_by a) (a_last_modified a)
    (a_versions a) v (a_secrets a).

Definition set_secrets (v : option (gmap string json)) (a : ArtifactModel) : ArtifactModel :=
  mkArtifact (a_id a) (a_type a) (a_workspace a) (a_parent_id a) (a_alias a)
    (a_manifest a) (a_staging a) (a_download_count a) (a_view_count a)
    (a_file_count a) (a_created_at a) (a_created_by a) (a_last_modified a)
    (a_versions a) (a_config a) v.

Definition with_permissions (p : gmap string permission) (c : Config) : Config :=
  mkConfig (Some p) (c_list_fields c) (c_download_weights c)
    (c_collection_schema c) (c_zenodo c) (c_child_count c) (c_vector_count c)
    (c_other c).

Definition with_download_weights (w : gmap string Qc) (c : Config) : Config :=
  mkConfig (c_permissions c) (c_list_fields c) (Some w)
    (c_collection_schema c) (c_zenodo c) (c_child_count c) (c_vector_count c)
    (c_other c).

Definition with_zenodo (z : json) (c : Config) : Config :=
  mkConfig (c_permissions c) (c_list_fields c) (c_download_weights c)
    (c_collection_schema c) (Some z) (c_child_count c) (c_vector_count c)
    (c_other c).

Definition with_child_count (n : Z) (c : Config) : Config :=
  mkConfig (c_permissions c) (c_list_fields c) (c_download_weights c)
    (c_collection_schema c) (c_zenodo c) (Some n) (c_vector_count c)
    (c_other c).

Definition with_vector_count (n : Z) (c : Config) : Config :=
  mkConfig (c_permissions c) (c_list_fields c) (c_download_weights c)
    (c_collection_schema c) (c_zenodo c) (c_child_count c) (Some n)
    (c_other c).

(** ** Column dicts *)

(** Python values that occur as column values of an artifact dict. *)
Inductive pyval :=
| PNone
| PStr (s : string)
| PInt (z : Z)
| PNum (q : Qc)
| PDict (d : gmap string json)
| PVersions (l : list VersionEntry)
| PStaging (l : list FileInfo)
| PConfig (c : Config).

Definition pyopt {A} (f : A -> pyval) (o : option A) : pyval :=
  match o with
  | Some a => f a
  | None => PNone
  end.

(** [model_to_dict]: one key per column of the table. *)
Definition model_to_dict (model : ArtifactModel) : gmap string pyval :=
  list_to_map [
    ("id", PStr (a_id model));
    ("type", pyopt PStr (a_type model));
    ("workspace", PStr (a_workspace model));
    ("parent_id", pyopt PStr (a_parent_id model));
    ("alias", pyopt PStr (a_alias model));
    ("manifest", pyopt PDict (a_manifest model));
    ("staging", pyopt PStaging (py_value (a_staging model)));
    ("download_count", PNum (a_download_count model));
    ("view_count", PNum (a_view_count model));
    ("file_count", PInt (a_file_count model));
    ("created_at", PInt (a_created_at model));
    ("created_by", pyopt PStr (a_created_by model));
    ("last_modified", PInt (a_last_modified model));
    ("versions", pyopt PVersions (a_versions model));
    ("config", pyopt PConfig (a_config model));
    ("secrets", pyopt PDict (a_secrets model))
  ].

(** Reading typed columns back from a dict.  A key that is absent or [None]
    reads as [None]; a value of another Python type than the column's cannot
    be held by [ArtifactModel] and is reported as [TypeError]. *)
Definition dict_str (d : gmap string pyval) (k : string) : result (option string) :=
  match d !! k with
  | None | Some PNone => Ok None
  | Some (PStr s) => Ok (Some s)
  | Some _ => Err TypeError
  end.

Definition dict_int (d : gmap string pyval) (k : string) : result (option Z) :=
  match d !! k with
  | None | Some PNone => Ok None
  | Some (PInt z) => Ok (Some z)
  | Some _ => Err TypeError
  end.

Definition dict_num (d : gmap string pyval) (k : string) : result (option Qc) :=
  match d !! k with
  | None | Some PNone => Ok None
  | Some (PNum q) => Ok (Some q)
  | Some _ => Err TypeError
  end.

Definition dict_dict (d : gmap string pyval) (k : string)
    : result (option (gmap string json)) :=
  match d !! k with
  | None | Some PNone => Ok None
  | Some (PDict m) => Ok (Some m)
  | Some _ => Err TypeError
  end.

Definition dict_versions (d : gmap string pyval) (k : string)
    : result (option (list VersionEntry)) :=
  match d !! k with
  | None | Some PNone => Ok None
  | Some (PVersions l) => Ok (Some l)
  | Some _ => Err TypeError
  end.

Definition dict_staging (d : gmap string pyval) (k : string)
    : result (option (list FileInfo)) :=
  match d !! k with
  | None | Some PNone => Ok None
  | Some (PStaging l) => Ok (Some l)
  | Some _ => Err TypeError
  end.

Definition dict_config (d : gmap string pyval) (k : string) : result (option Config) :=
  match d !! k with
  | None | Some PNone => Ok None
  | Some (PConfig c) => Ok (Some c)
  | Some _ => Err TypeError
  end.

(** A column declared without default ([workspace], [created_at],
    [last_modified]) has to be present. *)
Definition required {A} (o : option A) : result A :=
  match o with
  | Some a => Ok a
  | None => Err TypeError
  end.

(** The constructor call of [ArtifactModel] with the dict as its keyword
    arguments: columns absent from the dict take the defaults of the class
    ([id] from its factory, here [fresh_id]). *)
Definition ArtifactModel_of_dict (fresh_id : string) (d : gmap string pyval)
    : result ArtifactModel :=
  id ← dict_str d "id";
  type ← dict_str d "type";
  workspace ← dict_str d "workspace" ≫= required;
  parent_id ← dict_str d "parent_id";
  alias ← dict_str d "alias";
  manifest ← dict_dict d "manifest";
  staging ← dict_staging d "staging";
  download_count ← dict_num d "download_count";
  view_count ← dict_num d "view_count";
  file_count ← dict_int d "file_count";
  created_at ← dict_int d "created_at" ≫= required;
  created_by ← dict_str d "created_by";
  last_modified ← dict_int d "last_modified" ≫= required;
  versions ← dict_versions d "versions";
  config ← dict_config d "config";
  secrets ← dict_dict d "secrets";
  Ok (mkArtifact (default fresh_id id) type workspace parent_id alias manifest
        (py_store staging) (default 0%Qc download_count) (default 0%Qc view_count)
        (default 0 file_count) created_at created_by last_modified versions
        config secrets).

(** ** The stores *)

(** Object keys are kept structured.  A snapshot
    [<prefix>/<workspace>/<artifacts_dir>/<artifact-id>/v<i>.json] is the
    tuple (bucket, prefix, workspace, artifact id, i); a blob
    [.../v<i>/<path>] adds the relative path. *)
Abbreviation snapshot_key := (string * string * string * string * Z)%type.
Abbreviation file_key := (string * string * string * string * Z * string)%type.

Record State := mkState {
  db : list ArtifactModel;
  s3_snapshots : gmap snapshot_key (gmap string pyval);
  s3_files : list file_key;
  vector_collections : list string;
}.

Definition set_db (rows : list ArtifactModel) (st : State) : State :=
  mkState rows (s3_snapshots st) (s3_files st) (vector_collections st).

Definition set_s3_snapshots (m : gmap snapshot_key (gmap string pyval)) (st : State) : State :=
  mkState (db st) m (s3_files st) (vector_collections st).

Definition set_s3_files (l : list file_key) (st : State) : State :=
  mkState (db st) (s3_snapshots st) l (vector_collections st).

Definition set_vector_collections (l : list string) (st : State) : State :=
  mkState (db st) (s3_snapshots st) (s3_files st) l.

(** *** The artifacts table *)

(** [result.scalar_one_or_none()] *)
Definition scalar_one_or_none {A} (rows : list A) : result (option A) :=
  match rows with
  | [] => Ok None
  | [a] => Ok (Some a)
  | _ => Err MultipleResultsFound
  end.

(** The constraint [_workspace_alias_uc]; SQL NULL aliases never collide. *)
Definition violates_unique (a : ArtifactModel) (rows : list ArtifactModel) : bool :=
  existsb (fun r =>
    negb (String.eqb (a_id r) (a_id a))
    && String.eqb (a_workspace r) (a_workspace a)
    && match a_alias r, a_alias a with
       | Some x, Some y => String.eqb x y
       | _, _ => false
       end) rows.

Definition has_id (i : string) (rows : list ArtifactModel) : bool :=
  existsb (fun r => String.eqb (a_id r) i) rows.

(** [session.add(new)] followed by the flush: an INSERT. *)
Definition db_add (a : ArtifactModel) (rows : list ArtifactModel)
    : result (list ArtifactModel) :=
  if has_id (a_id a) rows || violates_unique a rows then Err IntegrityError
  else Ok (rows ++ [a])%list.

(** Flush of a persistent row that was modified: an UPDATE by primary key. *)
Definition db_update (a : ArtifactModel) (rows : list ArtifactModel)
    : result (list ArtifactModel) :=
  if violates_unique a rows then Err IntegrityError
  else Ok (map (fun r => if String.eqb (a_id r) (a_id a) then a else r) rows).

(** [session.merge(new)]: UPDATE when the primary key exists, else INSERT. *)
Definition db_merge (a : ArtifactModel) (rows : list ArtifactModel)
    : result (list ArtifactModel) :=
  if has_id (a_id a) rows then db_update a rows else db_add a rows.

(** [session.delete(artifact)] *)
Definition db_delete (i : string) (rows : list ArtifactModel) : list ArtifactModel :=
  filter (fun r => String.eqb (a_id r) i = false) rows.

(** ** Lookups *)

Definition _get_artifact_id_cond (artifact_id : string)
    : result (ArtifactModel -> bool) :=
  if contains_char slash artifact_id then
    match split_char slash artifact_id with
    | [ws; alias] =>
        Ok (fun a => String.eqb (a_workspace a) ws
                     && bool_decide (a_alias a = Some alias))
    | _ => Err AssertionError
    end
  else Ok (fun a => String.eqb (a_id a) artifact_id).

Definition select_where (cond : ArtifactModel -> bool) (rows : list ArtifactModel)
    : list ArtifactModel :=
  List.filter cond rows.

Definition _get_artifact (rows : list ArtifactModel) (artifact_id : string)
    : result ArtifactModel :=
  cond ← _get_artifact_id_cond artifact_id;
  artifact ← scalar_one_or_none (select_where cond rows);
  match artifact with
  | None => Err KeyError
  | Some a => Ok a
  end.

Definition nonempty (o : option string) : bool :=
  match o with
  | Some s => negb (String.eqb s "")
  | None => false
  end.

Definition _get_artifact_with_parent (rows : list ArtifactModel) (artifact_id : string)
    : result (ArtifactModel * option ArtifactModel) :=
  cond ← _get_artifact_id_cond artifact_id;
  artifact ← scalar_one_or_none (select_where cond rows);
  match artifact with
  | None => Err KeyError
  | Some a =>
      if nonempty (a_parent_id a) then
        pcond ← _get_artifact_id_cond (default "" (a_parent_id a));
        parent_artifact ← scalar_one_or_none (select_where pcond rows);
        Ok (a, parent_artifact)
      else Ok (a, None)
  end.

(** ** Permission engine *)

Definition permission_map : gmap string (list string) :=
  list_to_map [
    ("n", []);
    ("l", ["list"]);
    ("l+", ["list"; "create"; "commit"]);
    ("lv", ["list"; "list_vectors"]);
    ("lv+", ["list"; "list_vectors"; "create"; "commit"; "add_vectors";
             "add_documents"]);
    ("lf", ["list"; "list_files"]);
    ("lf+", ["list"; "list_files"; "create"; "commit"; "put_file"]);
    ("r", ["read"; "get_file"; "list_files"; "list"; "search_by_vector";
           "search_by_text"; "get_vector"]);
    ("r+", ["read"; "get_file"; "put_file"; "list_files"; "list";
            "search_by_vector"; "search_by_text"; "get_vector"; "create";
            "commit"; "add_vectors"; "add_documents"]);
    ("rw", ["read"; "get_file"; "get_vector"; "search_by_vector";
            "search_by_text"; "list_files"; "list_vectors"; "list"; "edit";
            "commit"; "put_file"; "add_vectors"; "add_documents";
            "remove_file"; "remove_vectors"]);
    ("rw+", ["read"; "get_file"; "get_vector"; "search_by_vector";
             "search_by_text"; "list_files"; "list_vectors"; "list"; "edit";
             "commit"; "put_file"; "add_vectors"; "add_documents";
             "remove_file"; "remove_vectors"; "create"]);
    ("*", ["read"; "get_file"; "get_vector"; "search_by_vector";
           "search_by_text"; "list_files"; "list_vectors"; "list"; "edit";
           "commit"; "put_file"; "add_vectors"; "add_documents";
           "remove_file"; "remove_vectors"; "create"; "reset_stats";
           "publish"])
  ].

Definition _expand_permission (permission : permission) : list string :=
  match permission with
  | PermCode code => default [] (permission_map !! code)
  | PermList operations => operations
  end.

(** [artifact.config.get("permissions", {}) if artifact.config else {}] *)
Definition artifact_permissions (artifact : ArtifactModel) : gmap string permission :=
  match a_config artifact with
  | Some c => default ∅ (c_permissions c)
  | None => ∅
  end.

(** [key in permissions and operation in self._expand_permission(permissions[key])] *)
Definition grants (permissions : gmap string permission) (key operation : string) : bool :=
  match permissions !! key with
  | Some p => bool_decide (operation ∈ _expand_permission p)
  | None => false
  end.

Definition _check_permissions (artifact : ArtifactModel) (user_info : UserInfo)
    (operation : string) : bool :=
  let permissions := artifact_permissions artifact in
  if grants permissions (user_id user_info) operation then true
  else if negb (is_anonymous user_info) && grants permissions "@" operation then true
  else if grants permissions "*" operation then true
  else false.

Definition operation_map : gmap string UserPermission.t :=
  list_to_map [
    ("list", UserPermission.read);
    ("read", UserPermission.read);
    ("get_vector", UserPermission.read);
    ("get_file", UserPermission.read);
    ("list_files", UserPermission.read);
    ("list_vectors", UserPermission.read);
    ("search_by_text", UserPermission.read);
    ("search_by_vector", UserPermission.read);
    ("create", UserPermission.read_write);
    ("edit", UserPermission.read_write);
    ("commit", UserPermission.read_write);
    ("add_vectors", UserPermission.read_write);
    ("add_documents", UserPermission.read_write);
    ("put_file", UserPermission.read_write);
    ("remove_vectors", UserPermission.read_write);
    ("remove_file", UserPermission.read_write);
    ("delete", UserPermission.admin);
    ("reset_stats", UserPermission.admin);
    ("publish", UserPermission.admin)
  ].

Definition _get_artifact_with_permission (rows : list ArtifactModel)
    (user_info : UserInfo) (artifact_id operation : string)
    : result (ArtifactModel * option ArtifactModel) :=
  match operation_map !! operation with
  | None => Err ValueError
  | Some required_perm =>
      '(artifact, parent_artifact) ← _get_artifact_with_parent rows artifact_id;
      if _check_permissions artifact user_info operation then
        Ok (artifact, parent_artifact)
      else if check_permission user_info (a_workspace artifact) required_perm then
        Ok (artifact, parent_artifact)
      else Err PermissionError
  end.

(** ** Listing conditions *)

(** The conditions the query planner of [list_children] builds from
    keywords and filters.  Their truth on a row is decided by the database
    backend. *)
Inductive condition :=
| KeywordLike (keyword : string)
| ManifestLike (key : string) (pattern : string)
| ManifestEq (key : string) (value : json)
| PermissionEq (user_id : string) (permission : json)
| FixedEq (field : string) (value : json)
| RangeBetween (field : string) (lo hi : json)
| RangeGe (field : string) (value : json).

(** ** The controller and its object-store configuration *)

(** What the operations read from [self] and from the workspace store. *)
Record ArtifactController := mkController {
  s3_endpoint_url : json;
  s3_access_key_id : json;
  s3_secret_access_key : json;
  s3_region_name : json;
  enable_s3_proxy : bool;
  public_base_url : string;
  workspace_bucket : string;
  vectordb_client : bool;
  workspace_persistent : string -> result bool;
  validate_manifest : option string -> option (gmap string json) -> bool;
  validate_schema : option (gmap string json) -> json -> bool;
  sql_eval : condition -> ArtifactModel -> bool;
  enforce_foreign_keys : bool;
}.

Record S3Config := mkS3Config {
  endpoint_url : json;
  access_key_id : json;
  secret_access_key : json;
  region_name : json;
  bucket : json;
  prefix : json;
  public_endpoint_url : json;
}.

(** [d.get(k)] on a JSON dict: [None] when the key is absent. *)
Definition json_get (d : gmap string json) (k : string) : json :=
  default JNull (d !! k).

(** [s in l] for a string [s] and a JSON list [l]. *)
Definition json_str_in (s : string) (l : list json) : bool :=
  existsb (fun j => match j with JStr x => String.eqb x s | _ => false end) l.

(** [x or y] *)
Definition json_or (x y : json) : json := if truthy x then x else y.

(** The secrets of the parent (if any), overridden by the artifact's own. *)
Definition merged_secrets (artifact : ArtifactModel)
    (parent_artifact : option ArtifactModel) : gmap string json :=
  let secrets :=
    match parent_artifact with
    | Some p => if truthy_dict (a_secrets p) then default ∅ (a_secrets p) else ∅
    | None => ∅
    end in
  default ∅ (a_secrets artifact) ∪ secrets.

Section Controller.

Variable self : ArtifactController.

Definition _get_s3_config (artifact : ArtifactModel)
    (parent_artifact : option ArtifactModel) : S3Config :=
  let secrets := merged_secrets artifact parent_artifact in
  let access_key_id := json_get secrets "S3_ACCESS_KEY_ID" in
  let secret_access_key := json_get secrets "S3_SECRET_ACCESS_KEY" in
  if negb (truthy access_key_id) || negb (truthy secret_access_key) then
    mkS3Config (s3_endpoint_url self) (s3_access_key_id self)
      (s3_secret_access_key self) (s3_region_name self)
      (JStr (workspace_bucket self)) (JStr "")
      (if enable_s3_proxy self then JStr (public_base_url self +:+ "/s3")
       else JNull)
  else
    mkS3Config (json_get secrets "S3_ENDPOINT_URL") access_key_id
      secret_access_key (json_get secrets "S3_REGION_NAME")
      (json_or (json_get secrets "S3_BUCKET") (JStr (workspace_bucket self)))
      (json_or (json_get secrets "S3_PREFIX") (JStr ""))
      (json_get secrets "S3_PUBLIC_ENDPOINT_URL").

(** [_create_client_async]: only its assertion is observable here. *)
Definition _create_client_async (s3_config : S3Config) : result unit :=
  py_assert (truthy (endpoint_url s3_config) && truthy (access_key_id s3_config)
             && truthy (secret_access_key s3_config)
             && truthy (region_name s3_config)).

Definition as_str (j : json) : result string :=
  match j with
  | JStr s => Ok s
  | _ => Err TypeError
  end.

(** The key [safe_join(prefix, workspace, artifacts_dir, id, "v<i>.json")]
    in the bucket of [s3_config]. *)
Definition version_key (s3_config : S3Config) (artifact : ArtifactModel)
    (version_index : Z) : result snapshot_key :=
  p ← as_str (prefix s3_config);
  b ← as_str (bucket s3_config);
  Ok (b, p, a_workspace artifact, a_id artifact, version_index).

Definition _save_version_to_s3 (version_index : Z) (artifact : ArtifactModel)
    (s3_config : S3Config) (st : State) : result State :=
  _ ← py_assert (0 <=? version_index);
  _ ← _create_client_async s3_config;
  key ← version_key s3_config artifact version_index;
  Ok (set_s3_snapshots (<[key := model_to_dict artifact]> (s3_snapshots st)) st).

(** The [s3_config] argument is overwritten by the artifact's own
    configuration (without its parent). *)
Definition _load_version_from_s3 (artifact : ArtifactModel) (version_index : Z)
    (s3_config : S3Config) (include_secrets : bool) (st : State)
    : result (gmap string pyval) :=
  _ ← py_assert (0 <=? version_index);
  let s3_config := _get_s3_config artifact None in
  key ← version_key s3_config artifact version_index;
  _ ← _create_client_async s3_config;
  match s3_snapshots st !! key with
  | None => Err ClientError
  | Some data => Ok (if include_secrets then data else delete "secrets" data)
  end.

(** ** Version selectors *)

(** The [version] argument: [None], a string, an integer, anything else. *)
Inductive version_arg :=
| VNone
| VStr (s : string)
| VInt (i : Z)
| VOther.

Definition version_of (o : option string) : version_arg :=
  match o with
  | Some s => VStr s
  | None => VNone
  end.

(** [len(artifact.versions)] *)
Definition len_versions (artifact : ArtifactModel) : result Z :=
  match a_versions artifact with
  | Some l => Ok (Z.of_nat (length l))
  | None => Err TypeError
  end.

Definition _get_version_index (artifact : ArtifactModel) (version : version_arg)
    : result Z :=
  match version with
  | VNone => n ← len_versions artifact; Ok (Z.max 0 (n - 1))
  | VStr s =>
      if String.eqb s "latest" then n ← len_versions artifact; Ok (n - 1)
      else if String.eqb s "stage" then len_versions artifact
      else
        match a_versions artifact with
        | None => Err TypeError
        | Some vs =>
            match list_find (fun v => v_version v = s) vs with
            | Some (i, _) => Ok (Z.of_nat i)
            | None => Err ValueError
            end
        end
  | VInt i => _ ← py_assert (0 <=? i); Ok i
  | VOther => Err ValueError
  end.

Definition in_version_dir (b p ws i : string) (n : Z) (k : file_key) : bool :=
  bool_decide (k.1 = (b, p, ws, i, n)).

(** Written as a coroutine: it runs only when awaited. *)
Definition _delete_version_files_from_s3 (version_index : Z)
    (artifact : ArtifactModel) (s3_config : S3Config) (delete_files : bool)
    (st : State) : result State :=
  _ ← py_assert (0 <=? version_index);
  _ ← _create_client_async s3_config;
  key ← version_key s3_config artifact version_index;
  let st := set_s3_snapshots (delete key (s3_snapshots st)) st in
  if delete_files then
    let '(b, p, ws, i, n) := key in
    Ok (set_s3_files
          (List.filter (fun k => negb (in_version_dir b p ws i n k)) (s3_files st))
          st)
  else Ok st.

Definition _count_files_in_prefix (s3_config : S3Config) (artifact : ArtifactModel)
    (version_index : Z) (st : State) : result Z :=
  key ← version_key s3_config artifact version_index;
  let '(b, p, ws, i, n) := key in
  Ok (Z.of_nat (length (List.filter (in_version_dir b p ws i n) (s3_files st)))).

(** ** Responses *)

Definition _generate_artifact_data (artifact : ArtifactModel)
    (parent_artifact : option ArtifactModel) : gmap string pyval :=
  let artifact_data := model_to_dict artifact in
  let artifact_data :=
    match parent_artifact with
    | Some p =>
        <["parent_id" := PStr (a_workspace p +:+ "/" +:+ py_str (a_alias p))]>
          artifact_data
    | None => artifact_data
    end in
  let artifact_data :=
    <["id" := PStr (a_workspace artifact +:+ "/" +:+ py_str (a_alias artifact))]>
      artifact_data in
  let artifact_data := <["_id" := PStr (a_id artifact)]> artifact_data in
  delete "secrets" artifact_data.

(** ** Requests *)

(** The [context] of a call: the caller and, when present, the key [ws]. *)
Record Context := mkContext {
  ctx_user : UserInfo;
  ctx_ws : option string;
}.

(** [if context is None or "ws" not in context: raise ValueError] *)
Definition require_ws (context : option Context) : result (UserInfo * string) :=
  match context with
  | Some c =>
      match ctx_ws c with
      | Some ws => Ok (ctx_user c, ws)
      | None => Err ValueError
      end
  | None => Err ValueError
  end.

Definition _validate_artifact_id (artifact_id : string) (ws : string)
    : result string :=
  if is_uuid artifact_id then Ok artifact_id
  else if contains_char slash artifact_id then
    _ ← py_assert (Nat.eqb (length (split_char slash artifact_id)) 2);
    Ok artifact_id
  else Ok (ws +:+ "/" +:+ artifact_id).

(** The two counters [_increment_stat] accepts. *)
Inductive stat_field := view_count | download_count.

(** [UPDATE artifacts SET field = field + increment WHERE <id condition>] *)
Definition _increment_stat (rows : list ArtifactModel) (artifact_id : string)
    (field : stat_field) (increment : Qc) : result (list ArtifactModel) :=
  cond ← _get_artifact_id_cond artifact_id;
  Ok (map (fun r : ArtifactModel =>
        if (cond r : bool) then
          match field with
          | view_count => set_view_count (a_view_count r + increment)%Qc r
          | download_count => set_download_count (a_download_count r + increment)%Qc r
          end
        else r) rows).

(** *** Aliases *)

Definition is_space (c : ascii) : bool :=
  bool_decide (nat_of_ascii c ∈ [9; 10; 11; 12; 13; 28; 29; 30; 31; 32]%nat).

Fixpoint lstrip (cs : list ascii) : list ascii :=
  match cs with
  | c :: cs' => if is_space c then lstrip cs' else cs
  | [] => []
  end.

(** [s.strip()] *)
Definition strip (s : string) : string :=
  String.string_of_list_ascii
    (reverse (lstrip (reverse (lstrip (String.list_ascii_of_string s))))).

(** [_batch_alias_exists] *)
Definition _batch_alias_exists (rows : list ArtifactModel) (workspace : string)
    (aliases : list string) : list string :=
  omap (fun r : ArtifactModel =>
    if String.eqb (a_workspace r) workspace
    then match a_alias r with
         | Some x => if bool_decide (x ∈ aliases) then Some x else None
         | None => None
         end
    else None) rows.

(** [_generate_unique_alias].  The candidates of each attempt come from a
    random generator; [batches] lists what [_generate_candidate_aliases]
    returns in the successive attempts, and the element popped from the set
    of free candidates is taken to be the first free one. *)
Fixpoint _generate_unique_alias (rows : list ArtifactModel) (workspace : string)
    (batches : list (list string)) (max_attempts : nat) : result string :=
  match max_attempts with
  | O => Err RuntimeError
  | S n =>
      let candidates := default [] (head batches) in
      let existing_aliases := _batch_alias_exists rows workspace candidates in
      match List.filter (fun c => negb (bool_decide (c ∈ existing_aliases))) candidates with
      | c :: _ => Ok c
      | [] => _generate_unique_alias rows workspace (tail batches) n
      end
  end.

(** [_get_zenodo_client], up to the construction of the client. *)
Definition _get_zenodo_client (artifact : option ArtifactModel)
    (parent_artifact : option ArtifactModel) (publish_to : option string)
    : result unit :=
  match artifact with
  | None => Err AttributeError
  | Some a =>
      let secrets := merged_secrets a parent_artifact in
      if bool_decide (publish_to = Some "zenodo") then
        raise_if (negb (truthy (json_get secrets "ZENODO_ACCESS_TOKEN"))) ValueError
      else if bool_decide (publish_to = Some "sandbox_zenodo") then
        raise_if (negb (truthy (json_get secrets "SANDBOX_ZENODO_ACCESS_TOKEN")))
          ValueError
      else Err ValueError
  end.

(** What a call observes of its environment: the clock, the generated
    UUID, the alias candidates, the answer of the external archive and the
    point count of the vector database. *)
Record Env := mkEnv {
  env_now : Z;
  env_uuid : string;
  env_alias_batches : list (list string);
  env_deposition : result json;
  env_vector_count : result Z;
}.

(** [deposition_info["id"]] and [deposition_info["conceptrecid"]] *)
Definition deposition_keys (deposition_info : json) : result unit :=
  match deposition_info with
  | JObj m =>
      match m !! "id", m !! "conceptrecid" with
      | Some _, Some _ => Ok tt
      | _, _ => Err KeyError
      end
  | _ => Err TypeError
  end.

(** [parent_artifact.config["permissions"] if parent_artifact else {}] *)
Definition parent_permissions_of (parent_artifact : option ArtifactModel)
    : result (gmap string permission) :=
  match parent_artifact with
  | None => Ok ∅
  | Some p =>
      match a_config p with
      | None => Err TypeError
      | Some c =>
          match c_permissions c with
          | None => Err KeyError
          | Some perms => Ok perms
          end
      end
  end.

(** The permission merge of [create] and [edit]:
    [permissions[user_info.id] = "*"; permissions.update(parent_permissions)]. *)
Definition merge_permissions (config : Config) (user_info : UserInfo)
    (parent_permissions : gmap string permission) : Config :=
  let permissions := default ∅ (c_permissions config) in
  let permissions := <[user_id user_info := PermCode "*"]> permissions in
  let permissions := parent_permissions ∪ permissions in
  with_permissions permissions config.

(** Python truthiness of an optional string. *)
Definition str_truthy (o : option string) : bool := nonempty o.

(** ** create *)

(** The alias argument before the session starts: stripped, checked for
    the collection-name separator, and split at a slash into workspace and
    alias. *)
Definition split_alias (alias workspace : option string)
    : result (option string * option string) :=
  if str_truthy alias then
    let a := strip (default "" alias) in
    _ ← py_assert (negb (contains_char "^"%char a));
    if contains_char slash a then
      match split_char slash a with
      | [ws; al] =>
          _ ← raise_if (str_truthy workspace && negb (bool_decide (Some ws = workspace)))
                ValueError;
          Ok (Some al, Some ws)
      | _ => Err ValueError
      end
    else Ok (Some a, workspace)
  else Ok (alias, workspace).

(** The parent, the stored [parent_id] and the workspace of a new artifact. *)
Definition resolve_parent (rows : list ArtifactModel) (user_info : UserInfo)
    (ws : string) (parent_id workspace : option string)
    : result (option ArtifactModel * option string * string) :=
  if str_truthy parent_id then
    pid ← _validate_artifact_id (default "" parent_id) ws;
    '(parent_artifact, _) ← _get_artifact_with_permission rows user_info pid "create";
    _ ← (if str_truthy workspace
         then py_assert (bool_decide (workspace = Some (a_workspace parent_artifact)))
         else Ok tt);
    _ ← raise_if (negb (truthy_dict (a_manifest parent_artifact))) ValueError;
    Ok (Some parent_artifact, Some (a_id parent_artifact), a_workspace parent_artifact)
  else
    let workspace := if str_truthy workspace then default "" workspace else ws in
    _ ← raise_if (negb (check_permission user_info workspace UserPermission.read_write))
          PermissionError;
    Ok (None, parent_id, workspace).

(** The alias, the id, the overwrite flag and the config once the alias is
    settled: generated from a pattern, generated freely, or explicit. *)
Definition resolve_alias (rows : list ArtifactModel) (env : Env)
    (parent_artifact : option ArtifactModel) (workspace : string)
    (alias parent_id publish_to : option string) (overwrite : bool)
    (config : Config) : result (string * string * bool * Config) :=
  let id := env_uuid env in
  if str_truthy alias && contains_char "{"%char (default "" alias)
     && contains_char "}"%char (default "" alias) then
    config ← (if str_truthy publish_to then
                _ ← _get_zenodo_client parent_artifact None publish_to;
                deposition_info ← env_deposition env;
                _ ← deposition_keys deposition_info;
                Ok (with_zenodo deposition_info config)
              else Ok config);
    a ← _generate_unique_alias rows workspace (env_alias_batches env) 10;
    Ok (a, id, overwrite, config)
  else
    match alias with
    | None =>
        a ← _generate_unique_alias rows workspace (env_alias_batches env) 10;
        Ok (a, id, overwrite, config)
    | Some a =>
        _ ← raise_if (is_uuid a) ValueError;
        match _get_artifact rows (workspace +:+ "/" +:+ a) with
        | Ok existing_artifact =>
            if negb (bool_decide (parent_id = a_parent_id existing_artifact))
               && negb overwrite
            then Err FileExistsError
            else if negb overwrite then Err FileExistsError
            else Ok (a, a_id existing_artifact, overwrite, config)
        | Err KeyError => Ok (a, id, false, config)
        | Err e => Err e
        end
    end.

(** The [versions] list of a new artifact, with the version label as it is
    after the block. *)
Definition initial_versions (version comment : option string) (now : Z)
    : list VersionEntry * option string :=
  match version with
  | Some v =>
      if negb (String.eqb v "stage") then
        let v := if String.eqb v "new" then "v0" else v in
        let comment := if str_truthy comment then comment else Some "Initial version" in
        ([mkVersion v comment now], Some v)
      else ([], version)
  | None => ([], version)
  end.

Definition create (alias workspace parent_id : option string)
    (manifest : option (gmap string json)) (type : option string)
    (config : option Config) (secrets : option (gmap string json))
    (publish_to version comment : option string) (overwrite : bool)
    (context : option Context) (env : Env) (st : State)
    : result (gmap string pyval * State) :=
  '(user_info, ws) ← require_ws context;
  _ ← (if bool_decide (type = Some "collection") || bool_decide (type = Some "generic")
       then raise_if (negb (validate_manifest self type manifest)) ValueError
       else Ok tt);
  '(alias, workspace) ← split_alias alias workspace;
  let created_at := env_now env in
  '(parent_artifact, parent_id, workspace) ←
    resolve_parent (db st) user_info ws parent_id workspace;
  persistent ← workspace_persistent self workspace;
  _ ← raise_if (negb persistent) PermissionError;
  let config := default empty_config config in
  '(alias, id, overwrite, config) ←
    resolve_alias (db st) env parent_artifact workspace alias parent_id publish_to
      overwrite config;
  parent_permissions ← parent_permissions_of parent_artifact;
  let config := merge_permissions config user_info parent_permissions in
  let '(versions, version) := initial_versions version comment (env_now env) in
  _ ← py_assert (truthy_dict manifest);
  let new_artifact :=
    mkArtifact id type workspace parent_id (Some alias) manifest
      (if bool_decide (version = Some "stage") then JsonVal [] else JsonNull)
      0%Qc 0%Qc 0 created_at (Some (user_id user_info)) (env_now env)
      (Some versions) (Some config) secrets in
  version_index ← _get_version_index new_artifact (version_of version);
  collections ←
    (if bool_decide (type = Some "vector-collection") then
       _ ← py_assert (vectordb_client self);
       Ok (vector_collections st ++ [workspace +:+ "^" +:+ alias])%list
     else Ok (vector_collections st));
  rows ← (if (overwrite : bool) then db_merge new_artifact (db st)
          else db_add new_artifact (db st));
  let st := set_vector_collections collections (set_db rows st) in
  st ← _save_version_to_s3 version_index new_artifact
         (_get_s3_config new_artifact parent_artifact) st;
  Ok (_generate_artifact_data new_artifact parent_artifact, st).

(** ** edit *)

(** [f"v{len(versions)}"] *)
Definition version_label (n : nat) : string := "v" +:+ pretty n.

(** The version block of [edit]: the row after it and the snapshot index. *)
Definition edit_version (artifact : ArtifactModel) (version comment : option string)
    (now : Z) : result (ArtifactModel * Z) :=
  match version with
  | Some v =>
      if negb (String.eqb v "stage") then
        let versions := default [] (a_versions artifact) in
        let v := if String.eqb v "new" then version_label (length versions) else v in
        let versions := (versions ++ [mkVersion v comment now])%list in
        let artifact := set_versions (Some versions) artifact in
        version_index ← _get_version_index artifact (VStr "latest");
        Ok (artifact, version_index)
      else
        version_index ← _get_version_index artifact (VStr "stage");
        Ok (artifact, version_index)
  | None =>
      version_index ← _get_version_index artifact VNone;
      Ok (artifact, version_index)
  end.

(** The config block of [edit]: permissions are merged only under a parent. *)
Definition edit_config (artifact : ArtifactModel)
    (parent_artifact : option ArtifactModel) (user_info : UserInfo)
    (config : option Config) : result ArtifactModel :=
  match config with
  | Some config =>
      match parent_artifact with
      | Some _ =>
          parent_permissions ← parent_permissions_of parent_artifact;
          Ok (set_config (Some (merge_permissions config user_info parent_permissions))
                artifact)
      | None => Ok (set_config (Some config) artifact)
      end
  | None => Ok artifact
  end.

Definition edit (artifact_id : string) (manifest : option (gmap string json))
    (type : option string) (config : option Config)
    (secrets : option (gmap string json)) (version comment : option string)
    (context : option Context) (env : Env) (st : State)
    : result (gmap string pyval * State) :=
  '(user_info, ws) ← require_ws context;
  artifact_id ← _validate_artifact_id artifact_id ws;
  '(artifact, parent_artifact) ←
    _get_artifact_with_permission (db st) user_info artifact_id "edit";
  let artifact :=
    set_type (if str_truthy type then type else a_type artifact) artifact in
  _ ← (if truthy_dict manifest
          && (bool_decide (a_type artifact = Some "collection")
              || bool_decide (a_type artifact = Some "generic"))
       then raise_if (negb (validate_manifest self (a_type artifact) manifest)) ValueError
       else Ok tt);
  let artifact :=
    if truthy_dict manifest then set_manifest manifest artifact else artifact in
  '(artifact, version_index) ← edit_version artifact version comment (env_now env);
  artifact ← edit_config artifact parent_artifact user_info config;
  let artifact :=
    match secrets with
    | Some _ => set_secrets secrets artifact
    | None => artifact
    end in
  let artifact := set_last_modified (env_now env) artifact in
  if negb (bool_decide (version = Some "stage")) then
    let artifact := set_staging JsonNull artifact in
    rows ← db_update artifact (db st);
    let st := set_db rows st in
    st ← _save_version_to_s3 version_index artifact
           (_get_s3_config artifact parent_artifact) st;
    Ok (_generate_artifact_data artifact parent_artifact, st)
  else
    let artifact :=
      match py_value (a_staging artifact) with
      | Some (_ :: _) => artifact
      | _ => set_staging (JsonVal []) artifact
      end in
    st ← _save_version_to_s3 version_index artifact
           (_get_s3_config artifact parent_artifact) st;
    rows ← db_update artifact (db st);
    Ok (_generate_artifact_data artifact parent_artifact, set_db rows st).

(** ** read *)

(** [artifact_data["config"] = artifact_data.get("config", {})] followed by
    the assignment of one count into that dict. *)
Definition attach_count (set : Z -> Config -> Config) (n : Z)
    (artifact_data : gmap string pyval) : result (gmap string pyval) :=
  match artifact_data !! "config" with
  | None => Ok (<["config" := PConfig (set n empty_config)]> artifact_data)
  | Some (PConfig c) => Ok (<["config" := PConfig (set n c)]> artifact_data)
  | Some _ => Err TypeError
  end.

(** The answer is built from the row as the session loaded it, before the
    view count is incremented; the counts attached to [config] are written
    into the answer only and are not persisted. *)
Definition read (artifact_id : string) (silent : bool) (version : version_arg)
    (context : option Context) (env : Env) (st : State)
    : result (gmap string pyval * State) :=
  '(user_info, ws) ← require_ws context;
  artifact_id ← _validate_artifact_id artifact_id ws;
  '(artifact, parent_artifact) ←
    _get_artifact_with_permission (db st) user_info artifact_id "read";
  rows ← (if silent then Ok (db st)
          else _increment_stat (db st) artifact_id view_count 1%Qc);
  version_index ← _get_version_index artifact version;
  current ← _get_version_index artifact VNone;
  artifact_data ←
    (if version_index =? current then Ok (_generate_artifact_data artifact parent_artifact)
     else _load_version_from_s3 artifact version_index
            (_get_s3_config artifact None) false st);
  artifact_data ←
    (if bool_decide (a_type artifact = Some "collection") then
       let child_count :=
         Z.of_nat (length (select_where
           (fun r => bool_decide (a_parent_id r = Some (a_id artifact))) (db st))) in
       attach_count with_child_count child_count artifact_data
     else if bool_decide (a_type artifact = Some "vector-collection")
             && vectordb_client self then
       n ← env_vector_count env;
       attach_count with_vector_count n artifact_data
     else Ok artifact_data);
  Ok (artifact_data, set_db rows st).

(** ** commit *)

(** The loop over the staged files: every blob must exist; the positive
    download weights are collected by path. *)
Fixpoint check_staged_files (b p ws i : string) (n : Z) (files : list file_key)
    (staging : list FileInfo) (download_weights : gmap string Qc)
    : result (gmap string Qc) :=
  match staging with
  | [] => Ok download_weights
  | file_info :: rest =>
      if bool_decide ((b, p, ws, i, n, f_path file_info) ∈ files) then
        let download_weights :=
          match f_download_weight file_info with
          | Some w =>
              if bool_decide (0 < w)%Qc
              then <[f_path file_info := w]> download_weights
              else download_weights
          | None => download_weights
          end in
        check_staged_files b p ws i n files rest download_weights
      else Err FileNotFoundError
  end.

(** The block of [commit] guarded by [if artifact.staging]. *)
Definition commit_files (artifact : ArtifactModel)
    (parent_artifact : option ArtifactModel) (version_index : Z) (st : State)
    : result ArtifactModel :=
  match py_value (a_staging artifact) with
  | Some (f :: fs) =>
      let s3_config := _get_s3_config artifact parent_artifact in
      _ ← _create_client_async s3_config;
      key ← version_key s3_config artifact version_index;
      let '(b, p, ws, i, n) := key in
      download_weights ← check_staged_files b p ws i n (s3_files st) (f :: fs) ∅;
      let artifact :=
        if negb (Nat.eqb (size download_weights) 0) then
          set_config
            (Some (with_download_weights download_weights
                     (default empty_config (a_config artifact)))) artifact
        else artifact in
      file_count ← _count_files_in_prefix s3_config artifact version_index st;
      Ok (set_file_count file_count artifact)
  | _ => Ok artifact
  end.

(** The version block of [commit]. *)
Definition commit_versions (versions : list VersionEntry)
    (version comment : option string) (now : Z) : list VersionEntry :=
  match version with
  | Some v =>
      let v := if String.eqb v "new" then version_label (length versions) else v in
      (versions ++ [mkVersion v comment now])%list
  | None => versions
  end.

Definition commit (artifact_id : string) (version comment : option string)
    (context : option Context) (env : Env) (st : State)
    : result (gmap string pyval * State) :=
  '(user_info, ws) ← require_ws context;
  artifact_id ← _validate_artifact_id artifact_id ws;
  _ ← py_assert (negb (bool_decide (version = Some "stage")));
  '(artifact, parent_artifact) ←
    _get_artifact_with_permission (db st) user_info artifact_id "commit";
  version_index ← _get_version_index artifact (VStr "stage");
  let s3_config := _get_s3_config artifact None in
  artifact_data ← _load_version_from_s3 artifact version_index s3_config false st;
  artifact ← ArtifactModel_of_dict (env_uuid env) artifact_data;
  let versions := default [] (a_versions artifact) in
  let artifact :=
    set_config (Some (default empty_config (a_config artifact))) artifact in
  artifact ← commit_files artifact parent_artifact version_index st;
  _ ← match parent_artifact with
      | Some p =>
          match a_config p with
          | Some c =>
              match c_collection_schema c with
              | Some collection_schema =>
                  raise_if (negb (validate_schema self (a_manifest artifact)
                                    collection_schema)) ValueError
              | None => Ok tt
              end
          | None => Ok tt
          end
      | None => Ok tt
      end;
  _ ← py_assert (truthy_dict (a_manifest artifact));
  let versions := commit_versions versions version comment (env_now env) in
  let artifact := set_versions (Some versions) artifact in
  let artifact := set_staging JsonNull artifact in
  let artifact := set_last_modified (env_now env) artifact in
  rows ← db_merge artifact (db st);
  let st := set_db rows st in
  version_index ← _get_version_index artifact VNone;
  st ← _save_version_to_s3 version_index artifact
         (_get_s3_config artifact parent_artifact) st;
  Ok (_generate_artifact_data artifact parent_artifact, st).

(** ** list_children *)

(** SQL's three-valued connectives; [None] is UNKNOWN. *)
Definition sql_and (x y : option bool) : option bool :=
  match x, y with
  | Some false, _ | _, Some false => Some false
  | Some true, Some true => Some true
  | _, _ => None
  end.

Definition sql_or (x y : option bool) : option bool :=
  match x, y with
  | Some true, _ | _, Some true => Some true
  | Some false, Some false => Some false
  | _, _ => None
  end.

(** [staging IS NULL] *)
Definition sql_is_null {A} (c : json_column A) : option bool :=
  match c with
  | SqlNull => Some true
  | _ => Some false
  end.

(** [staging IS NOT NULL] *)
Definition sql_isnot_null {A} (c : json_column A) : option bool :=
  match c with
  | SqlNull => Some false
  | _ => Some true
  end.

(** [staging = 'null'] on the text of the column. *)
Definition sql_text_is_null {A} (c : json_column A) : option bool :=
  match c with
  | SqlNull => None
  | JsonNull => Some true
  | JsonVal _ => Some false
  end.

(** [staging != 'null'] on the text of the column. *)
Definition sql_text_isnot_null {A} (c : json_column A) : option bool :=
  match c with
  | SqlNull => None
  | JsonNull => Some false
  | JsonVal _ => Some true
  end.

Definition stage_condition (stage : bool) (a : ArtifactModel) : option bool :=
  if stage then
    sql_and (sql_isnot_null (a_staging a)) (sql_text_isnot_null (a_staging a))
  else
    sql_or (sql_is_null (a_staging a)) (sql_text_is_null (a_staging a)).

(** A row passes [WHERE c] when [c] is TRUE. *)
Definition sql_where (c : option bool) : bool :=
  match c with
  | Some true => true
  | _ => false
  end.

Definition column_names : list string :=
  ["id"; "type"; "workspace"; "parent_id"; "alias"; "manifest"; "staging";
   "download_count"; "view_count"; "file_count"; "created_at"; "created_by";
   "last_modified"; "versions"; "config"; "secrets"].

Definition fixed_fields : list string :=
  ["type"; "alias"; "workspace"; "parent_id"; "created_by"].

Definition range_fields : list string :=
  ["created_at"; "last_modified"; "download_count"; "view_count"].

(** The conditions of one [manifest] filter. *)
Fixpoint manifest_conditions (items : list (string * json)) : result (list condition) :=
  match items with
  | [] => Ok []
  | (manifest_key, manifest_value) :: rest =>
      c ← match manifest_value with
          | JStr s =>
              if contains_char "*"%char s then Ok (ManifestLike manifest_key s)
              else Ok (ManifestEq manifest_key manifest_value)
          | JArr l =>
              if json_str_in "*" l then Err AttributeError
              else Ok (ManifestEq manifest_key manifest_value)
          | JObj m =>
              if bool_decide (is_Some (m !! "*")) then Err AttributeError
              else Ok (ManifestEq manifest_key manifest_value)
          | _ => Err TypeError
          end;
      cs ← manifest_conditions rest;
      Ok (c :: cs)
  end.

(** The conditions of one [config] filter: only [permissions] is read. *)
Definition config_conditions (items : list (string * json)) : list condition :=
  flat_map (fun '(config_key, config_value) =>
    match config_value with
    | JObj m =>
        if String.eqb config_key "permissions"
        then map (fun '(user_id, permission) => PermissionEq user_id permission)
               (map_to_list m)
        else []
    | _ => []
    end) items.

(** The loop over [filters.items()]: the stage flag and the conditions. *)
Fixpoint filter_conditions (items : list (string * json)) (stage : bool)
    : result (bool * list condition) :=
  match items with
  | [] => Ok (stage, [])
  | (key, value) :: rest =>
      if String.eqb key "stage" then filter_conditions rest (truthy value)
      else
        cs ← match value with
             | JObj m =>
                 if String.eqb key "manifest" then manifest_conditions (map_to_list m)
                 else if String.eqb key "config" then Ok (config_conditions (map_to_list m))
                 else if bool_decide (key ∈ fixed_fields) then Ok [FixedEq key value]
                 else if bool_decide (key ∈ range_fields) then Ok [RangeGe key value]
                 else Err ValueError
             | JArr l =>
                 if bool_decide (key ∈ fixed_fields) then Ok [FixedEq key value]
                 else if bool_decide (key ∈ range_fields) then
                   match l with
                   | lo :: hi :: _ => Ok [RangeBetween key lo hi]
                   | _ => Err IndexError
                   end
                 else Err ValueError
             | _ =>
                 if bool_decide (key ∈ fixed_fields) then Ok [FixedEq key value]
                 else if bool_decide (key ∈ range_fields) then Ok [RangeGe key value]
                 else Err ValueError
             end;
        '(stage, cs') ← filter_conditions rest stage;
        Ok (stage, (cs ++ cs')%list)
  end.

(** [query.where(or_(...))] when [mode == "OR"], else [and_(...)]. *)
Definition combined (mode : string) (conditions : list condition)
    (a : ArtifactModel) : bool :=
  match conditions with
  | [] => true
  | _ =>
      if String.eqb mode "OR" then existsb (fun c => sql_eval self c a) conditions
      else forallb (fun c => sql_eval self c a) conditions
  end.

Inductive order_field :=
| ById | ByViewCount | ByDownloadCount | ByLastModified | ByCreatedAt.

Definition order_field_map (name : string) : option order_field :=
  if String.eqb name "id" then Some ById
  else if String.eqb name "view_count" then Some ByViewCount
  else if String.eqb name "download_count" then Some ByDownloadCount
  else if String.eqb name "last_modified" then Some ByLastModified
  else if String.eqb name "created_at" then Some ByCreatedAt
  else None.

Definition row_leb (f : order_field) (x y : ArtifactModel) : bool :=
  match f with
  | ById => String.leb (a_id x) (a_id y)
  | ByViewCount => bool_decide (a_view_count x ≤ a_view_count y)%Qc
  | ByDownloadCount => bool_decide (a_download_count x ≤ a_download_count y)%Qc
  | ByLastModified => a_last_modified x <=? a_last_modified y
  | ByCreatedAt => a_created_at x <=? a_created_at y
  end.

(** [ORDER BY field ASC|DESC]; rows with equal keys keep their table order. *)
Definition order_rows (f : order_field) (ascending : bool)
    (rows : list ArtifactModel) : list ArtifactModel :=
  merge_sort (fun x y => Is_true (if ascending then row_leb f x y else row_leb f y x))
    rows.

(** What [list_children] returns: the items, or a page with the total. *)
Inductive listing :=
| Items (items : list (gmap string pyval))
| Page (items : list (gmap string pyval)) (total : Z) (offset limit : nat).

Definition listing_items (l : listing) : list (gmap string pyval) :=
  match l with
  | Items items => items
  | Page items _ _ _ => items
  end.

(** The projection asked for by the parent's [config.list_fields]:
    [None] when the whole rows are selected.  A field has to name a column
    for [getattr(ArtifactModel, field)] to build the query.  With a
    projection the query returns scalars of the first column, on which
    [_generate_artifact_data] fails. *)
Definition projection (parent_artifact : option ArtifactModel)
    : result (option (list json)) :=
  match parent_artifact with
  | Some p =>
      match c_list_fields (default empty_config (a_config p)) with
      | Some list_fields =>
          if truthy list_fields then
            match list_fields with
            | JArr fields =>
                _ ← py_assert (negb (json_str_in "secrets" fields));
                _ ← raise_if
                      (negb (forallb (fun j =>
                         match j with
                         | JStr x => bool_decide (x ∈ column_names)
                         | _ => false
                         end) fields)) AttributeError;
                Ok (Some fields)
            | _ => Err AssertionError
            end
          else Ok None
      | None => Ok None
      end
  | None => Ok None
  end.

(** The base query: the children of the parent, or the parentless rows of
    the caller's workspace. *)
Definition in_scope (parent_artifact : option ArtifactModel) (ws : string)
    (a : ArtifactModel) : bool :=
  match parent_artifact with
  | Some p => bool_decide (a_parent_id a = Some (a_id p))
  | None => bool_decide (a_parent_id a = None) && String.eqb (a_workspace a) ws
  end.

Definition list_children (parent_id : option string) (keywords : list string)
    (filters : list (string * json)) (mode : string) (offset limit : nat)
    (order_by : option string) (silent pagination : bool)
    (context : option Context) (st : State) : result (listing * State) :=
  '(user_info, ws) ← require_ws context;
  parent_artifact ←
    (if str_truthy parent_id then
       pid ← _validate_artifact_id (default "" parent_id) ws;
       '(p, _) ← _get_artifact_with_permission (db st) user_info pid "list";
       Ok (Some p)
     else Ok None);
  fields ← projection parent_artifact;
  '(stage, filter_conds) ← filter_conditions filters false;
  let conditions := (map KeywordLike keywords ++ filter_conds)%list in
  let matching :=
    List.filter (fun a => in_scope parent_artifact ws a
                          && sql_where (stage_condition stage a)
                          && combined mode conditions a) (db st) in
  let total_count := Z.of_nat (length matching) in
  let order_by := if str_truthy order_by then default "" order_by else "id" in
  let ascending := contains_char "<"%char order_by in
  order_field ←
    match order_field_map (default "" (head (split_char "<"%char order_by))) with
    | Some f => Ok f
    | None => Err AttributeError
    end;
  let artifacts := take limit (drop offset (order_rows order_field ascending matching)) in
  results ←
    match fields with
    | Some _ =>
        match artifacts with
        | [] => Ok []
        | _ :: _ => Err AttributeError
        end
    | None => Ok (map (fun a => _generate_artifact_data a parent_artifact) artifacts)
    end;
  rows ←
    match parent_artifact with
    | Some p =>
        if negb silent then _increment_stat (db st) (a_id p) view_count 1%Qc
        else Ok (db st)
    | None => Ok (db st)
    end;
  Ok (if pagination then Page results total_count offset limit else Items results,
      set_db rows st).

(** ** delete *)

(** [l.pop(i)]: negative indices count from the end. *)
Definition py_pop {A} (i : Z) (l : list A) : result (list A) :=
  let n := Z.of_nat (length l) in
  let j := if i <? 0 then i + n else i in
  if (0 <=? j) && (j <? n) then Ok (delete (Z.to_nat j) l) else Err IndexError.

(** Calling a coroutine function without [await] builds a coroutine object
    and drops it: the body never runs and the stores are left as they are. *)
Definition not_awaited {A} (coroutine : State -> result A) (st : State) : State := st.

(** [remove_objects_async] on the directory of the artifact. *)
Definition remove_artifact_objects (artifact : ArtifactModel) (s3_config : S3Config)
    (st : State) : result State :=
  p ← as_str (prefix s3_config);
  _ ← _create_client_async s3_config;
  b ← as_str (bucket s3_config);
  let here (k : snapshot_key) : bool :=
    bool_decide (k.1 = (b, p, a_workspace artifact, a_id artifact)) in
  Ok (set_s3_files
        (List.filter (fun k : file_key => negb (here k.1)) (s3_files st))
        (set_s3_snapshots
           (filter (fun kv : snapshot_key * gmap string pyval => here kv.1 = false)
              (s3_snapshots st)) st)).

(** The loop [for child in children: await self.delete(child["id"], ...)]. *)
Fixpoint delete_each (delete_child : string -> State -> result State)
    (children : list (gmap string pyval)) (st : State) : result State :=
  match children with
  | [] => Ok st
  | child :: rest =>
      match child !! "id" with
      | Some (PStr child_id) =>
          st ← delete_child child_id st;
          delete_each delete_child rest st
      | Some _ => Err TypeError
      | None => Err KeyError
      end
  end.

(** The body of [delete]; [delete_child] stands for the nested call
    [self.delete(child["id"], delete_files=delete_files, context=context)]. *)
Definition delete_body (delete_child : string -> State -> result State)
    (artifact_id : string) (delete_files recursive : bool) (version : version_arg)
    (context : option Context) (st : State) : result State :=
  '(user_info, ws) ← require_ws context;
  artifact_id ← _validate_artifact_id artifact_id ws;
  '(artifact, parent_artifact) ←
    _get_artifact_with_permission (db st) user_info artifact_id "delete";
  st ← (if bool_decide (a_type artifact = Some "vector-collection") then
          _ ← py_assert (vectordb_client self);
          let name := a_workspace artifact +:+ "^" +:+ py_str (a_alias artifact) in
          Ok (set_vector_collections
                (List.filter (fun c => negb (String.eqb c name)) (vector_collections st))
                st)
        else Ok st);
  let s3_config := _get_s3_config artifact parent_artifact in
  match version with
  | VNone =>
      st ← (if recursive then
              '(children, st) ←
                list_children (Some artifact_id) [] [] "AND" 0 100 None false false
                  context st;
              delete_each delete_child (listing_items children) st
            else Ok st);
      st ← (if delete_files then remove_artifact_objects artifact s3_config st
            else Ok st);
      _ ← raise_if (negb (has_id (a_id artifact) (db st))) RuntimeError;
      _ ← raise_if
            (enforce_foreign_keys self
             && existsb (fun r => bool_decide (a_parent_id r = Some (a_id artifact)))
                  (db st)) IntegrityError;
      Ok (set_db (db_delete (a_id artifact) (db st)) st)
  | _ =>
      version_index ← _get_version_index artifact version;
      versions ← match a_versions artifact with
                 | Some vs => py_pop version_index vs
                 | None => Err AttributeError
                 end;
      let artifact := set_versions (Some versions) artifact in
      let st :=
        not_awaited
          (_delete_version_files_from_s3 version_index artifact s3_config delete_files)
          st in
      rows ← db_update artifact (db st);
      Ok (set_db rows st)
  end.

(** The nested call leaves [recursive] and [version] at their defaults, so
    it never makes a nested call of its own. *)
Definition delete_child (delete_files : bool) (context : option Context)
    (child_id : string) (st : State) : result State :=
  delete_body (fun _ st => Ok st) child_id delete_files false VNone context st.

Definition delete (artifact_id : string) (delete_files recursive : bool)
    (version : version_arg) (context : option Context) (st : State)
    : result State :=
  delete_body (delete_child delete_files context) artifact_id delete_files
    recursive version context st.

End Controller.

(** * Files and statistics *)

(** [s.replace(old, new)] for a non-empty [old]: the occurrences are
    replaced from the left and do not overlap; [skip] counts the characters
    of the occurrence just replaced that are still to be dropped. *)
Fixpoint replace_from (old new : string) (skip : nat) (s : string) : string :=
  match s with
  | EmptyString => EmptyString
  | String c s' =>
      match skip with
      | S k => replace_from old new k s'
      | O =>
          if String.prefix old s
          then new +:+ replace_from old new (String.length old - 1) s'
          else String c (replace_from old new 0 s')
      end
  end.

(** [s.replace(old, new)]; an empty [old] matches before every character
    and at the end. *)
Definition py_replace (old new s : string) : string :=
  if String.eqb old "" then
    new +:+ String.concat ""
              (map (fun c => String c new) (String.list_ascii_of_string s))
  else replace_from old new 0 s.

(** The replacement of the endpoint by the public endpoint in a pre-signed
    URL, when the configuration has a public endpoint. *)
Definition public_url (s3_config : S3Config) (presigned_url : string)
    : result string :=
  if truthy (public_endpoint_url s3_config) then
    match endpoint_url s3_config, public_endpoint_url s3_config with
    | JStr old, JStr new => Ok (py_replace old new presigned_url)
    | _, _ => Err TypeError
    end
  else Ok presigned_url.

(** [artifact.config.get("download_weights", {})] when the config has the
    key, else [{}]. *)
Definition download_weights_of (artifact : ArtifactModel) : gmap string Qc :=
  match a_config artifact with
  | Some c => default ∅ (c_download_weights c)
  | None => ∅
  end.

(** [assert artifact.staging is not None] *)
Definition require_staging (artifact : ArtifactModel) : result (list FileInfo) :=
  match py_value (a_staging artifact) with
  | Some staging => Ok staging
  | None => Err AssertionError
  end.

Section Files.

Variable self : ArtifactController.

(** What [s3_client.generate_presigned_url(method, Params={Bucket, Key})]
    answers for a method and an object. *)
Variable generate_presigned_url : string -> file_key -> string.

Definition reset_stats (artifact_id : string) (context : option Context)
    (env : Env) (st : State) : result State :=
  '(user_info, ws) ← require_ws context;
  artifact_id ← _validate_artifact_id artifact_id ws;
  '(artifact, _) ←
    _get_artifact_with_permission (db st) user_info artifact_id "reset_stats";
  let artifact := set_download_count 0%Qc artifact in
  let artifact := set_view_count 0%Qc artifact in
  let artifact := set_last_modified (env_now env) artifact in
  rows ← db_update artifact (db st);
  Ok (set_db rows st).

Definition put_file (artifact_id file_path : string) (download_weight : Qc)
    (context : option Context) (st : State) : result (string * State) :=
  '(user_info, ws) ← require_ws context;
  artifact_id ← _validate_artifact_id artifact_id ws;
  _ ← py_assert (bool_decide (0 ≤ download_weight)%Qc);
  '(artifact, parent_artifact) ←
    _get_artifact_with_permission (db st) user_info artifact_id "put_file";
  staging ← require_staging artifact;
  version_index ← _get_version_index artifact (VStr "stage");
  let s3_config := _get_s3_config self artifact parent_artifact in
  _ ← _create_client_async s3_config;
  key ← version_key s3_config artifact version_index;
  presigned_url ←
    public_url s3_config (generate_presigned_url "put_object" (key, file_path));
  let staging :=
    if existsb (fun f => String.eqb (f_path f) file_path) staging then staging
    else (staging ++ [mkFileInfo file_path (Some download_weight)])%list in
  let artifact := set_staging (JsonVal staging) artifact in
  st ← _save_version_to_s3 version_index artifact s3_config st;
  rows ← db_update artifact (db st);
  Ok (presigned_url, set_db rows st).

(** The transaction of [remove_file] up to its [session.commit()]. *)
Definition remove_file_row (artifact_id file_path : string)
    (context : option Context) (st : State)
    : result (ArtifactModel * option ArtifactModel * State) :=
  '(user_info, ws) ← require_ws context;
  artifact_id ← _validate_artifact_id artifact_id ws;
  '(artifact, parent_artifact) ←
    _get_artifact_with_permission (db st) user_info artifact_id "remove_file";
  staging ← require_staging artifact;
  let staging :=
    List.filter (fun f => negb (String.eqb (f_path f) file_path)) staging in
  let artifact := set_staging (JsonVal staging) artifact in
  rows ← db_update artifact (db st);
  Ok (artifact, parent_artifact, set_db rows st).

(** The rest of [remove_file]: the object is deleted from the staged
    version's directory. *)
Definition remove_file_object (artifact : ArtifactModel)
    (parent_artifact : option ArtifactModel) (file_path : string) (st : State)
    : result State :=
  version_index ← _get_version_index artifact (VStr "stage");
  let s3_config := _get_s3_config self artifact parent_artifact in
  _ ← _create_client_async s3_config;
  key ← version_key s3_config artifact version_index;
  Ok (set_s3_files
        (List.filter (fun k : file_key => negb (bool_decide (k = (key, file_path))))
           (s3_files st)) st).

(** The row is committed before the object is deleted: when the second
    part fails, the table is the one [remove_file_row] left. *)
Definition remove_file (artifact_id file_path : string)
    (context : option Context) (st : State) : result State :=
  '(artifact, parent_artifact, st) ← remove_file_row artifact_id file_path context st;
  remove_file_object artifact parent_artifact file_path st.

Definition get_file (artifact_id path : string) (silent : bool)
    (version : version_arg) (context : option Context) (st : State)
    : result (string * State) :=
  '(user_info, ws) ← require_ws context;
  artifact_id ← _validate_artifact_id artifact_id ws;
  '(artifact, parent_artifact) ←
    _get_artifact_with_permission (db st) user_info artifact_id "get_file";
  version_index ← _get_version_index artifact version;
  let s3_config := _get_s3_config self artifact parent_artifact in
  _ ← _create_client_async s3_config;
  key ← version_key s3_config artifact version_index;
  _ ← raise_if (negb (bool_decide ((key, path) ∈ s3_files st))) FileNotFoundError;
  presigned_url ←
    public_url s3_config (generate_presigned_url "get_object" (key, path));
  rows ←
    (if silent then Ok (db st)
     else
       let download_weight := default 0%Qc (download_weights_of artifact !! path) in
       if bool_decide (0 < download_weight)%Qc then
         _increment_stat (db st) (a_id artifact) download_count download_weight
       else Ok (db st));
  Ok (presigned_url, set_db rows st).

End Files.

(** * Nested values *)

(** The walk of [get_nested_value] along the keys: it stops at the first
    [None]. *)
Fixpoint get_nested_keys (keys : list string) (value : json) : result json :=
  match keys with
  | [] => Ok value
  | key :: rest =>
      match value with
      | JObj m =>
          match json_get m key with
          | JNull => Ok JNull
          | value => get_nested_keys rest value
          end
      | _ => Err AttributeError
      end
  end.

Definition get_nested_value (field : string) (_metadata : json) : result json :=
  get_nested_keys (split_char "."%char field) _metadata.

(** The walk of [set_nested_value]: [setdefault(key, {})] along all keys
    but the last, then the assignment.  The dicts are updated in place; the
    result is the outermost dict after the update. *)
Fixpoint set_nested_keys (keys : list string) (value : json) (dictionary : json)
    : result json :=
  match keys with
  | [] => Err IndexError
  | key :: rest =>
      match rest with
      | [] =>
          match dictionary with
          | JObj m => Ok (JObj (<[key := value]> m))
          | _ => Err TypeError
          end
      | _ :: _ =>
          match dictionary with
          | JObj m =>
              child ← set_nested_keys rest value (default (JObj ∅) (m !! key));
              Ok (JObj (<[key := child]> m))
          | _ => Err AttributeError
          end
      end
  end.

Definition set_nested_value (dictionary : json) (field : string) (value : json)
    : result json :=
  set_nested_keys (split_char "."%char field) value dictionary.

(** [field.split("=", 1)] for a field that contains the separator. *)
Fixpoint split_first (c : ascii) (s : string) : string * string :=
  match s with
  | EmptyString => (EmptyString, EmptyString)
  | String a s' =>
      if Ascii.eqb a c then (EmptyString, s')
      else let '(x, y) := split_first c s' in (String a x, y)
  end.

Definition update_summary (summary : json) (field : string) (_metadata : json)
    : result json :=
  let field :=
    match field with
    | String "." rest => rest
    | _ => "manifest." +:+ field
    end in
  if contains_char "="%char field then
    let '(key, value_field) := split_first "="%char field in
    value ← get_nested_value value_field _metadata;
    set_nested_value summary key value
  else
    value ← get_nested_value field _metadata;
    set_nested_value summary field value.

(** * The constraints of the table *)

(** The primary key: no two rows share an id. *)
Definition unique_ids (rows : list ArtifactModel) : Prop :=
  NoDup (map a_id rows).




(** Two rows with the same id, workspace and alias. *)
Definition same_keys (r r' : ArtifactModel) : Prop :=
  a_id r = a_id r' /\ a_workspace r = a_workspace r' /\ a_alias r = a_alias r'.

(** Every row of [rows'] carries the keys of a row of [rows]. *)
Definition rows_from (rows rows' : list ArtifactModel) : Prop :=
  forall r', r' ∈ rows' -> exists r, r ∈ rows /\ same_keys r r'.

(** * Specification vocabulary *)

(** The twelve permission codes of the expansion table. *)
Definition documented_codes : list string :=
  ["n"; "l"; "l+"; "lv"; "lv+"; "lf"; "lf+"; "r"; "r+"; "rw"; "rw+"; "*"].

(** The operations an authorization check is defined for. *)
Definition supported_operations : list string :=
  ["read"; "get_file"; "list_files"; "list_vectors"; "list"; "get_vector";
   "search_by_vector"; "search_by_text"; "create"; "edit"; "commit";
   "put_file"; "remove_file"; "add_vectors"; "add_documents";
   "remove_vectors"; "delete"; "reset_stats"; "publish"].

(** The operation-to-tier table as the specification words it. *)
Definition required_tier (operation : string) : option UserPermission.t :=
  if bool_decide (operation ∈ ["read"; "get_file"; "list_files"; "list_vectors";
                                "list"; "get_vector"; "search_by_vector";
                                "search_by_text"])
  then Some UserPermission.read
  else if bool_decide (operation ∈ ["create"; "edit"; "commit"; "put_file";
                                     "remove_file"; "add_vectors";
                                     "add_documents"; "remove_vectors"])
  then Some UserPermission.read_write
  else if bool_decide (operation ∈ ["delete"; "reset_stats"; "publish"])
  then Some UserPermission.admin
  else None.

(** Key [key] is present in [permissions] and [operation] is in the
    expansion of its value. *)
Definition expansion_grants (permissions : gmap string permission)
    (key operation : string) : Prop :=
  exists p, permissions !! key = Some p /\ operation ∈ _expand_permission p.

(** The four grants of the evaluation order. *)
Definition access_granted (user_info : UserInfo) (artifact : ArtifactModel)
    (operation : string) (tier : UserPermission.t) : Prop :=
  let permissions := artifact_permissions artifact in
  expansion_grants permissions (user_id user_info) operation
  \/ (is_anonymous user_info = false /\ expansion_grants permissions "@" operation)
  \/ expansion_grants permissions "*" operation
  \/ (exists held, user_workspaces user_info !! a_workspace artifact = Some held
                   /\ (UserPermission.level tier <= UserPermission.level held)%nat).

(** The artifact and parent an operation resolves for the caller. *)
Definition resolve (artifact_id operation : string) (context : option Context)
    (st : State) : result (UserInfo * ArtifactModel * option ArtifactModel) :=
  '(user_info, ws) ← require_ws context;
  artifact_id ← _validate_artifact_id artifact_id ws;
  '(artifact, parent_artifact) ←
    _get_artifact_with_permission (db st) user_info artifact_id operation;
  Ok (user_info, artifact, parent_artifact).


(** The rows a listing selects, before ordering and pagination. *)
Definition listing_matches (self : ArtifactController)
    (parent : option ArtifactModel) (ws : string) (stage : bool) (mode : string)
    (conditions : list condition) (rows : list ArtifactModel) : list ArtifactModel :=
  List.filter (fun a => in_scope parent ws a && sql_where (stage_condition stage a)
                        && combined self mode conditions a) rows.

(** The parent a listing resolves. *)
Definition resolve_listing (parent_id : option string) (context : option Context)
    (st : State) : result (option ArtifactModel * string) :=
  '(user_info, ws) ← require_ws context;
  if str_truthy parent_id then
    pid ← _validate_artifact_id (default "" parent_id) ws;
    '(p, _) ← _get_artifact_with_permission (db st) user_info pid "list";
    Ok (Some p, ws)
  else Ok (None, ws).

(** The row [edit] works on once type and manifest are set. *)
Definition edit_input (live : ArtifactModel) (manifest : option (gmap string json))
    (type : option string) : ArtifactModel :=
  let a := set_type (if str_truthy type then type else a_type live) live in
  if truthy_dict manifest then set_manifest manifest a else a.

(** The row [edit] stores, from the row after its config block. *)
Definition edit_output (a : ArtifactModel) (secrets : option (gmap string json))
    (version : option string) (now : Z) : ArtifactModel :=
  let a := match secrets with
           | Some _ => set_secrets secrets a
           | None => a
           end in
  let a := set_last_modified now a in
  if negb (bool_decide (version = Some "stage")) then set_staging JsonNull a
  else match py_value (a_staging a) with
       | Some (_ :: _) => a
       | _ => set_staging (JsonVal []) a
       end.

(** * A small deployment to run the operations on *)

Module Scenario.

Definition controller : ArtifactController :=
  mkController (JStr "http://s3") (JStr "key") (JStr "secret") (JStr "region")
    false "http://hypha" "hypha-workspaces" false (fun _ => Ok true)
    (fun _ _ => true) (fun _ _ => true) (fun _ _ => true) false.

Definition carol : UserInfo :=
  mkUserInfo "carol" false {[ "W" := UserPermission.admin ]}.

Definition bob : UserInfo := mkUserInfo "bob" false ∅.

Definition context : option Context := Some (mkContext carol (Some "W")).

Definition env : Env :=
  mkEnv 1000 "id-1" [["happy-cat"]] (Err RuntimeError) (Err RuntimeError).

Definition manifest : gmap string json :=
  {[ "name" := JStr "n"; "description" := JStr "d" ]}.

Definition secrets : gmap string json := {[ "TOKEN" := JStr "t" ]}.

Definition empty_state : State := mkState [] ∅ [] [].

(** A committed collection to create under, with the given permissions
    and [list_fields]. *)
Definition parent_row (permissions : gmap string permission)
    (list_fields : option json) : ArtifactModel :=
  mkArtifact "id-0" (Some "collection") "W" None (Some "parent")
    (Some manifest) JsonNull 0%Qc 0%Qc 0 900 (Some "alice") 900
    (Some [mkVersion "v0" None 900])
    (Some (mkConfig (Some permissions) list_fields None None None None None ∅))
    None.

Definition with_parent (permissions : gmap string permission) : State :=
  mkState [parent_row permissions None] ∅ [] [].

(** A child of [parent_row] with the given staging column. *)
Definition child_row (id alias : string) (staging : json_column (list FileInfo))
    : ArtifactModel :=
  mkArtifact id (Some "generic") "W" (Some "id-0") (Some alias)
    (Some manifest) staging 0%Qc 0%Qc 0 950 (Some "carol") 950 (Some [])
    (Some empty_config) None.

(** Two staged children and one committed child under the parent. *)
Definition with_children : State :=
  mkState [parent_row ∅ None; child_row "id-1" "a" (JsonVal []);
           child_row "id-2" "b" (JsonVal [mkFileInfo "f.csv" None]);
           child_row "id-3" "c" JsonNull] ∅ [] [].

(** A row with no committed version. *)
Definition unversioned : ArtifactModel := child_row "id-9" "fresh" JsonNull.

Definition state_of {A} (r : result (A * State)) : State :=
  match r with
  | Ok (_, st) => st
  | Err _ => empty_state
  end.


(** [create(alias="ds", version=version)] by carol in the empty store. *)
Definition created (version : option string) : result (gmap string pyval * State) :=
  create controller (Some "ds") None None (Some manifest) (Some "generic") None
    (Some secrets) None version None false context env empty_state.

(** The store after [create(version="v0")] and [edit(version="new")]:
    versions v0 and v1, with their two snapshots. *)
Definition two_versions : State :=
  state_of (edit controller "ds" None None None None (Some "new") None context env
              (state_of (created (Some "v0")))).

(** The same store with one blob uploaded under version 0. *)
Definition two_versions_with_blob : State :=
  set_s3_files [("hypha-workspaces", "", "W", "id-1", 0, "a.csv")] two_versions.

(** The store a call that returns nothing leaves behind. *)
Definition final (r : result State) : State :=
  match r with
  | Ok st => st
  | Err _ => empty_state
  end.

(** [create] of a child under [parent_row] by carol. *)
Definition created_child (parent_permissions : gmap string permission)
    (config : option Config) : result (gmap string pyval * State) :=
  create controller (Some "child") None (Some "parent") (Some manifest)
    (Some "generic") config None None (Some "v0") None false context env
    (with_parent parent_permissions).




(** [two_versions] put in staging mode by [edit(version="stage")]: the row
    lists v0 and v1 and the staged snapshot is at index 2. *)
Definition staged_two : State :=
  state_of (edit controller "ds" None None None None (Some "stage") None context env
              two_versions).

(** The same after [delete(version=0)]: the row lists v1 only. *)
Definition staged_after_delete : State :=
  final (delete controller "ds" false false (VInt 0) context staged_two).

End Scenario.

(** * Proofs *)

(** Follows the successful path of a computation in [result]: every bind,
    conditional and pattern on the spine of [H] is split, and the failing
    branches are discharged. *)
Ltac spine H :=
  repeat (match type of H with
          | match ?m with _ => _ end = Ok _ =>
              destruct m eqn:?; try discriminate H
          end; cbv beta in H).

(** A computation that is [is_ok] has a value and a final state. *)
Lemma ran {A} (r : result (A * State)) :
  is_ok r = true -> exists a st, r = Ok (a, st).
Proof. destruct r as [[a st] | e]; [eauto | discriminate]. Qed.

(** ** The artifacts table *)

Lemma db_add_elem a rows rows' : db_add a rows = Ok rows' -> a ∈ rows'.
Proof.
  unfold db_add. intros H. spine H. injection H as <-.
  apply elem_of_app. right. apply list_elem_of_singleton. reflexivity.
Qed.

Lemma db_update_elem a rows rows' :
  has_id (a_id a) rows = true -> db_update a rows = Ok rows' -> a ∈ rows'.
Proof.
  unfold db_update, has_id. intros Hid H. spine H. injection H as <-.
  apply existsb_exists in Hid as (r & Hr & Heq).
  apply list_elem_of_fmap. exists r. rewrite Heq.
  split; [reflexivity | by apply list_elem_of_In].
Qed.

Lemma db_merge_elem a rows rows' : db_merge a rows = Ok rows' -> a ∈ rows'.
Proof.
  unfold db_merge. destruct (has_id (a_id a) rows) eqn:Hid.
  - by apply db_update_elem.
  - apply db_add_elem.
Qed.

Lemma has_id_elem a rows : a ∈ rows -> has_id (a_id a) rows = true.
Proof.
  intros Hin. unfold has_id. apply existsb_exists. exists a.
  split; [by apply list_elem_of_In | apply String.eqb_refl].
Qed.

Lemma scalar_one_elem {A} (rows : list A) a :
  scalar_one_or_none rows = Ok (Some a) -> a ∈ rows.
Proof.
  destruct rows as [| x [| y rows]]; cbn; intros [=]. subst. apply list_elem_of_here.
Qed.

Lemma get_artifact_with_parent_elem rows artifact_id a p :
  _get_artifact_with_parent rows artifact_id = Ok (a, p) -> a ∈ rows.
Proof.
  unfold _get_artifact_with_parent, mbind, result_bind. intros H. spine H.
  all: injection H as <- <-.
  all: match goal with
       | E : scalar_one_or_none (select_where _ _) = Ok (Some ?a) |- ?a ∈ _ =>
           apply scalar_one_elem in E; unfold select_where in E;
           apply list_elem_of_In, filter_In in E as [E _];
           by apply list_elem_of_In
       end.
Qed.

Lemma get_artifact_with_permission_elem rows user_info artifact_id operation a p :
  _get_artifact_with_permission rows user_info artifact_id operation = Ok (a, p) ->
  a ∈ rows.
Proof.
  unfold _get_artifact_with_permission, mbind, result_bind. intros H. spine H.
  all: injection H as <- <-; eapply get_artifact_with_parent_elem; eassumption.
Qed.

(** ** Snapshots *)

Lemma save_version_db i a cfg st st' :
  _save_version_to_s3 i a cfg st = Ok st' -> db st' = db st.
Proof.
  unfold _save_version_to_s3, mbind, result_bind. intros H. spine H.
  injection H as <-. reflexivity.
Qed.

Lemma save_version_snapshots i a cfg st st' :
  _save_version_to_s3 i a cfg st = Ok st' ->
  exists key, version_key cfg a i = Ok key
              /\ s3_snapshots st' = <[key := model_to_dict a]> (s3_snapshots st)
              /\ s3_files st' = s3_files st.
Proof.
  unfold _save_version_to_s3, mbind, result_bind. intros H. spine H.
  injection H as <-. eexists; split; [reflexivity | split; reflexivity].
Qed.

(** ** Responses carry no secrets *)

Lemma generate_no_secrets a p : _generate_artifact_data a p !! "secrets" = None.
Proof. unfold _generate_artifact_data. apply lookup_delete_eq. Qed.

Lemma load_no_secrets self a i cfg st d :
  _load_version_from_s3 self a i cfg false st = Ok d -> d !! "secrets" = None.
Proof.
  unfold _load_version_from_s3, mbind, result_bind. intros H. spine H.
  injection H as <-. apply lookup_delete_eq.
Qed.

Lemma attach_count_no_secrets f n d d' :
  attach_count f n d = Ok d' -> d !! "secrets" = None -> d' !! "secrets" = None.
Proof.
  unfold attach_count. intros H Hd. spine H; injection H as <-;
    rewrite lookup_insert_ne; done.
Qed.

Lemma create_no_secrets self alias workspace parent_id manifest type config secrets
    publish_to version comment overwrite context env st d st' :
  create self alias workspace parent_id manifest type config secrets publish_to
    version comment overwrite context env st = Ok (d, st') ->
  d !! "secrets" = None.
Proof.
  unfold create, mbind, result_bind. intros H. spine H;
  injection H as <- <-; apply generate_no_secrets.
Qed.

Lemma edit_no_secrets self artifact_id manifest type config secrets version comment
    context env st d st' :
  edit self artifact_id manifest type config secrets version comment context env st
    = Ok (d, st') ->
  d !! "secrets" = None.
Proof.
  unfold edit, mbind, result_bind. intros H. spine H;
  injection H as <- <-; apply generate_no_secrets.
Qed.

Lemma commit_no_secrets self artifact_id version comment context env st d st' :
  commit self artifact_id version comment context env st = Ok (d, st') ->
  d !! "secrets" = None.
Proof.
  unfold commit, mbind, result_bind. intros H. spine H;
  injection H as <- <-; apply generate_no_secrets.
Qed.

Lemma read_no_secrets self artifact_id silent version context env st d st' :
  read self artifact_id silent version context env st = Ok (d, st') ->
  d !! "secrets" = None.
Proof.
  unfold read, mbind, result_bind. intros H. spine H.
  injection H as <- <-.
  match goal with
  | E : (if _ =? _ then _ else _) = Ok ?x |- _ =>
      assert (x !! "secrets" = None) as Hx
        by (spine E; [injection E as <-; apply generate_no_secrets
                     | eapply load_no_secrets; exact E])
  end.
  match goal with
  | E : (if bool_decide (_ = Some "collection") then _ else _) = Ok _ |- _ =>
      spine E; try (injection E as <-; exact Hx);
      eapply attach_count_no_secrets; eauto
  end.
Qed.

Lemma list_children_no_secrets self parent_id keywords filters mode offset limit
    order_by silent pagination context st l st' :
  list_children self parent_id keywords filters mode offset limit order_by silent
    pagination context st = Ok (l, st') ->
  Forall (fun d => d !! "secrets" = None) (listing_items l).
Proof.
  unfold list_children, mbind, result_bind. intros H. spine H;
  injection H as <- <-; destruct pagination; cbn [listing_items];
  match goal with
  | E : match _ with Some _ => _ | None => _ end = Ok ?x |- _ =>
      spine E; injection E as <-
  end;
  try apply Forall_nil_2;
  apply Forall_forall; intros d Hd; apply list_elem_of_fmap in Hd as (? & -> & _);
  apply generate_no_secrets.
Qed.

Lemma projection_rejects_secrets p c fields :
  a_config p = Some c -> c_list_fields c = Some (JArr fields) ->
  json_str_in "secrets" fields = true ->
  projection (Some p) = Err AssertionError.
Proof.
  intros Hc Hf Hs. unfold projection. rewrite Hc. cbn. rewrite Hf.
  cbn [truthy]. destruct fields as [| j fields]; [discriminate Hs |].
  cbn [length Nat.eqb negb]. rewrite Hs. reflexivity.
Qed.

Lemma list_children_projection self parent_id keywords filters mode offset limit
    order_by silent pagination context st p ws e :
  resolve_listing parent_id context st = Ok (Some p, ws) ->
  projection (Some p) = Err e ->
  list_children self parent_id keywords filters mode offset limit order_by silent
    pagination context st = Err e.
Proof.
  unfold resolve_listing, list_children, mbind, result_bind. intros H Hp.
  spine H. injection H as <- <-. rewrite Hp. reflexivity.
Qed.

(** C1. No operation that returns artifact data returns the [secrets] field:
    create, edit, read (of the live row or of a snapshot), commit and
    list_children all answer with dicts that lack the key, and a listing under
    a parent whose [config.list_fields] mentions "secrets" fails with an
    assertion error. *)
Theorem secrets_never_returned (self : ArtifactController) :
  (forall alias workspace parent_id manifest type config secrets publish_to
          version comment overwrite context env st d st',
      create self alias workspace parent_id manifest type config secrets
        publish_to version comment overwrite context env st = Ok (d, st') ->
      d !! "secrets" = None)
  /\ (forall artifact_id manifest type config secrets version comment context
             env st d st',
        edit self artifact_id manifest type config secrets version comment
          context env st = Ok (d, st') ->
        d !! "secrets" = None)
  /\ (forall artifact_id silent version context env st d st',
        read self artifact_id silent version context env st = Ok (d, st') ->
        d !! "secrets" = None)
  /\ (forall artifact_id version comment context env st d st',
        commit self artifact_id version comment context env st = Ok (d, st') ->
        d !! "secrets" = None)
  /\ (forall parent_id keywords filters mode offset limit order_by silent
             pagination context st l st',
        list_children self parent_id keywords filters mode offset limit
          order_by silent pagination context st = Ok (l, st') ->
        Forall (fun d => d !! "secrets" = None) (listing_items l))
  /\ (forall parent_id keywords filters mode offset limit order_by silent
             pagination context st p ws c fields,
        resolve_listing parent_id context st = Ok (Some p, ws) ->
        a_config p = Some c ->
        c_list_fields c = Some (JArr fields) ->
        json_str_in "secrets" fields = true ->
        list_children self parent_id keywords filters mode offset limit
          order_by silent pagination context st = Err AssertionError).
Proof.
  repeat split.
  - intros. eapply create_no_secrets; eassumption.
  - intros. eapply edit_no_secrets; eassumption.
  - intros. eapply read_no_secrets; eassumption.
  - intros. eapply commit_no_secrets; eassumption.
  - intros. eapply list_children_no_secrets; eassumption.
  - intros. eapply list_children_projection; [eassumption |].
    eapply projection_rejects_secrets; eassumption.
Qed.

(** The create of the scenario stores secrets and answers without them; the
    snapshot of version 0 holds the secrets and a read of that version answers
    without them; a listing under a parent that projects "secrets" is
    refused. *)
Lemma secrets_never_returned_witness :
  (exists d st', Scenario.created (Some "stage") = Ok (d, st')
                 /\ d !! "secrets" = None)
  /\ map a_secrets (db (Scenario.state_of (Scenario.created (Some "stage"))))
     = [Some Scenario.secrets]
  /\ (s3_snapshots Scenario.two_versions
        !! ("hypha-workspaces", "", "W", "id-1", 0)) ≫= (.!! "secrets")
     = Some (PDict Scenario.secrets)
  /\ (exists d st', read Scenario.controller "ds" true (VStr "v0")
                      Scenario.context Scenario.env Scenario.two_versions
                    = Ok (d, st')
                    /\ d !! "secrets" = None)
  /\ list_children Scenario.controller (Some "parent") [] [] "AND" 0 100 None
       false false Scenario.context
       (mkState [Scenario.parent_row ∅ (Some (JArr [JStr "id"; JStr "secrets"]))]
          ∅ [] [])
     = Err AssertionError.
Proof.
  split; [| split; [| split; [| split]]].
  - assert (is_ok (Scenario.created (Some "stage")) = true) as Hok
      by (vm_compute; reflexivity).
    destruct (ran _ Hok) as (d & st' & E).
    exists d, st'. split; [exact E |].
    destruct (secrets_never_returned Scenario.controller) as (H & _).
    unfold Scenario.created in E. eapply H. exact E.
  - vm_compute. reflexivity.
  - vm_compute. reflexivity.
  - assert (is_ok (read Scenario.controller "ds" true (VStr "v0")
                     Scenario.context Scenario.env Scenario.two_versions) = true)
      as Hok by (vm_compute; reflexivity).
    destruct (ran _ Hok) as (d & st' & E).
    exists d, st'. split; [exact E |].
    destruct (secrets_never_returned Scenario.controller) as (_ & _ & H & _).
    eapply H. exact E.
  - destruct (secrets_never_returned Scenario.controller) as (_ & _ & _ & _ & _ & H).
    eapply H.
    + vm_compute. reflexivity.
    + reflexivity.
    + reflexivity.
    + reflexivity.
Defined.

(** ** Permission engine *)

#[local] Set Warnings "-clear-no-such-hyp".

Lemma operation_map_required_tier operation :
  operation_map !! operation = required_tier operation.
Proof.
  destruct (decide (operation ∈ supported_operations)) as [Hin | Hout].
  - unfold supported_operations in Hin.
    repeat (apply elem_of_cons in Hin as [-> | Hin]; [reflexivity |]).
    by apply elem_of_nil in Hin.
  - unfold operation_map, required_tier.
    rewrite (not_elem_of_list_to_map_1 _ operation).
    + repeat case_bool_decide; try done; exfalso; apply Hout;
        unfold supported_operations; set_solver.
    + intros Hin. apply Hout. cbn in Hin. unfold supported_operations. set_solver.
Qed.

Lemma grants_spec permissions key operation :
  grants permissions key operation = true
  <-> expansion_grants permissions key operation.
Proof.
  unfold grants, expansion_grants. destruct (permissions !! key) as [p |].
  - rewrite bool_decide_eq_true. split; [eauto | intros (q & [= <-] & H); done].
  - split; [done | intros (q & [=] & _)].
Qed.

Lemma check_permission_spec user_info workspace tier :
  check_permission user_info workspace tier = true <->
  exists held, user_workspaces user_info !! workspace = Some held
               /\ (UserPermission.level tier <= UserPermission.level held)%nat.
Proof.
  unfold check_permission.
  destruct (user_workspaces user_info !! workspace) as [h |].
  - rewrite Nat.leb_le. split; [eauto | intros (q & [= <-] & H); done].
  - split; [done | intros (q & [=] & _)].
Qed.

Lemma granted_decide user_info artifact operation tier :
  _check_permissions artifact user_info operation
  || check_permission user_info (a_workspace artifact) tier = true
  <-> access_granted user_info artifact operation tier.
Proof.
  unfold _check_permissions, access_granted. cbv zeta.
  rewrite <- !grants_spec, <- check_permission_spec.
  destruct (grants _ (user_id user_info) operation); [naive_solver |].
  destruct (is_anonymous user_info); cbn [negb andb];
    destruct (grants _ "@" operation), (grants _ "*" operation),
      (check_permission _ _ _); cbn; naive_solver.
Qed.

(** C2. For a supported operation, whose required tier is the one of the
    table, and an artifact that exists, access is granted exactly when the
    artifact-local grant, the authenticated wildcard, the public wildcard or
    the workspace tier gives it; otherwise the call raises the permission
    error.  When no row matches the id the call raises the not-found error,
    which is a different error. *)
Theorem permission_evaluation rows user_info artifact_id operation tier :
  required_tier operation = Some tier ->
  (forall artifact parent_artifact,
      _get_artifact_with_parent rows artifact_id = Ok (artifact, parent_artifact) ->
      (access_granted user_info artifact operation tier ->
       _get_artifact_with_permission rows user_info artifact_id operation
       = Ok (artifact, parent_artifact))
      /\ (~ access_granted user_info artifact operation tier ->
          _get_artifact_with_permission rows user_info artifact_id operation
          = Err PermissionError))
  /\ (forall cond, _get_artifact_id_cond artifact_id = Ok cond ->
        select_where cond rows = [] ->
        _get_artifact_with_permission rows user_info artifact_id operation
        = Err KeyError)
  /\ PermissionError <> KeyError.
Proof.
  intros Htier. rewrite <- operation_map_required_tier in Htier.
  unfold _get_artifact_with_permission. rewrite Htier.
  split; [| split; [| done]].
  - intros artifact parent_artifact ->. cbn.
    pose proof (granted_decide user_info artifact operation tier) as Hd.
    destruct (_check_permissions artifact user_info operation);
      destruct (check_permission user_info (a_workspace artifact) tier);
      cbn in Hd; split; intros H; try done;
      try (exfalso; apply H; apply Hd; done).
    apply Hd in H. done.
  - intros cond Hcond Hnone. unfold _get_artifact_with_parent.
    rewrite Hcond. cbn. rewrite Hnone. reflexivity.
Qed.

(** Bob holds no workspace role; the parent's permissions give him "r", so
    he may read it, may not edit it, and an unknown alias is not found. *)
Lemma permission_evaluation_witness :
  let rows := [Scenario.parent_row {[ "bob" := PermCode "r" ]} None] in
  _get_artifact_with_permission rows Scenario.bob "W/parent" "read"
    = Ok (Scenario.parent_row {[ "bob" := PermCode "r" ]} None, None)
  /\ _get_artifact_with_permission rows Scenario.bob "W/parent" "edit"
     = Err PermissionError
  /\ _get_artifact_with_permission rows Scenario.bob "W/missing" "read"
     = Err KeyError.
Proof.
  cbv zeta. split; [| split].
  - destruct (permission_evaluation
                [Scenario.parent_row {[ "bob" := PermCode "r" ]} None]
                Scenario.bob "W/parent" "read" UserPermission.read eq_refl)
      as (H & _).
    apply H; [vm_compute; reflexivity |].
    left. exists (PermCode "r"). split; [vm_compute; reflexivity |].
    vm_compute. repeat constructor.
  - destruct (permission_evaluation
                [Scenario.parent_row {[ "bob" := PermCode "r" ]} None]
                Scenario.bob "W/parent" "edit" UserPermission.read_write eq_refl)
      as (H & _).
    apply (H (Scenario.parent_row {[ "bob" := PermCode "r" ]} None) None);
      [vm_compute; reflexivity |].
    intros Hg. apply granted_decide in Hg. vm_compute in Hg. discriminate Hg.
  - destruct (permission_evaluation
                [Scenario.parent_row {[ "bob" := PermCode "r" ]} None]
                Scenario.bob "W/missing" "read" UserPermission.read eq_refl)
      as (_ & H & _).
    eapply H; [reflexivity | vm_compute; reflexivity].
Defined.

(** C10. A string code outside the twelve documented ones expands to the
    empty operation list; an artifact-local grant carrying such a code grants
    nothing, and the check goes on to the two wildcards (and, one level up, to
    the workspace tier) without raising. *)
Theorem unknown_code_expands_to_nothing code :
  code ∉ documented_codes ->
  _expand_permission (PermCode code) = []
  /\ forall artifact user_info operation,
       artifact_permissions artifact !! user_id user_info = Some (PermCode code) ->
       _check_permissions artifact user_info operation
       = ((negb (is_anonymous user_info)
           && grants (artifact_permissions artifact) "@" operation)
          || grants (artifact_permissions artifact) "*" operation).
Proof.
  intros Hcode.
  assert (_expand_permission (PermCode code) = []) as Hexp.
  { unfold _expand_permission, permission_map.
    rewrite (not_elem_of_list_to_map_1 _ code); [reflexivity | exact Hcode]. }
  split; [exact Hexp |].
  intros artifact user_info operation Hperm.
  unfold _check_permissions. cbv zeta.
  unfold grants at 1. rewrite Hperm, Hexp.
  rewrite bool_decide_eq_false_2 by apply not_elem_of_nil.
  destruct (negb (is_anonymous user_info) && grants _ "@" operation),
    (grants _ "*" operation); reflexivity.
Qed.

(** The code "owner" is not in the table: it grants bob nothing on the
    parent, and the public wildcard still lets him list. *)
Lemma unknown_code_expands_to_nothing_witness :
  ("owner" ∉ documented_codes)
  /\ _expand_permission (PermCode "owner") = []
  /\ _check_permissions
       (Scenario.parent_row {[ "bob" := PermCode "owner"; "*" := PermCode "l" ]} None)
       Scenario.bob "list" = true.
Proof.
  assert ("owner" ∉ documented_codes) as Hcode.
  { unfold documented_codes. intros Hin.
    repeat (apply elem_of_cons in Hin as [Hin | Hin]; [discriminate Hin |]).
    by apply elem_of_nil in Hin. }
  destruct (unknown_code_expands_to_nothing "owner" Hcode) as [Hexp Hcheck].
  split; [exact Hcode |]. split; [exact Hexp |].
  rewrite Hcheck; vm_compute; reflexivity.
Defined.

(** ** Version selectors *)

(** C3 as stated fails on the code: with no committed version "latest"
    resolves to -1 instead of failing, "stage" resolves although staging is
    null, and an integer beyond the committed range resolves to itself. *)
Lemma latest_of_no_versions_is_minus_one :
  a_versions Scenario.unversioned = Some []
  /\ a_staging Scenario.unversioned = JsonNull
  /\ _get_version_index Scenario.unversioned (VStr "latest") = Ok (-1)
  /\ _get_version_index Scenario.unversioned (VStr "stage") = Ok 0
  /\ _get_version_index Scenario.unversioned (VInt 7) = Ok 7.
Proof. repeat split. Qed.

(** C3 (amended).  With N committed versions: null resolves to max(0, N-1);
    "latest" to N-1 (which is -1 when N = 0); "stage" to N whatever the
    staging column holds; any other string to the first index whose label
    equals it, and to a ValueError when no label does (a digit string is not
    read as an index); an integer i >= 0 to i with no upper bound, and a
    negative integer to an assertion error. *)
Theorem version_index_resolution artifact versions :
  a_versions artifact = Some versions ->
  let N := Z.of_nat (length versions) in
  _get_version_index artifact VNone = Ok (Z.max 0 (N - 1))
  /\ _get_version_index artifact (VStr "latest") = Ok (N - 1)
  /\ _get_version_index artifact (VStr "stage") = Ok N
  /\ (forall label, label <> "latest" -> label <> "stage" ->
        (forall (i : nat) entry,
            versions !! i = Some entry -> v_version entry = label ->
            (forall (j : nat) e, versions !! j = Some e -> (j < i)%nat ->
                                 v_version e <> label) ->
            _get_version_index artifact (VStr label) = Ok (Z.of_nat i))
        /\ ((forall e, e ∈ versions -> v_version e <> label) ->
            _get_version_index artifact (VStr label) = Err ValueError))
  /\ (forall i, 0 <= i -> _get_version_index artifact (VInt i) = Ok i)
  /\ (forall i, i < 0 -> _get_version_index artifact (VInt i) = Err AssertionError).
Proof.
  intros Hv N. unfold _get_version_index, len_versions. rewrite Hv. cbn.
  split; [reflexivity |]. split; [reflexivity |]. split; [reflexivity |].
  split; [| split].
  - intros label Hlatest Hstage.
    apply String.eqb_neq in Hlatest, Hstage. rewrite Hlatest, Hstage. split.
    + intros i entry Hi Hl Hfirst.
      assert (list_find (fun v => v_version v = label) versions = Some (i, entry))
        as -> by (apply list_find_Some; eauto).
      reflexivity.
    + intros Hnone.
      assert (list_find (fun v => v_version v = label) versions = None)
        as -> by (apply list_find_None, Forall_forall; exact Hnone).
      reflexivity.
  - intros i Hi. apply Z.leb_le in Hi. rewrite Hi. reflexivity.
  - intros i Hi. apply Z.leb_gt in Hi. rewrite Hi. reflexivity.
Qed.

(** On a row with versions v0 and v1: the default and "latest" are 1,
    "stage" is 2, "v0" is 0 and "3" is an error. *)
Lemma version_index_resolution_witness :
  let a := set_versions (Some [mkVersion "v0" None 1; mkVersion "v1" None 2])
             Scenario.unversioned in
  _get_version_index a VNone = Ok 1
  /\ _get_version_index a (VStr "latest") = Ok 1
  /\ _get_version_index a (VStr "stage") = Ok 2
  /\ _get_version_index a (VStr "v0") = Ok 0
  /\ _get_version_index a (VStr "3") = Err ValueError.
Proof.
  cbv zeta.
  destruct (version_index_resolution
              (set_versions (Some [mkVersion "v0" None 1; mkVersion "v1" None 2])
                 Scenario.unversioned)
              [mkVersion "v0" None 1; mkVersion "v1" None 2] eq_refl)
    as (H1 & H2 & H3 & H4 & _).
  split; [exact H1 |]. split; [exact H2 |]. split; [exact H3 |]. split.
  - destruct (H4 "v0") as [Hfound _]; [discriminate | discriminate |].
    apply (Hfound 0%nat (mkVersion "v0" None 1)); [reflexivity | reflexivity |].
    intros j e _ Hj. lia.
  - destruct (H4 "3") as [_ Hmissing]; [discriminate | discriminate |].
    apply Hmissing. intros e He.
    repeat (apply elem_of_cons in He as [-> | He]; [discriminate |]).
    by apply elem_of_nil in He.
Defined.

(** ** create *)

Lemma resolve_alias_permissions rows env parent workspace alias parent_id
    publish_to overwrite config a i o c :
  resolve_alias rows env parent workspace alias parent_id publish_to overwrite config
  = Ok (a, i, o, c) ->
  c_permissions c = c_permissions config.
Proof.
  unfold resolve_alias, mbind, result_bind. intros E. spine E.
  all: try (simplify_eq; reflexivity).
  match goal with
  | E' : (if str_truthy publish_to then _ else _) = Ok _ |- _ =>
      spine E'; simplify_eq; reflexivity
  end.
Qed.

Lemma initial_versions_stage version comment now :
  bool_decide ((initial_versions version comment now).2 = Some "stage")
  = bool_decide (version = Some "stage").
Proof.
  unfold initial_versions. destruct version as [v |]; [| reflexivity].
  destruct (String.eqb_spec v "stage") as [-> | Hne]; cbn; [reflexivity |].
  destruct (String.eqb_spec v "new") as [-> | Hnew]; cbn;
    rewrite !bool_decide_eq_false_2; congruence.
Qed.

(** What a successful [create] has done: the row it stored and answered with. *)
Lemma create_inv self alias workspace parent_id manifest type config secrets
    publish_to version comment overwrite context env st d st' :
  create self alias workspace parent_id manifest type config secrets publish_to
    version comment overwrite context env st = Ok (d, st') ->
  exists user_info ws alias' workspace' parent_artifact stored_parent_id
         stored_workspace new_alias new_id supplied parent_permissions,
    require_ws context = Ok (user_info, ws)
    /\ split_alias alias workspace = Ok (alias', workspace')
    /\ resolve_parent (db st) user_info ws parent_id workspace'
       = Ok (parent_artifact, stored_parent_id, stored_workspace)
    /\ parent_permissions_of parent_artifact = Ok parent_permissions
    /\ c_permissions supplied = c_permissions (default empty_config config)
    /\ let new_artifact :=
         mkArtifact new_id type stored_workspace stored_parent_id (Some new_alias)
           manifest
           (if bool_decide (version = Some "stage") then JsonVal [] else JsonNull)
           0%Qc 0%Qc 0 (env_now env) (Some (user_id user_info)) (env_now env)
           (Some (initial_versions version comment (env_now env)).1)
           (Some (merge_permissions supplied user_info parent_permissions))
           secrets in
       truthy_dict manifest = true
       /\ new_artifact ∈ db st'
       /\ d = _generate_artifact_data new_artifact parent_artifact.
Proof.
  unfold create, mbind, result_bind. intros H. spine H;
  injection H as <- <-.
  all: match goal with
       | E : resolve_alias _ _ _ _ _ _ _ _ _ = Ok _ |- _ =>
           pose proof (resolve_alias_permissions _ _ _ _ _ _ _ _ _ _ _ _ _ E) as Hperm
       end.
  all: match goal with
       | E : initial_versions ?v ?c ?n = (?l, ?v') |- _ =>
           pose proof (initial_versions_stage v c n) as Hstage;
           rewrite E in Hstage; cbn [snd] in Hstage;
           assert (l = (initial_versions v c n).1) as Hl by (rewrite E; reflexivity);
           clear E; subst l;
           remember (bool_decide (v' = Some "stage")) as staged eqn:Hs in *;
           clear Hs; subst staged
       end.
  all: do 11 eexists; split; [reflexivity |]; split; [reflexivity |];
       split; [eassumption |]; split; [eassumption |];
       split; [exact Hperm |]; cbv zeta.
  all: split; [match goal with
               | E : py_assert (truthy_dict _) = Ok _ |- _ =>
                   unfold py_assert in E; destruct (truthy_dict manifest); done
               end |].
  all: split; [| reflexivity].
  all: match goal with
       | E : _save_version_to_s3 _ _ _ _ = Ok _ |- _ =>
           rewrite (save_version_db _ _ _ _ _ E)
       end; cbn [db set_db set_vector_collections].
  all: match goal with
       | E : (if ?b then db_merge _ _ else db_add _ _) = Ok _ |- _ =>
           destruct b; [eapply db_merge_elem | eapply db_add_elem]; exact E
       end.
Qed.

Lemma generate_internal_id a p :
  _generate_artifact_data a p !! "_id" = Some (PStr (a_id a)).
Proof.
  unfold _generate_artifact_data.
  rewrite lookup_delete_ne by done. apply lookup_insert_eq.
Qed.

(** C4 as stated fails on the code: a create with [version="stage"] stores
    a non-null manifest, and a create with the default [version=None] (which
    is not "stage") stores no version entry at all. *)
Lemma create_stage_keeps_manifest :
  (is_ok (Scenario.created (Some "stage")) = true
   /\ map a_manifest (db (Scenario.state_of (Scenario.created (Some "stage"))))
      = [Some Scenario.manifest])
  /\ (is_ok (Scenario.created None) = true
      /\ map a_versions (db (Scenario.state_of (Scenario.created None)))
         = [Some []]).
Proof. split; split; vm_compute; reflexivity. Qed.

(** C4 (amended).  After a successful create the stored row holds the
    caller's manifest, which is non-null and non-empty whatever the version.
    With [version="stage"] the versions list is empty and staging is the empty
    list; with the default [version=None] the versions list is empty and
    staging is null; with any other version string there is exactly one entry,
    labelled "v0" for "new" and with the caller's string otherwise, whose
    comment defaults to "Initial version", and staging is null. *)
Theorem create_initial_state self alias workspace parent_id manifest type config
    secrets publish_to version comment overwrite context env st d st' :
  create self alias workspace parent_id manifest type config secrets publish_to
    version comment overwrite context env st = Ok (d, st') ->
  exists stored,
    stored ∈ db st'
    /\ d !! "_id" = Some (PStr (a_id stored))
    /\ a_manifest stored = manifest
    /\ truthy_dict manifest = true
    /\ (version = Some "stage" ->
        a_versions stored = Some [] /\ a_staging stored = JsonVal [])
    /\ (version = None ->
        a_versions stored = Some [] /\ a_staging stored = JsonNull)
    /\ (forall v, version = Some v -> v <> "stage" ->
        a_versions stored
        = Some [mkVersion (if String.eqb v "new" then "v0" else v)
                  (if str_truthy comment then comment else Some "Initial version")
                  (env_now env)]
        /\ a_staging stored = JsonNull).
Proof.
  intros H. apply create_inv in H
    as (u & ws & al & w & p & pid & sw & na & ni & sup & pp & _ & _ & _ & _ & _ & H).
  cbv zeta in H. destruct H as (Hm & Hin & ->).
  eexists. split; [exact Hin |]. split; [apply generate_internal_id |].
  cbn [a_manifest a_versions a_staging].
  split; [reflexivity |]. split; [exact Hm |]. split; [| split].
  - intros ->. split; reflexivity.
  - intros ->. split; reflexivity.
  - intros v -> Hv. rewrite bool_decide_eq_false_2 by congruence.
    split; [| reflexivity]. unfold initial_versions.
    apply String.eqb_neq in Hv. rewrite Hv. reflexivity.
Qed.

(** The committed create of the scenario stores one version "v0" with the
    default comment. *)
Lemma create_initial_state_witness :
  exists stored,
    stored ∈ db (Scenario.state_of (Scenario.created (Some "new")))
    /\ a_versions stored = Some [mkVersion "v0" (Some "Initial version") 1000]
    /\ a_staging stored = JsonNull
    /\ a_manifest stored = Some Scenario.manifest.
Proof.
  assert (is_ok (Scenario.created (Some "new")) = true) as Hok
    by (vm_compute; reflexivity).
  destruct (ran _ Hok) as (d & st' & E). rewrite E. cbn [Scenario.state_of].
  unfold Scenario.created in E.
  destruct (create_initial_state _ _ _ _ _ _ _ _ _ _ _ _ _ _ _ _ _ E)
    as (stored & Hin & _ & Hm & _ & _ & _ & Hv).
  exists stored. destruct (Hv "new" eq_refl) as [Hvs Hst]; [discriminate |].
  split; [exact Hin |]. split; [exact Hvs |]. split; [exact Hst | exact Hm].
Defined.

(** ** edit *)

Lemma resolve_elem artifact_id operation context st user_info a p :
  resolve artifact_id operation context st = Ok (user_info, a, p) -> a ∈ db st.
Proof.
  unfold resolve, mbind, result_bind. intros H. spine H. injection H as <- <- <-.
  eapply get_artifact_with_permission_elem; eassumption.
Qed.

Lemma edit_config_keeps a p u config a' :
  edit_config a p u config = Ok a' ->
  a_id a' = a_id a /\ a_versions a' = a_versions a /\ a_staging a' = a_staging a.
Proof.
  unfold edit_config, mbind, result_bind. intros H. spine H;
    injection H as <-; repeat split.
Qed.

(** What a successful [edit] has done. *)
Lemma edit_inv self artifact_id manifest type config secrets version comment
    context env st d st' :
  edit self artifact_id manifest type config secrets version comment context env st
    = Ok (d, st') ->
  exists user_info live parent a1 version_index a2 key,
    resolve artifact_id "edit" context st = Ok (user_info, live, parent)
    /\ edit_version (edit_input live manifest type) version comment (env_now env)
       = Ok (a1, version_index)
    /\ edit_config a1 parent user_info config = Ok a2
    /\ let stored := edit_output a2 secrets version (env_now env) in
       db_update stored (db st) = Ok (db st')
       /\ version_key (_get_s3_config self stored parent) stored version_index = Ok key
       /\ s3_snapshots st' = <[key := model_to_dict stored]> (s3_snapshots st)
       /\ d = _generate_artifact_data stored parent.
Proof.
  unfold edit, resolve, mbind, result_bind. intros H. spine H;
  injection H as <- <-.
  all: match goal with
       | E : _save_version_to_s3 _ _ _ _ = Ok _ |- _ =>
           pose proof (save_version_db _ _ _ _ _ E) as Hdb;
           apply save_version_snapshots in E as (key & Hkey & Hsnap & _)
       end.
  all: repeat match goal with
       | E : require_ws _ = Ok _ |- _ => rewrite E; clear E
       | E : _validate_artifact_id _ _ = Ok _ |- _ => rewrite E; clear E
       | E : _get_artifact_with_permission _ _ _ _ = Ok _ |- _ => rewrite E; clear E
       end.
  all: do 7 eexists; split; [reflexivity |].
  all: unfold edit_input, edit_output; cbv zeta.
  all: repeat match goal with
       | E : truthy_dict _ = _ |- _ => rewrite E
       end.
  all: split; [match goal with E : edit_version _ _ _ _ = Ok _ |- _ => exact E end |].
  all: split; [match goal with E : edit_config _ _ _ _ = Ok _ |- _ => exact E end |].
  all: repeat match goal with
       | E : negb (bool_decide (_ = Some "stage")) = _ |- _ => rewrite E
       | E : py_value _ = _ |- _ => rewrite E
       end.
  all: cbn [db set_db s3_snapshots set_s3_snapshots] in *.
  all: try rewrite Hdb.
  all: try match goal with
           | E : db_update _ (db _) = Ok _ |- _ => rewrite Hdb in E
           end.
  all: split; [match goal with E : db_update _ _ = Ok _ |- _ => exact E end |].
  all: split; [exact Hkey |]; split; [exact Hsnap | reflexivity].
Qed.

Lemma edit_version_keeps a version comment now a' i :
  edit_version a version comment now = Ok (a', i) ->
  a_id a' = a_id a /\ a_workspace a' = a_workspace a /\ a_config a' = a_config a.
Proof.
  unfold edit_version, mbind, result_bind. intros H. spine H;
    injection H as <- <-; repeat split.
Qed.



Lemma edit_input_keeps live manifest type :
  a_id (edit_input live manifest type) = a_id live
  /\ a_workspace (edit_input live manifest type) = a_workspace live
  /\ a_versions (edit_input live manifest type) = a_versions live.
Proof. unfold edit_input. cbv zeta. destruct (truthy_dict manifest); repeat split. Qed.

Lemma edit_output_keeps a secrets version now :
  a_id (edit_output a secrets version now) = a_id a
  /\ a_workspace (edit_output a secrets version now) = a_workspace a
  /\ a_versions (edit_output a secrets version now) = a_versions a
  /\ a_config (edit_output a secrets version now) = a_config a.
Proof.
  unfold edit_output. cbv zeta.
  destruct secrets, (negb (bool_decide (version = Some "stage")));
    cbn [a_staging set_last_modified set_secrets];
    try destruct (py_value (a_staging a)) as [[| f fs] |]; repeat split.
Qed.

Lemma version_key_components cfg a i key :
  version_key cfg a i = Ok key ->
  exists b p, key = (b, p, a_workspace a, a_id a, i).
Proof.
  unfold version_key, mbind, result_bind. intros H. spine H.
  injection H as <-. eauto.
Qed.

Lemma get_s3_config_secrets self a a' parent :
  a_secrets a = a_secrets a' ->
  _get_s3_config self a parent = _get_s3_config self a' parent.
Proof. unfold _get_s3_config, merged_secrets. intros ->. reflexivity. Qed.








(** ** Permission merge *)

Lemma resolve_parent_inv rows user_info ws parent_id workspace parent pid sw :
  resolve_parent rows user_info ws parent_id workspace = Ok (parent, pid, sw) ->
  (str_truthy parent_id = false -> parent = None)
  /\ (str_truthy parent_id = true -> exists p, parent = Some p /\ p ∈ rows).
Proof.
  unfold resolve_parent, mbind, result_bind. intros H. spine H;
    injection H as <- <- <-; (split; [intros [=] | intros [=]]).
  all: try reflexivity.
  all: eexists; split; [reflexivity |];
       eapply get_artifact_with_permission_elem; eassumption.
Qed.

Lemma merged_permissions config user_info parent_permissions :
  default ∅ (c_permissions (merge_permissions config user_info parent_permissions))
  = parent_permissions
    ∪ <[user_id user_info := PermCode "*"]> (default ∅ (c_permissions config)).
Proof. reflexivity. Qed.

Lemma creator_keeps_star (parent_permissions supplied : gmap string permission) u :
  parent_permissions !! u = None ->
  (parent_permissions ∪ <[u := PermCode "*"]> supplied) !! u = Some (PermCode "*").
Proof. intros H. rewrite lookup_union_r by exact H. apply lookup_insert_eq. Qed.

(** C5 as stated fails on the code: carol creates a child under a parent
    whose permissions give carol "r"; the parent's entry is written over her
    own and the stored permissions map carol to "r", not to "*". *)
Lemma parent_overrides_creator :
  is_ok (Scenario.created_child {[ "carol" := PermCode "r" ]} None) = true
  /\ map (fun a => artifact_permissions a !! "carol")
       (db (Scenario.state_of
              (Scenario.created_child {[ "carol" := PermCode "r" ]} None)))
     = [Some (PermCode "r"); Some (PermCode "r")].
Proof. split; vm_compute; reflexivity. Qed.

(** The parent [resolve_parent] returns is the row [parent_id] names for
    the caller, on which the caller may create; its id is the stored
    [parent_id] and its workspace the stored workspace. *)
Lemma resolve_parent_tied rows user_info ws parent_id workspace parent pid sw :
  resolve_parent rows user_info ws parent_id workspace = Ok (parent, pid, sw) ->
  (str_truthy parent_id = false -> parent = None /\ pid = parent_id)
  /\ (str_truthy parent_id = true ->
      exists p validated grand,
        parent = Some p /\ p ∈ rows
        /\ _validate_artifact_id (default "" parent_id) ws = Ok validated
        /\ _get_artifact_with_permission rows user_info validated "create"
           = Ok (p, grand)
        /\ pid = Some (a_id p) /\ sw = a_workspace p).
Proof.
  unfold resolve_parent, mbind, result_bind. intros H. spine H;
    injection H as <- <- <-; (split; [intros [=] | intros [=]]).
  all: try (split; reflexivity).
  all: do 3 eexists; split; [reflexivity |];
       split; [eapply get_artifact_with_permission_elem; eassumption |];
       split; [reflexivity |]; split; [eassumption |]; split; reflexivity.
Qed.

(** C5 (amended).  After a successful create the stored config.permissions
    is the caller-supplied map with the acting user set to "*", overwritten by
    the permissions of the parent (by nothing when there is no parent); the
    acting user therefore holds "*" whenever the parent's permissions do not
    list that user.  The parent is the row the [parent_id] argument names for
    the caller, on which the caller may create, and the stored row carries
    its id as [parent_id].  An edit that supplies a config for an artifact
    under a parent stores the same merge, with the parent the artifact
    resolves to. *)
Theorem permissions_merged self :
  (forall alias workspace parent_id manifest type config secrets publish_to
          version comment overwrite context env st d st',
      create self alias workspace parent_id manifest type config secrets
        publish_to version comment overwrite context env st = Ok (d, st') ->
      exists user_info ws parent_artifact parent_permissions stored,
        require_ws context = Ok (user_info, ws)
        /\ parent_permissions_of parent_artifact = Ok parent_permissions
        /\ (str_truthy parent_id = false ->
            parent_artifact = None /\ a_parent_id stored = parent_id)
        /\ (str_truthy parent_id = true ->
            exists p validated grand,
              parent_artifact = Some p /\ p ∈ db st
              /\ _validate_artifact_id (default "" parent_id) ws = Ok validated
              /\ _get_artifact_with_permission (db st) user_info validated "create"
                 = Ok (p, grand)
              /\ a_parent_id stored = Some (a_id p)
              /\ a_workspace stored = a_workspace p)
        /\ stored ∈ db st'
        /\ d !! "_id" = Some (PStr (a_id stored))
        /\ artifact_permissions stored
           = parent_permissions
             ∪ <[user_id user_info := PermCode "*"]>
                 (default ∅ (c_permissions (default empty_config config)))
        /\ (parent_permissions !! user_id user_info = None ->
            artifact_permissions stored !! user_id user_info
            = Some (PermCode "*")))
  /\ (forall artifact_id manifest type config secrets version comment context
             env st d st' user_info live p,
        edit self artifact_id manifest type (Some config) secrets version
          comment context env st = Ok (d, st') ->
        resolve artifact_id "edit" context st = Ok (user_info, live, Some p) ->
        exists parent_permissions stored,
          parent_permissions_of (Some p) = Ok parent_permissions
          /\ stored ∈ db st'
          /\ a_id stored = a_id live
          /\ artifact_permissions stored
             = parent_permissions
               ∪ <[user_id user_info := PermCode "*"]>
                   (default ∅ (c_permissions config))
          /\ (parent_permissions !! user_id user_info = None ->
              artifact_permissions stored !! user_id user_info
              = Some (PermCode "*"))).
Proof.
  split.
  - intros * H. apply create_inv in H
      as (u & ws & al & w & parent & pid & sw & na & ni & sup & pp
          & Hctx & _ & Hpar & Hpp & Hsup & H).
    cbv zeta in H. destruct H as (_ & Hin & ->).
    destruct (resolve_parent_tied _ _ _ _ _ _ _ _ Hpar) as [Hnone Hsome].
    exists u, ws, parent, pp,
      (mkArtifact ni type sw pid (Some na) manifest
         (if bool_decide (version = Some "stage") then JsonVal [] else JsonNull)
         0%Qc 0%Qc 0 (env_now env) (Some (user_id u)) (env_now env)
         (Some (initial_versions version comment (env_now env)).1)
         (Some (merge_permissions sup u pp)) secrets).
    split; [exact Hctx |]. split; [exact Hpp |].
    split; [exact Hnone |].
    split.
    { intros Ht. destruct (Hsome Ht) as (p & v & g & -> & Hp & Hv & Hg & -> & ->).
      exists p, v, g. repeat split; assumption. }
    split; [exact Hin |].
    split; [apply generate_internal_id |].
    assert (artifact_permissions
              (mkArtifact ni type sw pid (Some na) manifest
                 (if bool_decide (version = Some "stage") then JsonVal [] else JsonNull)
                 0%Qc 0%Qc 0 (env_now env) (Some (user_id u)) (env_now env)
                 (Some (initial_versions version comment (env_now env)).1)
                 (Some (merge_permissions sup u pp)) secrets)
            = pp ∪ <[user_id u := PermCode "*"]>
                     (default ∅ (c_permissions (default empty_config config))))
      as Hperm.
    { unfold artifact_permissions. cbn [a_config].
      rewrite merged_permissions, Hsup. reflexivity. }
    split; [exact Hperm |].
    intros Hfree. rewrite Hperm. by apply creator_keeps_star.
  - intros * H Hres. apply edit_inv in H
      as (u & live' & parent & a1 & i & a2 & key & Hres' & Hver & Hcfg & H).
    rewrite Hres in Hres'. injection Hres' as <- <- <-.
    cbv zeta in H. destruct H as (Hupd & _).
    destruct (edit_version_keeps _ _ _ _ _ _ Hver) as (Hid1 & _ & _).
    destruct (edit_input_keeps live manifest type) as (Hid0 & _ & _).
    destruct (edit_config_keeps _ _ _ _ _ Hcfg) as (Hid2 & _ & _).
    destruct (edit_output_keeps a2 secrets version (env_now env))
      as (Hid3 & _ & _ & Hc3).
    unfold edit_config, mbind, result_bind in Hcfg.
    destruct (parent_permissions_of (Some p)) as [pp | e] eqn:Hpp;
      [| discriminate Hcfg].
    injection Hcfg as <-.
    assert (artifact_permissions (edit_output
              (set_config (Some (merge_permissions config user_info pp)) a1)
              secrets version (env_now env))
            = pp ∪ <[user_id user_info := PermCode "*"]>
                     (default ∅ (c_permissions config))) as Hperm.
    { unfold artifact_permissions. rewrite Hc3. reflexivity. }
    eexists pp, _. split; [reflexivity |]. split.
    { eapply db_update_elem; [| exact Hupd].
      rewrite Hid3, Hid2, Hid1, Hid0. apply has_id_elem.
      eapply resolve_elem. exact Hres. }
    split; [rewrite Hid3, Hid2, Hid1; exact Hid0 |].
    split; [exact Hperm |].
    intros Hfree. rewrite Hperm. by apply creator_keeps_star.
Qed.

(** The example of the specification: the parent grants alice "r", the
    caller supplies bob "rw" and carol creates the child under "parent"; the
    child is stored under the parent's id with carol "*", bob "rw" and
    alice "r".  Carol then edits the child with a config that lists dave "r":
    the child is stored with alice "r", carol "*" and dave "r". *)
Lemma permissions_merged_witness :
  (exists stored,
      stored ∈ db (Scenario.state_of
                     (Scenario.created_child {[ "alice" := PermCode "r" ]}
                        (Some (with_permissions {[ "bob" := PermCode "rw" ]}
                                 empty_config))))
      /\ a_parent_id stored = Some "id-0"
      /\ artifact_permissions stored !! "carol" = Some (PermCode "*"))
  /\ map artifact_permissions
       (db (Scenario.state_of
              (Scenario.created_child {[ "alice" := PermCode "r" ]}
                 (Some (with_permissions {[ "bob" := PermCode "rw" ]}
                          empty_config)))))
     = [ {[ "alice" := PermCode "r" ]};
         {[ "carol" := PermCode "*"; "bob" := PermCode "rw";
            "alice" := PermCode "r" ]} ]
  /\ (exists d st' stored,
        edit Scenario.controller "child" None None
          (Some (with_permissions {[ "dave" := PermCode "r" ]} empty_config))
          None None None Scenario.context Scenario.env
          (Scenario.state_of
             (Scenario.created_child {[ "alice" := PermCode "r" ]} None))
        = Ok (d, st')
        /\ stored ∈ db st'
        /\ artifact_permissions stored
           = {[ "alice" := PermCode "r"; "carol" := PermCode "*";
                "dave" := PermCode "r" ]}).
Proof.
  destruct (permissions_merged Scenario.controller) as [Hcreate Hedit].
  split; [| split; [vm_compute; reflexivity |]].
  - assert (is_ok (Scenario.created_child {[ "alice" := PermCode "r" ]}
                     (Some (with_permissions {[ "bob" := PermCode "rw" ]}
                              empty_config))) = true) as Hok
      by (vm_compute; reflexivity).
    destruct (ran _ Hok) as (d & st' & E). rewrite E. cbn [Scenario.state_of].
    unfold Scenario.created_child in E.
    destruct (Hcreate _ _ _ _ _ _ _ _ _ _ _ _ _ _ _ _ E)
      as (u & ws & parent & pp & stored & Hctx & Hpp & _ & Hsome & Hin & _ & _ & Hstar).
    injection Hctx as <- <-.
    destruct (Hsome eq_refl) as (p & v & g & -> & Hp & _ & _ & Hpid & _).
    apply list_elem_of_singleton in Hp as ->.
    injection Hpp as <-.
    exists stored. split; [exact Hin |]. split; [exact Hpid |].
    apply Hstar. reflexivity.
  - assert (exists live p,
              resolve "child" "edit" Scenario.context
                (Scenario.state_of
                   (Scenario.created_child {[ "alice" := PermCode "r" ]} None))
              = Ok (Scenario.carol, live, Some p)
              /\ parent_permissions_of (Some p) = Ok {[ "alice" := PermCode "r" ]})
      as (live & p & Hres & Hpp).
    { do 2 eexists. split; [vm_compute; reflexivity | reflexivity]. }
    assert (is_ok (edit Scenario.controller "child" None None
                     (Some (with_permissions {[ "dave" := PermCode "r" ]}
                              empty_config))
                     None None None Scenario.context Scenario.env
                     (Scenario.state_of
                        (Scenario.created_child {[ "alice" := PermCode "r" ]} None)))
            = true) as Hok by (vm_compute; reflexivity).
    destruct (ran _ Hok) as (d & st' & E).
    destruct (Hedit _ _ _ _ _ _ _ _ _ _ _ _ _ _ _ E Hres)
      as (pp & stored & Hpp' & Hin & _ & Hperm & _).
    rewrite Hpp in Hpp'. injection Hpp' as <-.
    exists d, st', stored. split; [exact E |]. split; [exact Hin |].
    rewrite Hperm. vm_compute. reflexivity.
Defined.

(** ** commit *)

Lemma dict_str_pyopt d k o : d !! k = Some (pyopt PStr o) -> dict_str d k = Ok o.
Proof. unfold dict_str. intros ->. destruct o; reflexivity. Qed.

Lemma dict_dict_pyopt d k o : d !! k = Some (pyopt PDict o) -> dict_dict d k = Ok o.
Proof. unfold dict_dict. intros ->. destruct o; reflexivity. Qed.

Lemma dict_versions_pyopt d k o :
  d !! k = Some (pyopt PVersions o) -> dict_versions d k = Ok o.
Proof. unfold dict_versions. intros ->. destruct o; reflexivity. Qed.

Lemma dict_staging_pyopt d k o :
  d !! k = Some (pyopt PStaging o) -> dict_staging d k = Ok o.
Proof. unfold dict_staging. intros ->. destruct o; reflexivity. Qed.

Lemma dict_config_pyopt d k o :
  d !! k = Some (pyopt PConfig o) -> dict_config d k = Ok o.
Proof. unfold dict_config. intros ->. destruct o; reflexivity. Qed.

(** A snapshot written from a row and read back without its secrets builds
    the same row, with no secrets and with a null staging written as the JSON
    literal. *)
Lemma snapshot_roundtrip fresh a :
  ArtifactModel_of_dict fresh (base.delete "secrets" (model_to_dict a))
  = Ok (set_secrets None (set_staging (py_store (py_value (a_staging a))) a)).
Proof.
  unfold ArtifactModel_of_dict.
  rewrite (dict_str_pyopt _ "id" (Some (a_id a))) by reflexivity.
  rewrite (dict_str_pyopt _ "type" (a_type a)) by reflexivity.
  rewrite (dict_str_pyopt _ "workspace" (Some (a_workspace a))) by reflexivity.
  rewrite (dict_str_pyopt _ "parent_id" (a_parent_id a)) by reflexivity.
  rewrite (dict_str_pyopt _ "alias" (a_alias a)) by reflexivity.
  rewrite (dict_dict_pyopt _ "manifest" (a_manifest a)) by reflexivity.
  rewrite (dict_staging_pyopt _ "staging" (py_value (a_staging a))) by reflexivity.
  rewrite (dict_str_pyopt _ "created_by" (a_created_by a)) by reflexivity.
  rewrite (dict_versions_pyopt _ "versions" (a_versions a)) by reflexivity.
  rewrite (dict_config_pyopt _ "config" (a_config a)) by reflexivity.
  destruct a. reflexivity.
Qed.

Lemma commit_files_keeps self a parent i st a' :
  commit_files self a parent i st = Ok a' ->
  a_id a' = a_id a /\ a_versions a' = a_versions a.
Proof.
  unfold commit_files, mbind, result_bind. intros H. spine H;
    injection H as <-; try (split; reflexivity).
  cbn [set_file_count a_id a_versions].
  destruct (negb (size _ =? 0)%nat); split; reflexivity.
Qed.

(** What a successful [commit] has done. *)
Lemma commit_inv self artifact_id version comment context env st d st' :
  commit self artifact_id version comment context env st = Ok (d, st') ->
  exists user_info live parent N key body snap a1,
    resolve artifact_id "commit" context st = Ok (user_info, live, parent)
    /\ version <> Some "stage"
    /\ len_versions live = Ok N
    /\ version_key (_get_s3_config self live None) live N = Ok key
    /\ s3_snapshots st !! key = Some body
    /\ ArtifactModel_of_dict (env_uuid env) (base.delete "secrets" body) = Ok snap
    /\ commit_files self
         (set_config (Some (default empty_config (a_config snap))) snap) parent N st
       = Ok a1
    /\ let stored :=
         set_last_modified (env_now env)
           (set_staging JsonNull
              (set_versions
                 (Some (commit_versions (default [] (a_versions snap)) version
                          comment (env_now env))) a1)) in
       db_merge stored (db st) = Ok (db st')
       /\ d = _generate_artifact_data stored parent.
Proof.
  unfold commit, resolve, mbind, result_bind. intros H. spine H;
  injection H as <- <-.
  all: match goal with
       | E : _save_version_to_s3 _ _ _ _ = Ok _ |- _ =>
           pose proof (save_version_db _ _ _ _ _ E) as Hdb; clear E
       end.
  all: match goal with
       | E : _load_version_from_s3 _ _ _ _ _ _ = Ok _ |- _ =>
           unfold _load_version_from_s3, mbind, result_bind in E; spine E;
           injection E as <-
       end.
  all: match goal with
       | E : _get_version_index _ (VStr "stage") = Ok _ |- _ =>
           unfold _get_version_index in E; cbn [String.eqb Ascii.eqb Bool.eqb] in E
       end.
  all: repeat match goal with
       | E : require_ws _ = Ok _ |- _ => rewrite E; clear E
       | E : _validate_artifact_id _ _ = Ok _ |- _ => rewrite E; clear E
       | E : _get_artifact_with_permission _ _ _ _ = Ok _ |- _ => rewrite E; clear E
       end.
  all: do 8 eexists; split; [reflexivity |].
  all: split; [match goal with
               | E : py_assert (negb (bool_decide (_ = Some "stage"))) = Ok _ |- _ =>
                   unfold py_assert in E; intros Hv;
                   rewrite bool_decide_eq_true_2 in E by exact Hv; discriminate E
               end |].
  all: split; [match goal with E : len_versions _ = Ok _ |- _ => exact E end |].
  all: split; [match goal with E : version_key _ _ _ = Ok _ |- _ => exact E end |].
  all: split; [match goal with E : s3_snapshots _ !! _ = Some _ |- _ => exact E end |].
  all: split; [match goal with E : ArtifactModel_of_dict _ _ = Ok _ |- _ => exact E end |].
  all: split; [match goal with E : commit_files _ _ _ _ _ = Ok _ |- _ => exact E end |].
  all: cbv zeta; rewrite Hdb; cbn [db set_db].
  all: split; [match goal with E : db_merge _ _ = Ok _ |- _ => exact E end | reflexivity].
Qed.

(** C6 as stated fails on the code: a commit with the default
    [version=None] succeeds on the staged artifact of the scenario, clears
    staging and appends no entry to versions. *)
Lemma commit_without_version_appends_nothing :
  let staged := Scenario.state_of (Scenario.created (Some "stage")) in
  let r := commit Scenario.controller "ds" None None Scenario.context
             Scenario.env staged in
  map a_staging (db staged) = [JsonVal []]
  /\ map a_versions (db staged) = [Some []]
  /\ is_ok r = true
  /\ map a_staging (db (Scenario.state_of r)) = [JsonNull]
  /\ map a_versions (db (Scenario.state_of r)) = [Some []].
Proof. cbv zeta. repeat split; vm_compute; reflexivity. Qed.

(** C6 (amended).  A successful commit loads the staged snapshot, the
    object at index N = len(versions) of the row under the artifact's own S3
    configuration, and replaces the row by the row built from that snapshot,
    with staging set to null.  The versions it stores are the versions list
    recorded in the snapshot, followed by exactly one new entry when a
    version is given (labelled "v<M>" for "new", M the length of the
    snapshot's list, and with the given string otherwise) and by nothing when
    the version is omitted.  The snapshot's list is the list of the live row,
    so that M = N and exactly one entry is appended to the row's versions,
    when the staged snapshot is the dict of the live row, as the staging
    operations write it; it is another list when a version was deleted from
    the row since. *)
Theorem commit_appends_and_clears self artifact_id version comment context env
    st d st' :
  commit self artifact_id version comment context env st = Ok (d, st') ->
  exists user_info live parent N key body snap stored,
    resolve artifact_id "commit" context st = Ok (user_info, live, parent)
    /\ len_versions live = Ok N
    /\ version_key (_get_s3_config self live None) live N = Ok key
    /\ s3_snapshots st !! key = Some body
    /\ ArtifactModel_of_dict (env_uuid env) (base.delete "secrets" body) = Ok snap
    /\ db_merge stored (db st) = Ok (db st')
    /\ stored ∈ db st'
    /\ a_id stored = a_id snap
    /\ a_staging stored = JsonNull
    /\ let before := default [] (a_versions snap) in
       (forall v, version = Some v ->
          v <> "stage"
          /\ a_versions stored
             = Some (before
                     ++ [mkVersion
                           (if String.eqb v "new" then version_label (length before)
                            else v) comment (env_now env)])%list)
       /\ (version = None -> a_versions stored = Some before)
       /\ (body = model_to_dict live ->
           a_versions snap = a_versions live /\ a_id snap = a_id live
           /\ Z.of_nat (length before) = N).
Proof.
  intros H. apply commit_inv in H
    as (u & live & parent & N & key & body & snap & a1
        & Hres & Hstage & HN & Hkey & Hbody & Hsnap & Hfiles & H).
  cbv zeta in H. destruct H as (Hmerge & _).
  destruct (commit_files_keeps _ _ _ _ _ _ Hfiles) as [Hid _].
  eexists u, live, parent, N, key, body, snap, _.
  split; [exact Hres |]. split; [exact HN |]. split; [exact Hkey |].
  split; [exact Hbody |]. split; [exact Hsnap |]. split; [exact Hmerge |].
  split; [eapply db_merge_elem; exact Hmerge |].
  split; [exact Hid |]. split; [reflexivity |].
  cbv zeta. cbn [a_versions set_last_modified set_staging set_versions].
  split; [| split].
  - intros v ->. split; [congruence | reflexivity].
  - intros ->. reflexivity.
  - intros ->. rewrite snapshot_roundtrip in Hsnap. injection Hsnap as <-.
    split; [reflexivity |]. split; [reflexivity |].
    cbn [a_versions set_secrets set_staging].
    unfold len_versions in HN. destruct (a_versions live); [| discriminate HN].
    by injection HN.
Qed.

(** The artifact had the versions v0 and v1, was put in staging mode and
    then lost v0 by a per-version delete: its row lists v1, so the commit
    loads the object of index 1, which records v0 and v1.  Committed as
    "new", the row is stored with staging null and the versions v0, v1 and
    v2. *)
Lemma commit_appends_and_clears_witness :
  map (fun a => (a_staging a, option_map (map v_version) (a_versions a)))
    (db Scenario.staged_after_delete) = [(JsonVal [], Some ["v1"])]
  /\ exists d st' stored,
       commit Scenario.controller "ds" (Some "new") None Scenario.context
         Scenario.env Scenario.staged_after_delete = Ok (d, st')
       /\ stored ∈ db st'
       /\ a_staging stored = JsonNull
       /\ option_map (map v_version) (a_versions stored) = Some ["v0"; "v1"; "v2"].
Proof.
  split; [vm_compute; reflexivity |].
  assert (exists live,
            resolve "ds" "commit" Scenario.context Scenario.staged_after_delete
            = Ok (Scenario.carol, live, None)
            /\ len_versions live = Ok 1
            /\ version_key (_get_s3_config Scenario.controller live None) live 1
               = Ok ("hypha-workspaces", "", "W", "id-1", 1))
    as (live0 & Hlive & HN0 & Hkey0).
  { eexists. split; [vm_compute; reflexivity |]. split; reflexivity. }
  assert (s3_snapshots Scenario.staged_after_delete
            !! ("hypha-workspaces", "", "W", "id-1", 1)
          ≫= (fun body =>
                match ArtifactModel_of_dict (env_uuid Scenario.env)
                        (base.delete "secrets" body) with
                | Ok snap => option_map (map v_version) (a_versions snap)
                | Err _ => None
                end) = Some ["v0"; "v1"]) as Hrec by (vm_compute; reflexivity).
  assert (is_ok (commit Scenario.controller "ds" (Some "new") None
                   Scenario.context Scenario.env Scenario.staged_after_delete)
          = true) as Hok by (vm_compute; reflexivity).
  destruct (ran _ Hok) as (d & st' & E).
  destruct (commit_appends_and_clears _ _ _ _ _ _ _ _ _ E)
    as (u & live & parent & N & key & body & snap & stored
        & Hres & HN & Hkey & Hbody & Hsnap & _ & Hin & _ & Hst & Hv & _ & _).
  rewrite Hlive in Hres. injection Hres as <- <- <-.
  rewrite HN0 in HN. injection HN as <-.
  rewrite Hkey0 in Hkey. injection Hkey as <-.
  rewrite Hbody in Hrec. cbn [mbind option_bind] in Hrec. rewrite Hsnap in Hrec.
  destruct (Hv "new" eq_refl) as [_ Hstored].
  destruct (a_versions snap) as [before |]; [| discriminate Hrec].
  cbn [option_map] in Hrec. injection Hrec as Hrec.
  exists d, st', stored. split; [exact E |]. split; [exact Hin |].
  split; [exact Hst |].
  assert (length before = 2%nat) as Hlen
    by (rewrite <- (length_map v_version), Hrec; reflexivity).
  change (a_versions stored
          = Some (before ++ [mkVersion (version_label (length before)) None
                               (env_now Scenario.env)])%list) in Hstored.
  rewrite Hstored, Hlen. cbn [option_map]. rewrite List.map_app, Hrec.
  reflexivity.
Defined.

(** ** delete *)

Lemma is_Some_compute {A} (o : option A) :
  match o with Some _ => true | None => false end = true -> is_Some o.
Proof. destruct o; [eauto | discriminate]. Qed.

(** A delete of one version never touches the object store: the cleanup
    coroutine is built and dropped. *)
Lemma delete_version_keeps_objects self artifact_id delete_files recursive version
    context st st' :
  version <> VNone ->
  delete self artifact_id delete_files recursive version context st = Ok st' ->
  s3_snapshots st' = s3_snapshots st /\ s3_files st' = s3_files st.
Proof.
  unfold delete, delete_body, not_awaited, mbind, result_bind. intros Hv H.
  spine H; try congruence; injection H as <-.
  all: match goal with
       | E : (if bool_decide _ then _ else _) = Ok _ |- _ =>
           spine E; injection E as <-
       end.
  all: split; reflexivity.
Qed.

(** C7 at a failing input.  The artifact has versions v0 and v1, their two
    snapshots and a blob under version 0.  [delete(version=0,
    delete_files=True)] succeeds and removes the entry v0 from the row, but
    the snapshot and the blob of index 0 are still in the store afterwards;
    the cleanup coroutine, had it been awaited, would have removed both. *)
Theorem delete_version_skips_cleanup :
  let st := Scenario.two_versions_with_blob in
  let key := ("hypha-workspaces", "", "W", "id-1", 0) in
  let r := delete Scenario.controller "ds" true false (VInt 0) Scenario.context st in
  map a_versions (db st)
    = [Some [mkVersion "v0" (Some "Initial version") 1000; mkVersion "v1" None 1000]]
  /\ is_ok r = true
  /\ map a_versions (db (Scenario.final r)) = [Some [mkVersion "v1" None 1000]]
  /\ is_Some (s3_snapshots st !! key)
  /\ s3_snapshots (Scenario.final r) = s3_snapshots st
  /\ s3_files (Scenario.final r) = [("hypha-workspaces", "", "W", "id-1", 0, "a.csv")]
  /\ (forall a cfg,
        db st = [a] -> cfg = _get_s3_config Scenario.controller a None ->
        let awaited := _delete_version_files_from_s3 0 a cfg true st in
        is_ok awaited = true
        /\ s3_snapshots (Scenario.final awaited) !! key = None
        /\ s3_files (Scenario.final awaited) = []).
Proof.
  cbv zeta. split; [vm_compute; reflexivity |].
  assert (is_ok (delete Scenario.controller "ds" true false (VInt 0)
                   Scenario.context Scenario.two_versions_with_blob) = true) as Hok
    by (vm_compute; reflexivity).
  split; [exact Hok |]. split; [vm_compute; reflexivity |].
  split; [apply is_Some_compute; vm_compute; reflexivity |].
  destruct (delete Scenario.controller "ds" true false (VInt 0) Scenario.context
              Scenario.two_versions_with_blob) as [st' | e] eqn:E;
    [| discriminate Hok].
  apply delete_version_keeps_objects in E as [Hs Hf]; [| discriminate].
  cbn [Scenario.final]. split; [exact Hs |]. split; [rewrite Hf; reflexivity |].
  intros a cfg Ha ->.
  assert (a = hd Scenario.unversioned (db Scenario.two_versions_with_blob)) as ->
    by (rewrite Ha; reflexivity).
  repeat split; vm_compute; reflexivity.
Qed.

(** ** list_children *)












(** * Further properties of the code *)

(** ** The permission table *)

Lemma expand_code_cases code :
  code ∈ documented_codes \/ _expand_permission (PermCode code) = [].
Proof.
  destruct (decide (code ∈ documented_codes)) as [Hin | Hout]; [by left | right].
  unfold _expand_permission, permission_map.
  rewrite (not_elem_of_list_to_map_1 _ code); [reflexivity | exact Hout].
Qed.

(** The code "*" is the largest of the table: whatever operation a code
    grants, "*" grants too; and "*" grants exactly the operations the
    permission check knows, except [delete]. *)
Theorem star_is_the_largest_code :
  (forall code operation,
      operation ∈ _expand_permission (PermCode code) ->
      operation ∈ _expand_permission (PermCode "*"))
  /\ (forall operation,
        operation ∈ _expand_permission (PermCode "*")
        <-> is_Some (operation_map !! operation) /\ operation <> "delete").
Proof.
  split.
  - intros code operation Hop.
    destruct (expand_code_cases code) as [Hin | Hnil];
      [| rewrite Hnil in Hop; by apply elem_of_nil in Hop].
    assert (forallb (fun op => bool_decide (op ∈ _expand_permission (PermCode "*")))
              (_expand_permission (PermCode code)) = true) as Hall.
    { unfold documented_codes in Hin.
      repeat (apply elem_of_cons in Hin as [-> | Hin]; [vm_compute; reflexivity |]).
      by apply elem_of_nil in Hin. }
    rewrite forallb_forall in Hall. apply list_elem_of_In, Hall in Hop.
    by apply bool_decide_eq_true in Hop.
  - intros operation. split.
    + intros Hop.
      assert (forallb (fun op =>
                match operation_map !! op with Some _ => true | None => false end
                && negb (String.eqb op "delete"))
                (_expand_permission (PermCode "*")) = true) as Hall
        by (vm_compute; reflexivity).
      rewrite forallb_forall in Hall. apply list_elem_of_In, Hall in Hop.
      apply andb_true_iff in Hop as [Hsome Hne]. split.
      * by apply is_Some_compute.
      * intros ->. discriminate Hne.
    + intros [[tier Htier] Hne]. rewrite operation_map_required_tier in Htier.
      destruct (decide (operation ∈ supported_operations)) as [Hin | Hout].
      * assert (forallb (fun op =>
                  String.eqb op "delete"
                  || bool_decide (op ∈ _expand_permission (PermCode "*")))
                  supported_operations = true) as Hall by (vm_compute; reflexivity).
        rewrite forallb_forall in Hall. apply list_elem_of_In, Hall in Hin.
        apply orb_true_iff in Hin as [Heq | Hin].
        -- by apply String.eqb_eq in Heq.
        -- by apply bool_decide_eq_true in Hin.
      * exfalso. unfold required_tier in Htier.
        repeat case_bool_decide; try discriminate Htier;
          apply Hout; unfold supported_operations; set_solver.
Qed.

(** "lf+" grants [put_file], and so does "*". *)
Lemma star_is_the_largest_code_witness :
  "put_file" ∈ _expand_permission (PermCode "*").
Proof.
  apply (proj1 star_is_the_largest_code "lf+"). vm_compute. repeat constructor.
Defined.

(** No permission code grants [delete]. *)
Lemma code_never_grants_delete code :
  "delete" ∉ _expand_permission (PermCode code).
Proof.
  destruct (expand_code_cases code) as [Hin | ->]; [| apply not_elem_of_nil].
  apply (bool_decide_eq_false_1 ("delete" ∈ _expand_permission (PermCode code))).
  unfold documented_codes in Hin.
  repeat (apply elem_of_cons in Hin as [-> | Hin]; [vm_compute; reflexivity |]).
  by apply elem_of_nil in Hin.
Qed.

(** When every entry of an artifact's permissions is a permission code
    (none is an explicit operation list), [delete] is authorised only by the
    workspace tier: the caller holds admin on the artifact's workspace. *)
Theorem delete_needs_workspace_admin rows user_info artifact_id artifact parent :
  (forall key p, artifact_permissions artifact !! key = Some p ->
                 exists code, p = PermCode code) ->
  _get_artifact_with_permission rows user_info artifact_id "delete"
    = Ok (artifact, parent) ->
  check_permission user_info (a_workspace artifact) UserPermission.admin = true.
Proof.
  intros Hcodes H.
  assert (forall key, grants (artifact_permissions artifact) key "delete" = false)
    as Hno.
  { intros key. unfold grants.
    destruct (artifact_permissions artifact !! key) as [p |] eqn:Hp; [| done].
    destruct (Hcodes _ _ Hp) as [code ->].
    apply bool_decide_eq_false_2, code_never_grants_delete. }
  unfold _get_artifact_with_permission, mbind, result_bind in H.
  change (operation_map !! "delete") with (Some UserPermission.admin) in H.
  cbv beta iota in H.
  destruct (_get_artifact_with_parent rows artifact_id) as [[a p] |]; [| done].
  destruct (_check_permissions a user_info "delete") eqn:Hchk.
  - injection H as -> ->. unfold _check_permissions in Hchk. cbv zeta in Hchk.
    rewrite !Hno, andb_false_r in Hchk. discriminate Hchk.
  - destruct (check_permission user_info (a_workspace a) UserPermission.admin) eqn:Hc;
      [| discriminate H].
    injection H as <- <-. exact Hc.
Qed.

(** Carol is admin of "W" and deletes the parent, on which bob holds "*":
    the authorisation comes from her workspace role. *)
Lemma delete_needs_workspace_admin_witness :
  check_permission Scenario.carol "W" UserPermission.admin = true.
Proof.
  apply (delete_needs_workspace_admin
           [Scenario.parent_row {[ "bob" := PermCode "*" ]} None]
           Scenario.carol "W/parent"
           (Scenario.parent_row {[ "bob" := PermCode "*" ]} None) None).
  - intros key p Hp. cbn in Hp.
    apply lookup_singleton_Some in Hp as [_ <-]. eauto.
  - vm_compute. reflexivity.
Defined.

(** ** Generated aliases *)

Lemma batch_alias_exists_elem rows workspace aliases x :
  x ∈ _batch_alias_exists rows workspace aliases
  <-> x ∈ aliases
      /\ exists r, r ∈ rows /\ a_workspace r = workspace /\ a_alias r = Some x.
Proof.
  unfold _batch_alias_exists. rewrite list_elem_of_omap. split.
  - intros (r & Hr & H).
    destruct (String.eqb_spec (a_workspace r) workspace) as [Hw |]; [| done].
    destruct (a_alias r) as [y |] eqn:Hy; [| done].
    case_bool_decide; [| done]. injection H as ->. eauto 6.
  - intros (Hx & r & Hr & Hw & Ha). exists r. split; [done |].
    rewrite Hw, String.eqb_refl, Ha. rewrite bool_decide_eq_true_2 by done. done.
Qed.

(** A generated alias is one of the candidates of the attempts made, and
    no row of the workspace carries it. *)
Theorem generated_alias_is_free rows workspace batches max_attempts alias :
  _generate_unique_alias rows workspace batches max_attempts = Ok alias ->
  (exists candidates, candidates ∈ take max_attempts batches /\ alias ∈ candidates)
  /\ forall r, r ∈ rows -> a_workspace r = workspace -> a_alias r <> Some alias.
Proof.
  revert batches. induction max_attempts as [| n IH]; intros batches H; [done |].
  cbn [_generate_unique_alias] in H. cbv zeta in H.
  destruct (List.filter _ (default [] (head batches))) as [| c free] eqn:Hfree.
  - destruct (IH _ H) as [(cs & Hcs & Hin) Hrows]. split; [| exact Hrows].
    exists cs. split; [| exact Hin].
    destruct batches as [| b bs];
      [cbn in Hcs; rewrite take_nil in Hcs; by apply elem_of_nil in Hcs |].
    cbn. by apply elem_of_cons; right.
  - injection H as ->.
    assert (In alias (List.filter
              (fun c => negb (bool_decide
                 (c ∈ _batch_alias_exists rows workspace (default [] (head batches)))))
              (default [] (head batches)))) as Hin
      by (rewrite Hfree; left; reflexivity).
    apply filter_In in Hin as [Hin Hnot].
    apply negb_true_iff, bool_decide_eq_false in Hnot.
    apply list_elem_of_In in Hin.
    destruct batches as [| b bs]; [by apply elem_of_nil in Hin |].
    cbn in Hin, Hnot. split.
    + exists b. split; [cbn; apply list_elem_of_here | exact Hin].
    + intros r Hr Hw Ha. apply Hnot. apply batch_alias_exists_elem. eauto 6.
Qed.

(** With "happy-cat" taken in "W", the second candidate of the batch is
    returned, and no row of "W" carries it. *)
Lemma generated_alias_is_free_witness :
  _generate_unique_alias [Scenario.child_row "id-1" "happy-cat" JsonNull] "W"
    [["happy-cat"; "calm-dog"]] 10 = Ok "calm-dog"
  /\ Forall (fun r => a_workspace r = "W" -> a_alias r <> Some "calm-dog")
       [Scenario.child_row "id-1" "happy-cat" JsonNull].
Proof.
  assert (_generate_unique_alias [Scenario.child_row "id-1" "happy-cat" JsonNull]
            "W" [["happy-cat"; "calm-dog"]] 10 = Ok "calm-dog") as H
    by (vm_compute; reflexivity).
  split; [exact H |]. apply Forall_forall. intros r Hr.
  apply (proj2 (generated_alias_is_free _ _ _ _ _ H)). exact Hr.
Defined.

(** When every candidate of every attempt is already an alias of the
    workspace, the generation gives up with a runtime error. *)
Theorem alias_generation_gives_up rows workspace batches max_attempts :
  (forall candidates alias,
      candidates ∈ batches -> alias ∈ candidates ->
      exists r, r ∈ rows /\ a_workspace r = workspace /\ a_alias r = Some alias) ->
  _generate_unique_alias rows workspace batches max_attempts = Err RuntimeError.
Proof.
  revert batches. induction max_attempts as [| n IH]; intros batches Htaken;
    [reflexivity |].
  cbn [_generate_unique_alias]. cbv zeta.
  destruct (List.filter _ (default [] (head batches))) as [| c free] eqn:Hfree.
  - apply IH. intros cs alias Hcs Hin. apply (Htaken cs alias); [| exact Hin].
    destruct batches as [| b bs]; [done |]. by apply elem_of_cons; right.
  - exfalso.
    assert (In c (List.filter
              (fun c => negb (bool_decide
                 (c ∈ _batch_alias_exists rows workspace (default [] (head batches)))))
              (default [] (head batches)))) as Hin
      by (rewrite Hfree; left; reflexivity).
    apply filter_In in Hin as [Hin Hnot].
    apply negb_true_iff, bool_decide_eq_false in Hnot.
    apply list_elem_of_In in Hin.
    destruct batches as [| b bs]; [by apply elem_of_nil in Hin |].
    cbn in Hin, Hnot. apply Hnot. apply batch_alias_exists_elem.
    split; [exact Hin |]. apply (Htaken b c); [apply list_elem_of_here | exact Hin].
Qed.

(** Both candidates are taken in "W". *)
Lemma alias_generation_gives_up_witness :
  _generate_unique_alias
    [Scenario.child_row "id-1" "a" JsonNull; Scenario.child_row "id-2" "b" JsonNull]
    "W" [["a"; "b"]; ["b"]] 10 = Err RuntimeError.
Proof.
  apply alias_generation_gives_up. intros cs alias Hcs Hin.
  repeat (apply elem_of_cons in Hcs as [-> | Hcs]);
    [| | by apply elem_of_nil in Hcs].
  - repeat (apply elem_of_cons in Hin as [-> | Hin]);
      [| | by apply elem_of_nil in Hin].
    + exists (Scenario.child_row "id-1" "a" JsonNull).
      split; [apply list_elem_of_here | split; reflexivity].
    + exists (Scenario.child_row "id-2" "b" JsonNull).
      split; [apply elem_of_cons; right; apply list_elem_of_here | split; reflexivity].
  - apply list_elem_of_singleton in Hin as ->.
    exists (Scenario.child_row "id-2" "b" JsonNull).
    split; [apply elem_of_cons; right; apply list_elem_of_here | split; reflexivity].
Defined.

(** ** Artifact ids *)

Lemma contains_char_app c s1 s2 :
  contains_char c (s1 +:+ s2) = contains_char c s1 || contains_char c s2.
Proof.
  induction s1 as [| a s1 IH]; [reflexivity |].
  change (String a s1 +:+ s2) with (String a (s1 +:+ s2)).
  cbn [contains_char]. rewrite IH. by rewrite orb_assoc.
Qed.

Lemma contains_char_elem c s :
  contains_char c s = true <-> c ∈ String.list_ascii_of_string s.
Proof.
  induction s as [| a s IH]; cbn.
  - split; [done | intros H; by apply elem_of_nil in H].
  - rewrite orb_true_iff, IH, elem_of_cons.
    destruct (Ascii.eqb_spec a c); naive_solver.
Qed.

Lemma split_char_nonempty c s : split_char c s <> [].
Proof.
  destruct s as [| a s]; cbn; [done |].
  destruct (Ascii.eqb a c); [done |]. by destruct (split_char c s).
Qed.

Lemma split_char_none c s : contains_char c s = false -> split_char c s = [s].
Proof.
  induction s as [| a s IH]; [reflexivity |].
  cbn. intros H. apply orb_false_iff in H as [-> H]. by rewrite (IH H).
Qed.

Lemma split_char_app c s1 s2 :
  contains_char c s1 = false ->
  split_char c (s1 +:+ String c s2) = s1 :: split_char c s2.
Proof.
  induction s1 as [| a s1 IH].
  - intros _. change ("" +:+ String c s2) with (String c s2).
    cbn [split_char]. by rewrite Ascii.eqb_refl.
  - intros H. cbn [contains_char] in H. apply orb_false_iff in H as [Ha H].
    change (String a s1 +:+ String c s2) with (String a (s1 +:+ String c s2)).
    cbn [split_char]. by rewrite Ha, (IH H).
Qed.

(** A string that splits into one part holds no separator. *)
Lemma split_char_single c s x : split_char c s = [x] -> contains_char c s = false.
Proof.
  revert x. induction s as [| a s IH]; intros x; [reflexivity |].
  cbn. destruct (Ascii.eqb a c).
  - intros [= _ H]. by apply split_char_nonempty in H.
  - destruct (split_char c s) as [| w [| w' ws]] eqn:Hs; intros [=]; subst.
    + by apply split_char_nonempty in Hs.
    + cbn. by eapply IH.
Qed.

(** A string that splits into two parts is the first, the separator and
    the second, and neither part holds the separator. *)
Lemma split_char_pair c s x y :
  split_char c s = [x; y] ->
  s = x +:+ String c y /\ contains_char c x = false /\ contains_char c y = false.
Proof.
  revert x. induction s as [| a s IH]; intros x; [done |].
  cbn. destruct (Ascii.eqb_spec a c) as [-> | Hne].
  - intros [= <- H].
    apply split_char_single in H as Hn. rewrite (split_char_none _ _ Hn) in H.
    injection H as <-. done.
  - destruct (split_char c s) as [| w [| w' ws]] eqn:Hs; intros [=]; subst.
    destruct (IH w eq_refl) as (-> & Hw & Hy).
    split; [reflexivity |]. split; [| exact Hy].
    cbn. rewrite Hw. by destruct (Ascii.eqb_spec a c).
Qed.

Lemma uuid_chars_no_slash i cs : uuid_chars i cs = true -> slash ∉ cs.
Proof.
  revert i. induction cs as [| c cs IH]; intros i H; [apply not_elem_of_nil |].
  cbn [uuid_chars] in H.
  apply andb_true_iff in H as [H Hrest]. apply andb_true_iff in H as [Hc _].
  apply not_elem_of_cons. split; [| by eapply IH].
  intros <-. case_bool_decide; vm_compute in Hc; discriminate Hc.
Qed.

(** A string of the UUID shape holds no slash. *)
Lemma is_uuid_no_slash s : is_uuid s = true -> contains_char slash s = false.
Proof.
  unfold is_uuid. cbv zeta. intros H.
  destruct (contains_char slash s) eqn:Hs; [exfalso | reflexivity].
  apply contains_char_elem in Hs.
  apply orb_true_iff in H as [H | H].
  - by apply uuid_chars_no_slash in H.
  - destruct (reverse (String.list_ascii_of_string s)) as [| c rest] eqn:Hrev;
      [done |].
    apply andb_true_iff in H as [Hc H]. apply uuid_chars_no_slash in H.
    apply elem_of_reverse in Hs. rewrite Hrev in Hs.
    apply elem_of_cons in Hs as [<- | Hs]; [vm_compute in Hc; discriminate Hc |].
    apply H. by apply elem_of_reverse.
Qed.

(** An id that passed [_validate_artifact_id] for a workspace name without
    a slash is stable under a second validation, and [_get_artifact_id_cond]
    builds a condition from it: its assertion on the number of parts cannot
    fail. *)
Theorem validated_id_is_accepted artifact_id ws validated :
  contains_char slash ws = false ->
  _validate_artifact_id artifact_id ws = Ok validated ->
  (forall ws', _validate_artifact_id validated ws' = Ok validated)
  /\ exists cond, _get_artifact_id_cond validated = Ok cond.
Proof.
  intros Hws. unfold _validate_artifact_id, _get_artifact_id_cond.
  destruct (is_uuid artifact_id) eqn:Hu.
  - intros [= <-]. rewrite Hu, (is_uuid_no_slash _ Hu). eauto.
  - destruct (contains_char slash artifact_id) eqn:Hs.
    + unfold mbind, result_bind, py_assert.
      destruct (split_char slash artifact_id) as [| x [| y [| z l]]] eqn:Hsp;
        cbn; intros [=]; subst.
      rewrite Hu, Hs, Hsp. cbn. eauto.
    + intros [= <-].
      assert (contains_char slash (ws +:+ "/" +:+ artifact_id) = true) as Hc
        by (rewrite contains_char_app; cbn; apply orb_true_r).
      assert (split_char slash (ws +:+ "/" +:+ artifact_id) = [ws; artifact_id])
        as Hsp.
      { change (ws +:+ "/" +:+ artifact_id) with (ws +:+ String slash artifact_id).
        rewrite (split_char_app _ _ _ Hws), (split_char_none _ _ Hs). reflexivity. }
      destruct (is_uuid (ws +:+ "/" +:+ artifact_id)) eqn:Hu'.
      { apply is_uuid_no_slash in Hu'. congruence. }
      rewrite Hc, Hsp. cbn. eauto.
Qed.

Lemma validated_id_is_accepted_witness :
  exists cond, _get_artifact_id_cond "W/ds" = Ok cond.
Proof.
  apply (validated_id_is_accepted "ds" "W" "W/ds"); reflexivity.
Defined.

(** How an id names a row.  A bare alias (no slash, not of the UUID shape)
    is looked up in the caller's workspace, by workspace and alias; an id of
    the UUID shape is looked up by primary key, whatever the caller's
    workspace. *)
Theorem bare_alias_names_a_row_of_the_caller_workspace artifact_id ws :
  contains_char slash ws = false ->
  contains_char slash artifact_id = false ->
  exists validated cond,
    _validate_artifact_id artifact_id ws = Ok validated
    /\ _get_artifact_id_cond validated = Ok cond
    /\ forall a,
         cond a = true <->
         if is_uuid artifact_id then a_id a = artifact_id
         else a_workspace a = ws /\ a_alias a = Some artifact_id.
Proof.
  intros Hws Hs. unfold _validate_artifact_id, _get_artifact_id_cond.
  destruct (is_uuid artifact_id) eqn:Hu.
  - exists artifact_id. rewrite Hs. eexists.
    split; [reflexivity |]. split; [reflexivity |].
    intros a. cbv beta. by destruct (String.eqb_spec (a_id a) artifact_id).
  - rewrite Hs. exists (ws +:+ "/" +:+ artifact_id).
    assert (contains_char slash (ws +:+ "/" +:+ artifact_id) = true) as Hc
      by (rewrite contains_char_app; cbn; apply orb_true_r).
    assert (split_char slash (ws +:+ "/" +:+ artifact_id) = [ws; artifact_id])
      as Hsp.
    { change (ws +:+ "/" +:+ artifact_id) with (ws +:+ String slash artifact_id).
      rewrite (split_char_app _ _ _ Hws), (split_char_none _ _ Hs). reflexivity. }
    rewrite Hc, Hsp. eexists. split; [reflexivity |].
    split; [reflexivity |]. intros a. cbv beta.
    rewrite andb_true_iff, bool_decide_eq_true.
    destruct (String.eqb_spec (a_workspace a) ws); naive_solver.
Qed.

Lemma bare_alias_names_a_row_of_the_caller_workspace_witness :
  exists validated cond,
    _validate_artifact_id "ds" "W" = Ok validated
    /\ _get_artifact_id_cond validated = Ok cond
    /\ forall a, cond a = true <-> a_workspace a = "W" /\ a_alias a = Some "ds".
Proof.
  apply (bare_alias_names_a_row_of_the_caller_workspace "ds" "W"); reflexivity.
Defined.

(** ** The constraints of the table *)

Lemma has_id_spec i rows : has_id i rows = true <-> i ∈ map a_id rows.
Proof.
  unfold has_id. rewrite existsb_exists, list_elem_of_fmap. split.
  - intros (r & Hr & Heq). apply String.eqb_eq in Heq.
    exists r. split; [done | by apply list_elem_of_In].
  - intros (r & -> & Hr). exists r.
    split; [by apply list_elem_of_In | apply String.eqb_refl].
Qed.

Lemma violates_unique_false a rows r alias :
  violates_unique a rows = false -> r ∈ rows ->
  a_workspace r = a_workspace a -> a_alias r = Some alias ->
  a_alias a = Some alias -> a_id r = a_id a.
Proof.
  unfold violates_unique. intros Hv Hr Hw Hr_alias Ha_alias.
  destruct (String.eqb_spec (a_id r) (a_id a)) as [| Hne]; [done |].
  exfalso. apply not_true_iff_false in Hv. apply Hv.
  apply existsb_exists. exists r. split; [by apply list_elem_of_In |].
  rewrite Hw, Hr_alias, Ha_alias, !String.eqb_refl.
  by destruct (String.eqb_spec (a_id r) (a_id a)).
Qed.











Lemma remove_artifact_objects_db a cfg st st' :
  remove_artifact_objects a cfg st = Ok st' -> db st' = db st.
Proof.
  unfold remove_artifact_objects, mbind, result_bind. intros H. spine H.
  injection H as <-. reflexivity.
Qed.











(** ** Lookups after a write *)

Lemma split_char_concat c s1 s2 :
  split_char c (s1 +:+ String c s2) = (split_char c s1 ++ split_char c s2)%list.
Proof.
  induction s1 as [| a s1 IH].
  - change ("" +:+ String c s2) with (String c s2).
    cbn [split_char]. by rewrite Ascii.eqb_refl.
  - change (String a s1 +:+ String c s2) with (String a (s1 +:+ String c s2)).
    cbn [split_char]. rewrite IH. destruct (Ascii.eqb a c); [reflexivity |].
    pose proof (split_char_nonempty c s1). by destruct (split_char c s1).
Qed.

(** A public id [workspace/alias] with exactly two parts splits into the
    workspace and the alias. *)
Lemma split_public_id ws alias x y :
  split_char slash (ws +:+ "/" +:+ alias) = [x; y] -> x = ws /\ y = alias.
Proof.
  change (ws +:+ "/" +:+ alias) with (ws +:+ String slash alias).
  rewrite split_char_concat.
  pose proof (split_char_nonempty slash ws) as Hw.
  pose proof (split_char_nonempty slash alias) as Ha.
  destruct (split_char slash ws) as [| w [| w' ws']] eqn:Ew; [done | |].
  - destruct (split_char slash alias) as [| a [| a' as']] eqn:Ea; [done | |].
    + intros [= <- <-].
      apply split_char_single in Ew as Hnw. apply split_char_single in Ea as Hna.
      rewrite (split_char_none _ _ Hnw) in Ew.
      rewrite (split_char_none _ _ Hna) in Ea. by injection Ew; injection Ea.
    + intros [=].
  - destruct (split_char slash alias) as [| a as']; [done |]. intros [=].
    by destruct ws'.
Qed.

Lemma get_artifact_id_cond_public ws alias :
  length (split_char slash (ws +:+ "/" +:+ alias)) = 2%nat ->
  _get_artifact_id_cond (ws +:+ "/" +:+ alias)
  = Ok (fun a => String.eqb (a_workspace a) ws
                 && bool_decide (a_alias a = Some alias)).
Proof.
  intros Hlen. unfold _get_artifact_id_cond.
  assert (contains_char slash (ws +:+ "/" +:+ alias) = true) as ->
    by (rewrite contains_char_app; cbn; apply orb_true_r).
  destruct (split_char slash (ws +:+ "/" +:+ alias)) as [| x [| y [| z l]]] eqn:Hsp;
    try discriminate Hlen.
  apply split_public_id in Hsp as [-> ->]. reflexivity.
Qed.

Lemma validate_public_id ws alias ws' :
  length (split_char slash (ws +:+ "/" +:+ alias)) = 2%nat ->
  _validate_artifact_id (ws +:+ "/" +:+ alias) ws' = Ok (ws +:+ "/" +:+ alias).
Proof.
  intros Hlen. unfold _validate_artifact_id.
  assert (contains_char slash (ws +:+ "/" +:+ alias) = true) as Hc
    by (rewrite contains_char_app; cbn; apply orb_true_r).
  destruct (is_uuid (ws +:+ "/" +:+ alias)) eqn:Hu.
  { apply is_uuid_no_slash in Hu. congruence. }
  rewrite Hc, Hlen. reflexivity.
Qed.

Lemma filter_none {A} (f : A -> bool) l :
  (forall x, x ∈ l -> f x = false) -> List.filter f l = [].
Proof.
  induction l as [| x l IH]; [reflexivity |]. intros H. cbn.
  rewrite (H x) by apply list_elem_of_here.
  apply IH. intros y Hy. apply H. by apply elem_of_cons; right.
Qed.

Lemma violates_unique_names a rows r alias :
  violates_unique a rows = false -> r ∈ rows -> a_alias a = Some alias ->
  String.eqb (a_id r) (a_id a) = false ->
  String.eqb (a_workspace r) (a_workspace a) && bool_decide (a_alias r = Some alias)
  = false.
Proof.
  intros Hv Hr Ha Hid.
  destruct (String.eqb_spec (a_workspace r) (a_workspace a)) as [Hw |]; [| done].
  cbn. apply bool_decide_eq_false. intros Hr_alias.
  apply String.eqb_neq in Hid. apply Hid. by eapply violates_unique_false.
Qed.

(** After an INSERT the new row is the only one of its workspace with its
    alias. *)
Lemma select_added a rows rows' alias :
  db_add a rows = Ok rows' -> a_alias a = Some alias ->
  select_where (fun r => String.eqb (a_workspace r) (a_workspace a)
                         && bool_decide (a_alias r = Some alias)) rows' = [a].
Proof.
  unfold db_add, select_where. intros H Ha.
  destruct (has_id (a_id a) rows) eqn:Hid; [done |].
  destruct (violates_unique a rows) eqn:Hv; [done |]. injection H as <-.
  rewrite List.filter_app, filter_none.
  - cbn. rewrite String.eqb_refl, bool_decide_eq_true_2 by done. reflexivity.
  - intros r Hr. eapply violates_unique_names; [exact Hv | exact Hr | exact Ha |].
    apply not_true_iff_false. intros Heq. apply String.eqb_eq in Heq.
    apply not_true_iff_false in Hid. apply Hid. rewrite <- Heq.
    by apply has_id_elem.
Qed.

(** After an UPDATE by primary key the updated row is the only one of its
    workspace with its alias. *)
Lemma select_updated a rows rows' alias :
  unique_ids rows -> has_id (a_id a) rows = true ->
  db_update a rows = Ok rows' -> a_alias a = Some alias ->
  select_where (fun r => String.eqb (a_workspace r) (a_workspace a)
                         && bool_decide (a_alias r = Some alias)) rows' = [a].
Proof.
  unfold db_update, select_where, unique_ids. intros Hids Hid H Ha.
  destruct (violates_unique a rows) eqn:Hv; [done |]. injection H as <-.
  assert (forall r, r ∈ rows -> String.eqb (a_id r) (a_id a) = false ->
            String.eqb (a_workspace r) (a_workspace a)
            && bool_decide (a_alias r = Some alias) = false) as Hother.
  { intros r Hr. by eapply violates_unique_names. }
  clear Hv. apply has_id_spec in Hid.
  induction rows as [| r rows IH]; [by apply elem_of_nil in Hid |].
  cbn [map] in Hids. apply NoDup_cons in Hids as [Hr Hids]. cbn [map List.filter].
  destruct (String.eqb_spec (a_id r) (a_id a)) as [Heq | Hne].
  - rewrite String.eqb_refl, bool_decide_eq_true_2 by done. cbn. f_equal.
    apply filter_none. intros x Hx.
    apply list_elem_of_fmap in Hx as (y & -> & Hy).
    destruct (String.eqb_spec (a_id y) (a_id a)) as [Heq' | Hne'].
    + exfalso. apply Hr. rewrite Heq, <- Heq'. apply list_elem_of_fmap. eauto.
    + apply Hother; [by apply elem_of_cons; right | by apply String.eqb_neq].
  - rewrite (Hother r) by (apply list_elem_of_here || by apply String.eqb_neq).
    apply IH; [exact Hids | | ].
    + cbn [map] in Hid. apply elem_of_cons in Hid as [Hid | Hid]; [congruence | done].
    + intros x Hx. apply Hother. by apply elem_of_cons; right.
Qed.

Lemma select_merged a rows rows' alias :
  unique_ids rows -> db_merge a rows = Ok rows' -> a_alias a = Some alias ->
  select_where (fun r => String.eqb (a_workspace r) (a_workspace a)
                         && bool_decide (a_alias r = Some alias)) rows' = [a].
Proof.
  unfold db_merge. intros Hids H Ha. destruct (has_id (a_id a) rows) eqn:Hid.
  - by eapply select_updated.
  - by eapply select_added.
Qed.

Lemma generate_public_id a p :
  _generate_artifact_data a p !! "id"
  = Some (PStr (a_workspace a +:+ "/" +:+ py_str (a_alias a))).
Proof.
  unfold _generate_artifact_data.
  rewrite lookup_delete_ne by done. rewrite lookup_insert_ne by done.
  apply lookup_insert_eq.
Qed.

(** What [create] stores and answers. *)
Lemma create_row self alias workspace parent_id manifest type config secrets
    publish_to version comment overwrite context env st d st' :
  create self alias workspace parent_id manifest type config secrets publish_to
    version comment overwrite context env st = Ok (d, st') ->
  exists user_info ws a p new_alias,
    require_ws context = Ok (user_info, ws)
    /\ d = _generate_artifact_data a p
    /\ a_alias a = Some new_alias /\ a_type a = type /\ a_manifest a = manifest
    /\ a_secrets a = secrets /\ is_Some (a_versions a)
    /\ (str_truthy parent_id = false ->
        p = None /\ a_parent_id a = parent_id
        /\ artifact_permissions a !! user_id user_info = Some (PermCode "*"))
    /\ (db_add a (db st) = Ok (db st') \/ db_merge a (db st) = Ok (db st')).
Proof.
  unfold create, mbind, result_bind. intros H. spine H; injection H as <- <-.
  all: match goal with
       | E : _save_version_to_s3 _ _ _ _ = Ok _ |- _ =>
           rewrite (save_version_db _ _ _ _ _ E); clear E
       end; cbn [db set_db set_vector_collections].
  all: do 5 eexists; split; [reflexivity |]; split; [reflexivity |].
  all: cbn [a_alias a_type a_manifest a_secrets a_versions a_parent_id].
  all: do 4 (split; [reflexivity |]); split; [eauto |].
  all: split;
    [| match goal with
       | E : (if ?b then db_merge _ _ else db_add _ _) = Ok _ |- _ =>
           destruct b; [right | left]; exact E
       end].
  all: intros Hp;
    match goal with
    | E : resolve_parent _ _ _ _ _ = Ok _ |- _ =>
        unfold resolve_parent, mbind, result_bind in E; rewrite Hp in E;
        spine E; injection E as <- <- <-
    end.
  all: match goal with
       | E : parent_permissions_of None = Ok _ |- _ => injection E as <-
       end.
  all: split; [reflexivity |]; split; [reflexivity |].
  all: unfold artifact_permissions, merge_permissions; cbn [a_config];
       cbn [c_permissions with_permissions option.default].
  all: rewrite (left_id_L ∅ (∪)); apply lookup_insert_eq.
Qed.

Lemma star_grants_read a user_info :
  artifact_permissions a !! user_id user_info = Some (PermCode "*") ->
  _check_permissions a user_info "read" = true.
Proof.
  intros Hp. unfold _check_permissions. cbv zeta. unfold grants at 1.
  rewrite Hp. rewrite bool_decide_eq_true_2; [reflexivity |].
  vm_compute. repeat constructor.
Qed.

(** Round trip of [create] and [read].  After a create without a parent,
    of a type other than the two collection types, and from a table with
    distinct primary keys, a silent read of the id the create returned (when
    it has exactly two slash-separated parts) gives the very answer of the
    create and leaves the store as it is. *)
Theorem create_then_read self alias workspace manifest type config secrets
    publish_to version comment overwrite context env env' st d st' artifact_id :
  create self alias workspace None manifest type config secrets publish_to version
    comment overwrite context env st = Ok (d, st') ->
  unique_ids (db st) ->
  type <> Some "collection" -> type <> Some "vector-collection" ->
  d !! "id" = Some (PStr artifact_id) ->
  length (split_char slash artifact_id) = 2%nat ->
  read self artifact_id true VNone context env' st' = Ok (d, st').
Proof.
  intros H Hids Hcoll Hvec Hid Hlen.
  apply create_row in H
    as (u & ws & a & p & al & Hctx & -> & Hal & Hty & _ & _ & [vs Hvs] & Hp & Hdb).
  destruct (Hp eq_refl) as (-> & Hpid & Hperm). clear Hp.
  rewrite generate_public_id, Hal in Hid. cbn [py_str] in Hid.
  injection Hid as <-.
  assert (select_where (fun r => String.eqb (a_workspace r) (a_workspace a)
                                 && bool_decide (a_alias r = Some al)) (db st')
          = [a]) as Hsel.
  { destruct Hdb; [by eapply select_added | by eapply select_merged]. }
  unfold read, mbind, result_bind. rewrite Hctx.
  rewrite (validate_public_id _ _ _ Hlen).
  unfold _get_artifact_with_permission, _get_artifact_with_parent, mbind, result_bind.
  change (operation_map !! "read") with (Some UserPermission.read). cbv beta iota.
  rewrite (get_artifact_id_cond_public _ _ Hlen), Hsel. cbn [scalar_one_or_none].
  rewrite Hpid. cbn [nonempty]. rewrite (star_grants_read _ _ Hperm).
  unfold _get_version_index, len_versions, mbind, result_bind. rewrite Hvs.
  rewrite Z.eqb_refl, Hty.
  rewrite bool_decide_eq_false_2 by exact Hcoll.
  rewrite bool_decide_eq_false_2 by exact Hvec.
  cbn [andb]. by destruct st'.
Qed.

(** Carol creates "ds" in the empty store and reads "W/ds" back. *)
Lemma create_then_read_witness :
  exists d st',
    Scenario.created (Some "v0") = Ok (d, st')
    /\ read Scenario.controller "W/ds" true VNone Scenario.context Scenario.env st'
       = Ok (d, st').
Proof.
  assert (is_ok (Scenario.created (Some "v0")) = true) as Hok
    by (vm_compute; reflexivity).
  assert (match Scenario.created (Some "v0") with
          | Ok (d, _) => d !! "id"
          | Err _ => None
          end = Some (PStr "W/ds")) as Hid by (vm_compute; reflexivity).
  destruct (ran _ Hok) as (d & st' & E). rewrite E in Hid.
  exists d, st'. split; [exact E |].
  unfold Scenario.created in E.
  eapply create_then_read;
    [exact E | apply NoDup_nil_2 | discriminate | discriminate | exact Hid
    | reflexivity].
Defined.

(** ** Rows that are gone *)

Lemma rows_from_refl rows : rows_from rows rows.
Proof. intros r Hr. exists r. by repeat split. Qed.

Lemma rows_from_trans rows1 rows2 rows3 :
  rows_from rows1 rows2 -> rows_from rows2 rows3 -> rows_from rows1 rows3.
Proof.
  intros H12 H23 r3 Hr3.
  destruct (H23 _ Hr3) as (r2 & Hr2 & Hk2 & Hw2 & Ha2).
  destruct (H12 _ Hr2) as (r1 & Hr1 & Hk1 & Hw1 & Ha1).
  exists r1. split; [exact Hr1 |]. repeat split; congruence.
Qed.

Lemma increment_stat_rows_from rows artifact_id field increment rows' :
  _increment_stat rows artifact_id field increment = Ok rows' ->
  rows_from rows rows'.
Proof.
  unfold _increment_stat, mbind, result_bind.
  destruct (_get_artifact_id_cond artifact_id) as [cond |]; [| done].
  intros [= <-] r' Hr'. apply list_elem_of_fmap in Hr' as (r & -> & Hr).
  exists r. split; [exact Hr |]. destruct (cond r), field; by repeat split.
Qed.

Lemma db_delete_rows_from i rows : rows_from rows (db_delete i rows).
Proof.
  intros r Hr. unfold db_delete in Hr. apply list_elem_of_filter in Hr as [_ Hr].
  exists r. by repeat split.
Qed.

Lemma list_children_rows_from self parent_id keywords filters mode offset limit
    order_by silent pagination context st l st' :
  list_children self parent_id keywords filters mode offset limit order_by silent
    pagination context st = Ok (l, st') ->
  rows_from (db st) (db st').
Proof.
  unfold list_children, mbind, result_bind. intros H. spine H; injection H as <- <-.
  all: cbn [db set_db].
  all: match goal with
       | E : match ?p with Some _ => _ | None => _ end = Ok _ |- _ =>
           destruct p; [match type of E with
                        | (if ?b then _ else _) = _ => destruct b
                        end |];
           first [ injection E as <-; apply rows_from_refl
                 | eapply increment_stat_rows_from; exact E ]
       end.
Qed.

Lemma delete_each_rows_from (delete_child : string -> State -> result State)
    children st st' :
  (forall child_id st st',
      delete_child child_id st = Ok st' -> rows_from (db st) (db st')) ->
  delete_each delete_child children st = Ok st' ->
  rows_from (db st) (db st').
Proof.
  intros Hchild. revert st. induction children as [| child rest IH]; intros st H.
  - injection H as <-. apply rows_from_refl.
  - cbn [delete_each] in H. unfold mbind, result_bind in H. spine H.
    eapply rows_from_trans; [eapply Hchild; eassumption | eapply IH; exact H].
Qed.

(** What a successful delete of a whole artifact has done to the table:
    the rows left come from rows of the table before, and none of them has
    the id of the artifact the call resolved. *)
Lemma delete_body_inv self (delete_child : string -> State -> result State)
    artifact_id delete_files recursive context st st' :
  (forall child_id st st',
      delete_child child_id st = Ok st' -> rows_from (db st) (db st')) ->
  delete_body self delete_child artifact_id delete_files recursive VNone context st
    = Ok st' ->
  exists user_info artifact parent rows,
    resolve artifact_id "delete" context st = Ok (user_info, artifact, parent)
    /\ rows_from (db st) rows
    /\ db st' = db_delete (a_id artifact) rows.
Proof.
  intros Hchild. unfold delete_body, resolve, mbind, result_bind. intros H.
  destruct (require_ws context) as [[user_info ws] |]; [| done].
  destruct (_validate_artifact_id artifact_id ws) as [aid |]; [| done].
  destruct (_get_artifact_with_permission (db st) user_info aid "delete")
    as [[artifact parent] |]; [| done].
  match type of H with
  | match ?m with _ => _ end = _ => destruct m as [st1 |] eqn:H1; [| done]
  end.
  assert (db st1 = db st) as Hdb1.
  { spine H1; injection H1 as <-; reflexivity. }
  match type of H with
  | match ?m with _ => _ end = _ => destruct m as [st2 |] eqn:H2; [| done]
  end.
  assert (rows_from (db st1) (db st2)) as Hw2.
  { destruct recursive; [| injection H2 as <-; apply rows_from_refl].
    destruct (list_children _ _ _ _ _ _ _ _ _ _ _ _) as [[children st1'] |] eqn:Hl;
      [| done].
    eapply rows_from_trans; [eapply list_children_rows_from; exact Hl |].
    eapply delete_each_rows_from; [exact Hchild | exact H2]. }
  match type of H with
  | match ?m with _ => _ end = _ => destruct m as [st3 |] eqn:H3; [| done]
  end.
  assert (db st3 = db st2) as Hdb3.
  { destruct delete_files; [by eapply remove_artifact_objects_db |].
    by injection H3 as <-. }
  spine H. injection H as <-. cbn [db set_db].
  exists user_info, artifact, parent, (db st2).
  split; [reflexivity |]. rewrite Hdb3, <- Hdb1. split; [exact Hw2 | reflexivity].
Qed.

Lemma delete_inv self artifact_id delete_files recursive context st st' :
  delete self artifact_id delete_files recursive VNone context st = Ok st' ->
  exists user_info artifact parent rows,
    resolve artifact_id "delete" context st = Ok (user_info, artifact, parent)
    /\ rows_from (db st) rows
    /\ db st' = db_delete (a_id artifact) rows.
Proof.
  unfold delete. apply delete_body_inv.
  intros child_id st1 st1' H. unfold delete_child in H.
  apply delete_body_inv in H as (u & a & p & rows & _ & Hfrom & ->).
  - eapply rows_from_trans; [exact Hfrom | apply db_delete_rows_from].
  - intros _ st2 st2' [= <-]. apply rows_from_refl.
Qed.

(** The condition of an id reads only the id, the workspace and the alias
    of a row. *)
Lemma id_cond_same_keys artifact_id cond r r' :
  _get_artifact_id_cond artifact_id = Ok cond -> same_keys r r' -> cond r = cond r'.
Proof.
  unfold _get_artifact_id_cond. intros H (Hi & Hw & Ha).
  destruct (contains_char slash artifact_id).
  - destruct (split_char slash artifact_id) as [| x [| y [| z l]]]; try done.
    injection H as <-. cbv beta. by rewrite Hw, Ha.
  - injection H as <-. cbv beta. by rewrite Hi.
Qed.

(** A lookup that succeeds has found the one row its condition selects. *)
Lemma get_artifact_with_parent_unique rows artifact_id a p :
  _get_artifact_with_parent rows artifact_id = Ok (a, p) ->
  exists cond, _get_artifact_id_cond artifact_id = Ok cond
               /\ select_where cond rows = [a].
Proof.
  unfold _get_artifact_with_parent, mbind, result_bind. intros H.
  destruct (_get_artifact_id_cond artifact_id) as [cond |]; [| done].
  exists cond. split; [reflexivity |].
  destruct (select_where cond rows) as [| x [| y l]]; cbn in H; try done.
  spine H; by injection H as <- <-.
Qed.

Lemma get_artifact_with_permission_unique rows user_info artifact_id operation a p :
  _get_artifact_with_permission rows user_info artifact_id operation = Ok (a, p) ->
  exists cond, _get_artifact_id_cond artifact_id = Ok cond
               /\ select_where cond rows = [a].
Proof.
  unfold _get_artifact_with_permission, mbind, result_bind. intros H. spine H.
  all: injection H as <- <-; eapply get_artifact_with_parent_unique; eassumption.
Qed.

(** Round trip of [delete] and the lookups.  After the delete of a whole
    artifact has succeeded, the id it was called with names no row: a read,
    and the resolution of any known operation, raise the not-found error. *)
Theorem deleted_artifact_is_not_found self artifact_id delete_files recursive
    context st st' :
  delete self artifact_id delete_files recursive VNone context st = Ok st' ->
  (forall silent version env,
      read self artifact_id silent version context env st' = Err KeyError)
  /\ (forall operation,
        is_Some (operation_map !! operation) ->
        resolve artifact_id operation context st' = Err KeyError).
Proof.
  intros H. apply delete_inv in H as (u & a & p & rows & Hres & Hfrom & Hdb).
  unfold resolve, mbind, result_bind in Hres.
  destruct (require_ws context) as [[user_info ws] |] eqn:Hctx; [| done].
  destruct (_validate_artifact_id artifact_id ws) as [aid |] eqn:Hval; [| done].
  destruct (_get_artifact_with_permission (db st) user_info aid "delete")
    as [[a0 p0] |] eqn:Hget; [| done].
  injection Hres as <- <- <-.
  apply get_artifact_with_permission_unique in Hget as (cond & Hcond & Hsel).
  assert (select_where cond (db st') = []) as Hnone.
  { unfold select_where. apply filter_none. intros r' Hr'. rewrite Hdb in Hr'.
    unfold db_delete in Hr'. apply list_elem_of_filter in Hr' as [Hne Hr'].
    destruct (Hfrom _ Hr') as (r & Hr & Hkeys).
    rewrite <- (id_cond_same_keys _ _ _ _ Hcond Hkeys).
    destruct (cond r) eqn:Hc; [exfalso | reflexivity].
    assert (r ∈ select_where cond (db st)) as Hin.
    { unfold select_where. apply list_elem_of_In, filter_In.
      split; [by apply list_elem_of_In | exact Hc]. }
    rewrite Hsel in Hin. apply list_elem_of_singleton in Hin as ->.
    destruct Hkeys as (Hi & _). rewrite <- Hi, String.eqb_refl in Hne. done. }
  assert (forall operation, is_Some (operation_map !! operation) ->
            _get_artifact_with_permission (db st') user_info aid operation
            = Err KeyError) as Hgone.
  { intros operation [tier Htier].
    unfold _get_artifact_with_permission, _get_artifact_with_parent, mbind,
      result_bind.
    rewrite Htier, Hcond, Hnone. reflexivity. }
  split.
  - intros silent version env. unfold read, mbind, result_bind.
    rewrite Hctx, Hval, Hgone; [reflexivity | by eexists].
  - intros operation Hop. unfold resolve, mbind, result_bind.
    rewrite Hctx, Hval, (Hgone _ Hop). reflexivity.
Qed.

(** Carol deletes the committed child "c": it is not found afterwards. *)
Lemma deleted_artifact_is_not_found_witness :
  read Scenario.controller "c" false VNone Scenario.context Scenario.env
    (Scenario.final
       (delete Scenario.controller "c" true false VNone Scenario.context
          Scenario.with_children)) = Err KeyError.
Proof.
  assert (is_ok (delete Scenario.controller "c" true false VNone
                   Scenario.context Scenario.with_children) = true) as Hok
    by (vm_compute; reflexivity).
  destruct (delete Scenario.controller "c" true false VNone Scenario.context
              Scenario.with_children) as [st' | e] eqn:E; [| discriminate Hok].
  cbn [Scenario.final].
  apply (deleted_artifact_is_not_found _ _ _ _ _ _ _ E).
Defined.

(** ** Counters *)




(** Calls made with [silent=True] write nothing: after a silent read, a
    silent listing or a silent download link, the table and the object store
    are what they were. *)
Theorem silent_calls_change_nothing self presign st :
  (forall artifact_id version context env d st',
      read self artifact_id true version context env st = Ok (d, st') -> st' = st)
  /\ (forall parent_id keywords filters mode offset limit order_by pagination
             context l st',
        list_children self parent_id keywords filters mode offset limit order_by
          true pagination context st = Ok (l, st') -> st' = st)
  /\ (forall artifact_id path version context url st',
        get_file self presign artifact_id path true version context st
          = Ok (url, st') -> st' = st).
Proof.
  repeat apply conj.
  - intros artifact_id version context env d st'.
    unfold read, mbind, result_bind. intros H. spine H; injection H as <- <-.
    all: by destruct st.
  - intros parent_id keywords filters mode offset limit order_by pagination
      context l st'.
    unfold list_children, mbind, result_bind. intros H.
    spine H; injection H as <- <-.
    all: match goal with
         | E : match ?p with Some _ => _ | None => _ end = Ok _ |- _ =>
             destruct p; cbn [negb] in E; injection E as <-
         end.
    all: by destruct st.
  - intros artifact_id path version context url st'.
    unfold get_file, mbind, result_bind. intros H. spine H; injection H as <- <-.
    all: by destruct st.
Qed.

(** A silent read of "W/c" leaves the store of the three children as it is. *)
Lemma silent_calls_change_nothing_witness :
  Scenario.state_of
    (read Scenario.controller "W/c" true VNone Scenario.context Scenario.env
       Scenario.with_children) = Scenario.with_children.
Proof.
  assert (is_ok (read Scenario.controller "W/c" true VNone Scenario.context
                   Scenario.env Scenario.with_children) = true) as Hok
    by (vm_compute; reflexivity).
  destruct (ran _ Hok) as (d & st' & E).
  rewrite E. cbn [Scenario.state_of].
  destruct (silent_calls_change_nothing Scenario.controller (fun _ _ => "")
              Scenario.with_children) as (Hread & _).
  eapply Hread. exact E.
Defined.

(** ** Staged files *)

Lemma get_s3_config_staging self a staging parent :
  _get_s3_config self (set_staging staging a) parent = _get_s3_config self a parent.
Proof. apply get_s3_config_secrets. reflexivity. Qed.

Lemma save_version_vectors i a cfg st st' :
  _save_version_to_s3 i a cfg st = Ok st' ->
  vector_collections st' = vector_collections st.
Proof.
  unfold _save_version_to_s3, mbind, result_bind. intros H. spine H.
  injection H as <-. reflexivity.
Qed.

(** What a successful [put_file] has done. *)
Lemma put_file_inv self presign artifact_id file_path download_weight context
    st url st' :
  put_file self presign artifact_id file_path download_weight context st
    = Ok (url, st') ->
  exists user_info live parent staging N key,
    resolve artifact_id "put_file" context st = Ok (user_info, live, parent)
    /\ (0 ≤ download_weight)%Qc
    /\ py_value (a_staging live) = Some staging
    /\ len_versions live = Ok N
    /\ version_key (_get_s3_config self live parent) live N = Ok key
    /\ let stored :=
         set_staging
           (JsonVal
              (if existsb (fun f => String.eqb (f_path f) file_path) staging
               then staging
               else (staging ++ [mkFileInfo file_path (Some download_weight)])%list))
           live in
       db_update stored (db st) = Ok (db st')
       /\ s3_snapshots st' = <[key := model_to_dict stored]> (s3_snapshots st)
       /\ s3_files st' = s3_files st
       /\ vector_collections st' = vector_collections st.
Proof.
  unfold put_file, resolve, mbind, result_bind. intros H.
  destruct (require_ws context) as [[user_info ws] |]; [| done].
  destruct (_validate_artifact_id artifact_id ws) as [aid |]; [| done].
  unfold py_assert in H. case_bool_decide as Hw; [| done].
  destruct (_get_artifact_with_permission (db st) user_info aid "put_file")
    as [[live parent] |]; [| done].
  unfold require_staging in H.
  destruct (py_value (a_staging live)) as [staging |] eqn:Hst; [| done].
  unfold _get_version_index in H. cbn [String.eqb Ascii.eqb Bool.eqb] in H.
  destruct (len_versions live) as [N |] eqn:HN; [| done].
  destruct (_create_client_async (_get_s3_config self live parent)); [| done].
  destruct (version_key (_get_s3_config self live parent) live N) as [key |] eqn:Hkey;
    [| done].
  destruct (public_url _ _) as [u |]; [| done].
  match type of H with
  | match ?m with _ => _ end = _ => destruct m as [st1 |] eqn:Hsave; [| done]
  end.
  pose proof (save_version_db _ _ _ _ _ Hsave) as Hdb.
  pose proof (save_version_vectors _ _ _ _ _ Hsave) as Hvec.
  apply save_version_snapshots in Hsave as (key' & Hkey' & Hsnap & Hfiles).
  assert (key' = key) as ->.
  { unfold version_key, mbind, result_bind in Hkey, Hkey'.
    destruct (as_str (prefix _)); [| done]. destruct (as_str (bucket _)); [| done].
    cbn in Hkey'. congruence. }
  destruct (db_update _ (db st1)) as [rows |] eqn:Hupd; [| done].
  injection H as <- <-. rewrite Hdb in Hupd.
  exists user_info, live, parent, staging, N, key.
  split; [reflexivity |]. split; [exact Hw |]. split; [exact Hst |].
  split; [exact HN |]. split; [exact Hkey |]. cbv zeta. cbn [db set_db].
  split; [exact Hupd |]. split; [exact Hsnap |]. split; [exact Hfiles |].
  cbn [vector_collections set_db]. exact Hvec.
Qed.

Lemma set_staging_same a : set_staging (a_staging a) a = a.
Proof. by destruct a. Qed.

Lemma existsb_path staging file_path :
  existsb (fun f => String.eqb (f_path f) file_path) staging = true
  <-> file_path ∈ map f_path staging.
Proof.
  rewrite existsb_exists, list_elem_of_fmap. split.
  - intros (f & Hf & Heq). apply String.eqb_eq in Heq.
    exists f. split; [done | by apply list_elem_of_In].
  - intros (f & -> & Hf). exists f.
    split; [by apply list_elem_of_In | apply String.eqb_refl].
Qed.

(** A successful [put_file] leaves the row as it was except for its
    staging list: the entries already staged are kept as they are and in
    their order; the path is staged afterwards, with the given weight when it
    was not staged before and with the weight it had when it was.  The staged
    snapshot is rewritten with the new row and no blob is touched. *)
Theorem put_file_stages_the_path self presign artifact_id file_path download_weight
    context st url st' :
  put_file self presign artifact_id file_path download_weight context st
    = Ok (url, st') ->
  exists user_info live parent before after N key,
    resolve artifact_id "put_file" context st = Ok (user_info, live, parent)
    /\ py_value (a_staging live) = Some before
    /\ set_staging (JsonVal after) live ∈ db st'
    /\ before `prefix_of` after
    /\ file_path ∈ map f_path after
    /\ (file_path ∈ map f_path before -> after = before)
    /\ (file_path ∉ map f_path before ->
        after = (before ++ [mkFileInfo file_path (Some download_weight)])%list)
    /\ len_versions live = Ok N
    /\ version_key (_get_s3_config self live parent) live N = Ok key
    /\ s3_snapshots st'
       = <[key := model_to_dict (set_staging (JsonVal after) live)]> (s3_snapshots st)
    /\ s3_files st' = s3_files st.
Proof.
  intros H. apply put_file_inv in H
    as (u & live & parent & before & N & key & Hres & _ & Hst & HN & Hkey & H).
  cbv zeta in H. destruct H as (Hupd & Hsnap & Hfiles & _).
  exists u, live, parent, before,
    (if existsb (fun f => String.eqb (f_path f) file_path) before then before
     else (before ++ [mkFileInfo file_path (Some download_weight)])%list), N, key.
  split; [exact Hres |]. split; [exact Hst |].
  split.
  { eapply db_update_elem; [| exact Hupd].
    apply (has_id_elem live). eapply resolve_elem. exact Hres. }
  destruct (existsb (fun f => String.eqb (f_path f) file_path) before) eqn:Hex.
  - apply existsb_path in Hex.
    split; [done |]. split; [exact Hex |]. split; [done |].
    split; [done |]. split; [exact HN |]. split; [exact Hkey |].
    split; [exact Hsnap | exact Hfiles].
  - apply not_true_iff_false in Hex. rewrite existsb_path in Hex.
    split; [by apply prefix_app_r |].
    split.
    { rewrite map_app. apply elem_of_app. right. cbn. apply list_elem_of_here. }
    split; [done |]. split; [done |]. split; [exact HN |]. split; [exact Hkey |].
    split; [exact Hsnap | exact Hfiles].
Qed.

(** Carol stages "a.csv" with weight 1 on the staged artifact. *)
Lemma put_file_stages_the_path_witness :
  exists url st' stored,
    put_file Scenario.controller (fun _ _ => "http://s3/signed") "ds" "a.csv" 1%Qc
      Scenario.context (Scenario.state_of (Scenario.created (Some "stage")))
    = Ok (url, st')
    /\ stored ∈ db st'
    /\ a_staging stored = JsonVal [mkFileInfo "a.csv" (Some 1%Qc)].
Proof.
  assert (exists live,
            resolve "ds" "put_file" Scenario.context
              (Scenario.state_of (Scenario.created (Some "stage")))
            = Ok (Scenario.carol, live, None)
            /\ py_value (a_staging live) = Some []) as (live0 & Hlive & Hst0).
  { eexists. split; [vm_compute; reflexivity | reflexivity]. }
  assert (is_ok (put_file Scenario.controller (fun _ _ => "http://s3/signed") "ds"
                   "a.csv" 1%Qc Scenario.context
                   (Scenario.state_of (Scenario.created (Some "stage")))) = true)
    as Hok by (vm_compute; reflexivity).
  destruct (put_file Scenario.controller (fun _ _ => "http://s3/signed") "ds"
              "a.csv" 1%Qc Scenario.context
              (Scenario.state_of (Scenario.created (Some "stage"))))
    as [[url st'] | e] eqn:E; [| discriminate Hok].
  destruct (put_file_stages_the_path _ _ _ _ _ _ _ _ _ E)
    as (u & live & parent & before & after & N & key
        & Hres & Hst & Hin & _ & _ & _ & Hnew & _).
  rewrite Hlive in Hres. injection Hres as <- <- <-.
  rewrite Hst0 in Hst. injection Hst as <-.
  exists url, st', (set_staging (JsonVal after) live0).
  split; [reflexivity |]. split; [exact Hin |].
  rewrite Hnew; [reflexivity | apply not_elem_of_nil].
Defined.

Lemma db_update_again a rows rows' rows'' :
  db_update a rows = Ok rows' -> db_update a rows' = Ok rows'' -> rows'' = rows'.
Proof.
  unfold db_update. destruct (violates_unique a rows); [done |]. intros [= <-].
  destruct (violates_unique a _); [done |]. intros [= <-].
  rewrite map_map. apply map_ext. intros r.
  destruct (String.eqb_spec (a_id r) (a_id a)) as [Heq | Hne].
  - by rewrite String.eqb_refl.
  - by destruct (String.eqb_spec (a_id r) (a_id a)).
Qed.

Lemma resolve_unique artifact_id operation context st user_info a p :
  resolve artifact_id operation context st = Ok (user_info, a, p) ->
  exists ws validated cond,
    require_ws context = Ok (user_info, ws)
    /\ _validate_artifact_id artifact_id ws = Ok validated
    /\ _get_artifact_id_cond validated = Ok cond
    /\ select_where cond (db st) = [a].
Proof.
  unfold resolve, mbind, result_bind. intros H.
  destruct (require_ws context) as [[u ws] |] eqn:Hctx; [| done].
  destruct (_validate_artifact_id artifact_id ws) as [aid |] eqn:Hval; [| done].
  destruct (_get_artifact_with_permission (db st) u aid operation)
    as [[a0 p0] |] eqn:Hget; [| done].
  injection H as <- <- <-.
  apply get_artifact_with_permission_unique in Hget as (cond & Hcond & Hsel).
  exists ws, aid, cond.
  split; [reflexivity |]. split; [exact Hval |]. split; [exact Hcond | exact Hsel].
Qed.

Lemma select_singleton_elem cond (rows : list ArtifactModel) a r :
  select_where cond rows = [a] -> r ∈ rows -> cond r = true -> r = a.
Proof.
  intros Hsel Hr Hc.
  assert (r ∈ select_where cond rows) as Hin.
  { unfold select_where. apply list_elem_of_In, filter_In.
    split; [by apply list_elem_of_In | exact Hc]. }
  rewrite Hsel in Hin. by apply list_elem_of_singleton in Hin.
Qed.

Lemma select_singleton_cond cond (rows : list ArtifactModel) a :
  select_where cond rows = [a] -> a ∈ rows /\ cond a = true.
Proof.
  intros Hsel.
  assert (In a (select_where cond rows)) as Hin by (rewrite Hsel; by left).
  unfold select_where in Hin. apply filter_In in Hin as [Hin Hc].
  split; [by apply list_elem_of_In | exact Hc].
Qed.

(** [put_file] keeps the first weight.  When a path has been staged by a
    successful [put_file], a second successful [put_file] of the same path,
    whatever weight it is given, leaves the table exactly as the first call
    left it: the entry keeps the weight it was staged with. *)
Theorem put_file_again_changes_no_row self presign artifact_id file_path weight
    weight' context st url st' url' st'' :
  put_file self presign artifact_id file_path weight context st = Ok (url, st') ->
  put_file self presign artifact_id file_path weight' context st' = Ok (url', st'') ->
  db st'' = db st'.
Proof.
  intros H1 H2.
  apply put_file_inv in H1
    as (u & live & parent & before & N & key & Hres & _ & Hst & _ & _ & H1).
  cbv zeta in H1. destruct H1 as (Hupd & _).
  apply put_file_inv in H2
    as (u2 & live2 & parent2 & before2 & N2 & key2 & Hres2 & _ & Hst2 & _ & _ & H2).
  cbv zeta in H2. destruct H2 as (Hupd2 & _).
  set (after := if existsb (fun f => String.eqb (f_path f) file_path) before
                then before
                else (before ++ [mkFileInfo file_path (Some weight)])%list) in *.
  assert (file_path ∈ map f_path after) as Hstaged.
  { subst after.
    destruct (existsb (fun f => String.eqb (f_path f) file_path) before) eqn:Hex.
    - by apply existsb_path.
    - rewrite map_app. apply elem_of_app. right. cbn. apply list_elem_of_here. }
  assert (live2 = set_staging (JsonVal after) live) as ->.
  { apply resolve_unique in Hres as (ws & aid & cond & Hctx & Hval & Hcond & Hsel).
    apply resolve_unique in Hres2
      as (ws2 & aid2 & cond2 & Hctx2 & Hval2 & Hcond2 & Hsel2).
    rewrite Hctx in Hctx2. injection Hctx2 as <- <-.
    rewrite Hval in Hval2. injection Hval2 as <-.
    rewrite Hcond in Hcond2. injection Hcond2 as <-.
    destruct (select_singleton_cond _ _ _ Hsel) as [Hin Hc].
    symmetry. eapply select_singleton_elem; [exact Hsel2 | |].
    - eapply db_update_elem; [| exact Hupd]. by apply (has_id_elem live).
    - rewrite <- Hc. eapply id_cond_same_keys; [exact Hcond |]. by repeat split. }
  cbn [a_staging set_staging py_value] in Hst2. injection Hst2 as <-.
  apply existsb_path in Hstaged. rewrite Hstaged in Hupd2.
  assert (set_staging (JsonVal after) (set_staging (JsonVal after) live)
          = set_staging (JsonVal after) live) as Heq by reflexivity.
  rewrite Heq in Hupd2. eapply db_update_again; eassumption.
Qed.

(** Carol stages "a.csv" with weight 1 and then again with weight 5: the
    table after the second call is the table after the first. *)
Lemma put_file_again_changes_no_row_witness :
  let first :=
    Scenario.state_of
      (put_file Scenario.controller (fun _ _ => "http://s3/signed") "ds" "a.csv"
         1%Qc Scenario.context (Scenario.state_of (Scenario.created (Some "stage"))))
  in
  db (Scenario.state_of
        (put_file Scenario.controller (fun _ _ => "http://s3/signed") "ds" "a.csv"
           (Q2Qc 5%Q) Scenario.context first)) = db first.
Proof.
  cbv zeta.
  assert (is_ok (put_file Scenario.controller (fun _ _ => "http://s3/signed") "ds"
                   "a.csv" 1%Qc Scenario.context
                   (Scenario.state_of (Scenario.created (Some "stage")))) = true)
    as Hok by (vm_compute; reflexivity).
  assert (is_ok (put_file Scenario.controller (fun _ _ => "http://s3/signed") "ds"
                   "a.csv" (Q2Qc 5%Q) Scenario.context
                   (Scenario.state_of
                      (put_file Scenario.controller (fun _ _ => "http://s3/signed")
                         "ds" "a.csv" 1%Qc Scenario.context
                         (Scenario.state_of (Scenario.created (Some "stage"))))))
          = true) as Hok' by (vm_compute; reflexivity).
  destruct (put_file Scenario.controller (fun _ _ => "http://s3/signed") "ds"
              "a.csv" 1%Qc Scenario.context
              (Scenario.state_of (Scenario.created (Some "stage"))))
    as [[url st'] | e] eqn:E; [| discriminate Hok].
  cbn [Scenario.state_of] in Hok' |- *.
  destruct (put_file Scenario.controller (fun _ _ => "http://s3/signed") "ds"
              "a.csv" (Q2Qc 5%Q) Scenario.context st')
    as [[url' st''] | e] eqn:E'; [| discriminate Hok'].
  cbn [Scenario.state_of].
  exact (put_file_again_changes_no_row _ _ _ _ _ _ _ _ _ _ _ _ E E').
Defined.

(** ** Removing a staged file *)

(** A successful [remove_file] drops every staging entry of the path from
    the row and keeps the other entries in their order; it deletes the blob
    of the path in the staged version's directory and no other blob.  It
    writes no snapshot: the staged snapshot is the one the last staged write
    left, which may still list the path. *)
Theorem remove_file_unstages self artifact_id file_path context st st' :
  remove_file self artifact_id file_path context st = Ok st' ->
  exists user_info live parent before N key,
    resolve artifact_id "remove_file" context st = Ok (user_info, live, parent)
    /\ py_value (a_staging live) = Some before
    /\ let after :=
         List.filter (fun f => negb (String.eqb (f_path f) file_path)) before in
       set_staging (JsonVal after) live ∈ db st'
       /\ (file_path ∉ map f_path after)
       /\ (forall f, f ∈ before -> f_path f <> file_path -> f ∈ after)
       /\ len_versions live = Ok N
       /\ version_key (_get_s3_config self live parent) live N = Ok key
       /\ (forall k, k ∈ s3_files st' <-> k ∈ s3_files st /\ k <> (key, file_path))
       /\ s3_snapshots st' = s3_snapshots st.
Proof.
  unfold remove_file, remove_file_row, remove_file_object, resolve, mbind, result_bind.
  intros H.
  destruct (require_ws context) as [[user_info ws] |]; [| done].
  destruct (_validate_artifact_id artifact_id ws) as [aid |]; [| done].
  destruct (_get_artifact_with_permission (db st) user_info aid "remove_file")
    as [[live parent] |] eqn:Hget; [| done].
  unfold require_staging in H.
  destruct (py_value (a_staging live)) as [before |] eqn:Hst; [| done].
  destruct (db_update _ (db st)) as [rows |] eqn:Hupd; [| done].
  unfold _get_version_index in H. cbn [String.eqb Ascii.eqb Bool.eqb] in H.
  change (len_versions (set_staging ?s live)) with (len_versions live) in H.
  destruct (len_versions live) as [N |] eqn:HN; [| done].
  rewrite get_s3_config_staging in H.
  destruct (_create_client_async (_get_s3_config self live parent)); [| done].
  change (version_key ?c (set_staging ?s live) N) with (version_key c live N) in H.
  destruct (version_key (_get_s3_config self live parent) live N) as [key |] eqn:Hkey;
    [| done].
  injection H as <-.
  exists user_info, live, parent, before, N, key.
  split; [reflexivity |]. split; [exact Hst |]. cbv zeta.
  cbn [db set_db set_s3_files s3_files s3_snapshots].
  split.
  { eapply db_update_elem; [| exact Hupd]. apply (has_id_elem live).
    eapply get_artifact_with_permission_elem. exact Hget. }
  split.
  { intros Hin. apply list_elem_of_fmap in Hin as (f & Hp & Hf).
    apply list_elem_of_In, filter_In in Hf as [_ Hf].
    rewrite <- Hp, String.eqb_refl in Hf. discriminate Hf. }
  split.
  { intros f Hf Hne. apply list_elem_of_In, filter_In.
    split; [by apply list_elem_of_In |].
    apply negb_true_iff. by apply String.eqb_neq. }
  split; [exact HN |]. split; [exact Hkey |]. split; [| reflexivity].
  intros k. rewrite !list_elem_of_In, filter_In, negb_true_iff.
  rewrite bool_decide_eq_false. reflexivity.
Qed.

(** Carol stages "a.csv", uploads it and removes it again: the row lists
    no staged file, the blob is gone, and the snapshots are the ones the
    [put_file] left. *)
Lemma remove_file_unstages_witness :
  let staged :=
    set_s3_files [("hypha-workspaces", "", "W", "id-1", 0, "a.csv")]
      (Scenario.state_of
         (put_file Scenario.controller (fun _ _ => "http://s3/signed") "ds" "a.csv"
            1%Qc Scenario.context
            (Scenario.state_of (Scenario.created (Some "stage"))))) in
  let st' := Scenario.final
               (remove_file Scenario.controller "ds" "a.csv" Scenario.context staged) in
  map a_staging (db staged) = [JsonVal [mkFileInfo "a.csv" (Some 1%Qc)]]
  /\ map a_staging (db st') = [JsonVal []]
  /\ s3_files st' = []
  /\ s3_snapshots st' = s3_snapshots staged.
Proof.
  cbv zeta. split; [vm_compute; reflexivity |]. split; [vm_compute; reflexivity |].
  split; [vm_compute; reflexivity |].
  set (staged := set_s3_files _ _).
  assert (is_ok (remove_file Scenario.controller "ds" "a.csv" Scenario.context staged)
          = true) as Hok by (vm_compute; reflexivity).
  destruct (remove_file Scenario.controller "ds" "a.csv" Scenario.context staged)
    as [st' | e] eqn:E; [| discriminate Hok].
  cbn [Scenario.final].
  destruct (remove_file_unstages _ _ _ _ _ _ E)
    as (u & live & parent & before & N & key & _ & _ & H).
  cbv zeta in H. destruct H as (_ & _ & _ & _ & _ & _ & Hsnap). exact Hsnap.
Defined.

(** ** Downloads *)




(** ** Statistics *)

Lemma generate_counters a p :
  _generate_artifact_data a p !! "view_count" = Some (PNum (a_view_count a))
  /\ _generate_artifact_data a p !! "download_count"
     = Some (PNum (a_download_count a)).
Proof.
  unfold _generate_artifact_data.
  split; rewrite lookup_delete_ne by done; rewrite !lookup_insert_ne by done;
    destruct p; try rewrite lookup_insert_ne by done; reflexivity.
Qed.

Lemma attach_count_keeps set n d d' k :
  attach_count set n d = Ok d' -> k <> "config" -> d' !! k = d !! k.
Proof.
  unfold attach_count. intros H Hk.
  destruct (d !! "config") as [[] |]; try discriminate H;
    injection H as <-; by rewrite lookup_insert_ne.
Qed.

(** Round trip of [reset_stats] and [read].  A successful [reset_stats]
    stores the row with both counters at zero; a silent read of the same id
    that succeeds afterwards answers a view count and a download count of
    zero. *)
Theorem reset_stats_then_read self artifact_id context env env' st st' d st'' :
  reset_stats artifact_id context env st = Ok st' ->
  read self artifact_id true VNone context env' st' = Ok (d, st'') ->
  d !! "view_count" = Some (PNum 0%Qc)
  /\ d !! "download_count" = Some (PNum 0%Qc)
  /\ exists stored, stored ∈ db st'' /\ a_view_count stored = 0%Qc
                    /\ a_download_count stored = 0%Qc
                    /\ a_last_modified stored = env_now env.
Proof.
  unfold reset_stats, mbind, result_bind. intros Hreset Hread.
  destruct (require_ws context) as [[user_info ws] |] eqn:Hctx; [| done].
  destruct (_validate_artifact_id artifact_id ws) as [aid |] eqn:Hval; [| done].
  destruct (_get_artifact_with_permission (db st) user_info aid "reset_stats")
    as [[live parent] |] eqn:Hget; [| done].
  destruct (db_update _ (db st)) as [rows |] eqn:Hupd; [| done].
  injection Hreset as <-.
  set (stored := set_last_modified (env_now env)
                   (set_view_count 0%Qc (set_download_count 0%Qc live))) in *.
  pose proof (get_artifact_with_permission_elem _ _ _ _ _ _ Hget) as Hin.
  apply get_artifact_with_permission_unique in Hget as (cond & Hcond & Hsel).
  assert (stored ∈ rows) as Hstored.
  { eapply db_update_elem; [| exact Hupd]. by apply (has_id_elem live). }
  assert (cond stored = true) as Hc.
  { destruct (select_singleton_cond _ _ _ Hsel) as [_ <-].
    symmetry. eapply id_cond_same_keys; [exact Hcond |]. by repeat split. }
  unfold read, mbind, result_bind in Hread. rewrite Hctx, Hval in Hread.
  cbn [db set_db] in Hread.
  destruct (_get_artifact_with_permission rows user_info aid "read")
    as [[a2 p2] |] eqn:Hget2; [| done].
  apply get_artifact_with_permission_unique in Hget2 as (cond2 & Hcond2 & Hsel2).
  rewrite Hcond in Hcond2. injection Hcond2 as <-.
  assert (a2 = stored) as ->.
  { symmetry. eapply select_singleton_elem; [exact Hsel2 | exact Hstored | exact Hc]. }
  destruct (_get_version_index stored VNone) as [i |]; [| done].
  rewrite Z.eqb_refl in Hread.
  destruct (generate_counters stored p2) as [Hv Hd].
  assert (d !! "view_count" = Some (PNum 0%Qc)
          /\ d !! "download_count" = Some (PNum 0%Qc)
          /\ st'' = set_db rows st) as (Hdv & Hdd & ->).
  { destruct (bool_decide (a_type stored = Some "collection"));
      [| destruct (bool_decide (a_type stored = Some "vector-collection")
                   && vectordb_client self)];
      spine Hread; injection Hread as <- <-.
    all: try match goal with
         | E : match env_vector_count _ with _ => _ end = Ok _ |- _ => spine E
         end.
    all: repeat match goal with
         | E : attach_count _ _ _ = Ok _ |- _ =>
             rewrite (attach_count_keeps _ _ _ _ "view_count" E) by done;
             rewrite (attach_count_keeps _ _ _ _ "download_count" E) by done;
             clear E
         end.
    all: rewrite Hv, Hd; split; [reflexivity |]; split; [reflexivity |];
         by destruct st. }
  split; [exact Hdv |]. split; [exact Hdd |].
  exists stored. cbn [db set_db]. by repeat split.
Qed.

(** Carol reads "W/c" once, resets its statistics and reads it silently:
    both counters are zero. *)
Lemma reset_stats_then_read_witness :
  let viewed :=
    Scenario.state_of
      (read Scenario.controller "W/c" false VNone Scenario.context Scenario.env
         Scenario.with_children) in
  map a_view_count (List.filter (fun r => String.eqb (a_id r) "id-3") (db viewed))
  = [1%Qc]
  /\ exists st' d st'',
       reset_stats "W/c" Scenario.context Scenario.env viewed = Ok st'
       /\ read Scenario.controller "W/c" true VNone Scenario.context Scenario.env st'
          = Ok (d, st'')
       /\ d !! "view_count" = Some (PNum 0%Qc).
Proof.
  cbv zeta. split; [vm_compute; reflexivity |].
  set (viewed := Scenario.state_of _).
  assert (is_ok (reset_stats "W/c" Scenario.context Scenario.env viewed) = true)
    as Hok by (vm_compute; reflexivity).
  assert (is_ok (read Scenario.controller "W/c" true VNone Scenario.context
                   Scenario.env
                   (Scenario.final
                      (reset_stats "W/c" Scenario.context Scenario.env viewed)))
          = true) as Hok' by (vm_compute; reflexivity).
  destruct (reset_stats "W/c" Scenario.context Scenario.env viewed)
    as [st' | e] eqn:E; [| discriminate Hok].
  cbn [Scenario.final] in Hok'.
  destruct (ran _ Hok') as (d & st'' & E').
  exists st', d, st''. split; [reflexivity |]. split; [exact E' |].
  exact (proj1 (reset_stats_then_read _ _ _ _ _ _ _ _ _ E E')).
Defined.

(** ** Nested values *)

Lemma set_nested_keys_last key value dictionary :
  set_nested_keys [key] value dictionary
  = match dictionary with
    | JObj m => Ok (JObj (<[key := value]> m))
    | _ => Err TypeError
    end.
Proof. reflexivity. Qed.

Lemma set_nested_keys_cons key key' rest value dictionary :
  set_nested_keys (key :: key' :: rest) value dictionary
  = match dictionary with
    | JObj m =>
        child ← set_nested_keys (key' :: rest) value (default (JObj ∅) (m !! key));
        Ok (JObj (<[key := child]> m))
    | _ => Err AttributeError
    end.
Proof. reflexivity. Qed.

Lemma get_nested_keys_cons key rest m :
  get_nested_keys (key :: rest) (JObj m)
  = match json_get m key with
    | JNull => Ok JNull
    | value => get_nested_keys rest value
    end.
Proof. reflexivity. Qed.

Lemma set_nested_keys_obj keys value dictionary result :
  set_nested_keys keys value dictionary = Ok result ->
  exists m m', dictionary = JObj m /\ result = JObj m'.
Proof.
  destruct keys as [| key [| key' rest]]; [done | |].
  - rewrite set_nested_keys_last. destruct dictionary; try done.
    intros [= <-]. eauto.
  - rewrite set_nested_keys_cons. destruct dictionary as [| | | | | m]; try done.
    unfold mbind, result_bind.
    destruct (set_nested_keys (key' :: rest) value (default (JObj ∅) (m !! key)));
      [| done].
    intros [= <-]. eauto.
Qed.

Lemma set_get_nested_keys keys value dictionary result :
  set_nested_keys keys value dictionary = Ok result ->
  get_nested_keys keys result = Ok value.
Proof.
  revert dictionary result. induction keys as [| key rest IH]; [done |].
  intros dictionary result H. destruct rest as [| key' rest].
  - rewrite set_nested_keys_last in H. destruct dictionary as [| | | | | m]; try done.
    injection H as <-. rewrite get_nested_keys_cons. unfold json_get.
    rewrite lookup_insert_eq. cbn [option.default get_nested_keys].
    by destruct value.
  - rewrite set_nested_keys_cons in H. destruct dictionary as [| | | | | m]; try done.
    unfold mbind, result_bind in H.
    destruct (set_nested_keys (key' :: rest) value (default (JObj ∅) (m !! key)))
      as [child |] eqn:Hchild; [| done].
    injection H as <-.
    destruct (set_nested_keys_obj _ _ _ _ Hchild) as (m0 & m1 & _ & ->).
    rewrite get_nested_keys_cons. unfold json_get.
    rewrite lookup_insert_eq. cbn [option.default].
    by apply IH in Hchild.
Qed.

Lemma set_nested_keys_frame keys value m m' k :
  set_nested_keys keys value (JObj m) = Ok (JObj m') ->
  head keys <> Some k -> m' !! k = m !! k.
Proof.
  destruct keys as [| key [| key' rest]]; [done | |].
  - rewrite set_nested_keys_last. intros [= <-] Hk. apply lookup_insert_ne.
    cbn in Hk. congruence.
  - rewrite set_nested_keys_cons. unfold mbind, result_bind.
    destruct (set_nested_keys (key' :: rest) value (default (JObj ∅) (m !! key)));
      [| done].
    intros [= <-] Hk. apply lookup_insert_ne. cbn in Hk. congruence.
Qed.

(** Round trip of [set_nested_value] and [get_nested_value].  After a
    value has been set at a dotted path, the same path reads that value, and
    the keys of the outermost dict other than the first key of the path hold
    what they held. *)
Theorem nested_value_round_trip dictionary field value result :
  set_nested_value dictionary field value = Ok result ->
  get_nested_value field result = Ok value
  /\ exists m m',
       dictionary = JObj m /\ result = JObj m'
       /\ forall k, head (split_char "."%char field) <> Some k -> m' !! k = m !! k.
Proof.
  unfold set_nested_value, get_nested_value. intros H.
  split; [by eapply set_get_nested_keys |].
  destruct (set_nested_keys_obj _ _ _ _ H) as (m & m' & -> & ->).
  exists m, m'. split; [reflexivity |]. split; [reflexivity |].
  intros k Hk. by eapply set_nested_keys_frame.
Qed.

(** Setting "manifest.name" in a summary that holds a score. *)
Lemma nested_value_round_trip_witness :
  get_nested_value "manifest.name"
    (JObj {[ "score" := JNum 3;
             "manifest" := JObj {[ "name" := JStr "n" ]} ]})
  = Ok (JStr "n").
Proof.
  apply (nested_value_round_trip (JObj {[ "score" := JNum 3 ]}) "manifest.name"
           (JStr "n")).
  vm_compute. reflexivity.
Defined.

(** [update_summary] copies: after a successful call on a field
    [target=source] that starts with a dot, the summary holds at the path
    [target] what the metadata holds at the path [source]; on a field
    without "=" the summary holds at the path of the field, read under
    "manifest" unless the field starts with a dot, what the metadata holds
    there. *)
Theorem update_summary_copies summary field _metadata result :
  update_summary summary field _metadata = Ok result ->
  let path := match field with
              | String "." rest => rest
              | _ => "manifest." +:+ field
              end in
  if contains_char "="%char path then
    get_nested_value (split_first "="%char path).1 result
    = get_nested_value (split_first "="%char path).2 _metadata
  else get_nested_value path result = get_nested_value path _metadata.
Proof.
  unfold update_summary. cbv zeta.
  set (path := match field with String "." rest => rest | _ => "manifest." +:+ field end).
  destruct (contains_char "="%char path).
  - destruct (split_first "="%char path) as [key value_field]. cbn [fst snd].
    unfold mbind, result_bind.
    destruct (get_nested_value value_field _metadata) as [value |]; [| done].
    intros H. unfold set_nested_value in H.
    by apply set_get_nested_keys in H.
  - unfold mbind, result_bind.
    destruct (get_nested_value path _metadata) as [value |]; [| done].
    intros H. unfold set_nested_value in H.
    by apply set_get_nested_keys in H.
Qed.

(** The field ".title=manifest.name" copies the name of the manifest to
    the title of the summary. *)
Lemma update_summary_copies_witness :
  exists result,
    update_summary (JObj ∅) ".title=manifest.name"
      (JObj {[ "manifest" := JObj {[ "name" := JStr "n" ]} ]}) = Ok result
    /\ get_nested_value "title" result
       = get_nested_value "manifest.name"
           (JObj {[ "manifest" := JObj {[ "name" := JStr "n" ]} ]}).
Proof.
  assert (exists result,
            update_summary (JObj ∅) ".title=manifest.name"
              (JObj {[ "manifest" := JObj {[ "name" := JStr "n" ]} ]}) = Ok result)
    as [result H] by (eexists; vm_compute; reflexivity).
  exists result. split; [exact H |].
  exact (update_summary_copies _ _ _ _ H).
Defined.

(** ** Listings *)

(** What a successful [list_children] answers. *)
Lemma list_children_answer self parent_id keywords filters mode offset limit order_by
    silent pagination context st l st' :
  list_children self parent_id keywords filters mode offset limit order_by silent
    pagination context st = Ok (l, st') ->
  exists parent ws stage conds,
    resolve_listing parent_id context st = Ok (parent, ws)
    /\ filter_conditions filters false = Ok (stage, conds)
    /\ l = if pagination
           then Page (listing_items l)
                  (Z.of_nat (length (listing_matches self parent ws stage mode
                                       (map KeywordLike keywords ++ conds)%list
                                       (db st)))) offset limit
           else Items (listing_items l).
Proof.
  unfold list_children, resolve_listing, mbind, result_bind. intros H. spine H;
  injection H as <- <-.
  all: match goal with
       | E : (if str_truthy _ then _ else _) = Ok _ |- _ =>
           spine E; injection E as <-
       end.
  all: repeat match goal with
       | E : require_ws _ = Ok _ |- _ => rewrite E; clear E
       | E : _validate_artifact_id _ _ = Ok _ |- _ => rewrite E; clear E
       | E : _get_artifact_with_permission _ _ _ _ = Ok _ |- _ => rewrite E; clear E
       | E : str_truthy _ = _ |- _ => rewrite E; clear E
       end.
  all: do 4 eexists; split; [reflexivity |]; split; [reflexivity |].
  all: destruct pagination; reflexivity.
Qed.



Lemma filter_conditions_keys items stage r :
  filter_conditions items stage = Ok r ->
  Forall (fun kv : string * json =>
            kv.1 = "stage"
            \/ ((kv.1 = "manifest" \/ kv.1 = "config") /\ exists m, kv.2 = JObj m)
            \/ kv.1 ∈ fixed_fields \/ kv.1 ∈ range_fields) items.
Proof.
  revert stage r. induction items as [| [key value] rest IH]; intros stage r H;
    [constructor |].
  cbn [filter_conditions] in H. unfold mbind, result_bind in H.
  destruct (String.eqb_spec key "stage") as [-> | Hne].
  - constructor; [by left | by eapply IH].
  - match type of H with
    | match ?m with _ => _ end = _ => destruct m as [cs |] eqn:Hcs; [| done]
    end.
    destruct (filter_conditions rest stage) as [[stage' cs'] |] eqn:Hrest; [| done].
    constructor; [| by eapply IH]. cbn [fst snd]. right.
    destruct value as [| b | z | s | l | m].
    6: { destruct (String.eqb_spec key "manifest") as [-> | Hm];
           [left; eauto |].
         destruct (String.eqb_spec key "config") as [-> | Hc]; [left; eauto |].
         right. repeat case_bool_decide; try done; first [by left | by right]. }
    all: right; repeat case_bool_decide; try done; first [by left | by right].
Qed.

(** Filters.  A listing succeeds only if every key of [filters] is
    "stage", "manifest" or "config" with a dict value, one of the fixed
    fields (type, alias, workspace, parent_id, created_by) or one of the range
    fields (created_at, last_modified, download_count, view_count); any other
    key makes the call fail. *)
Theorem unknown_filter_key_is_rejected self parent_id keywords filters mode offset
    limit order_by silent pagination context st l st' :
  list_children self parent_id keywords filters mode offset limit order_by silent
    pagination context st = Ok (l, st') ->
  Forall (fun kv : string * json =>
            kv.1 = "stage"
            \/ ((kv.1 = "manifest" \/ kv.1 = "config") /\ exists m, kv.2 = JObj m)
            \/ kv.1 ∈ fixed_fields \/ kv.1 ∈ range_fields) filters.
Proof.
  intros H. apply list_children_answer in H
    as (parent & ws & stage & conds & _ & Hf & _).
  by eapply filter_conditions_keys.
Qed.

(** The listing with the filter [type = "generic"] succeeds: "type" is a
    fixed field. *)
Lemma unknown_filter_key_is_rejected_witness :
  Forall (fun kv : string * json =>
            kv.1 = "stage"
            \/ ((kv.1 = "manifest" \/ kv.1 = "config") /\ exists m, kv.2 = JObj m)
            \/ kv.1 ∈ fixed_fields \/ kv.1 ∈ range_fields)
    [("type", JStr "generic")].
Proof.
  assert (is_ok (list_children Scenario.controller (Some "parent") []
                   [("type", JStr "generic")] "AND" 0 100 None true false
                   Scenario.context Scenario.with_children) = true) as Hok
    by (vm_compute; reflexivity).
  destruct (ran _ Hok) as (l & st' & E).
  exact (unknown_filter_key_is_rejected _ _ _ _ _ _ _ _ _ _ _ _ _ _ E).
Defined.

(** ** What an edit keeps *)

Lemma edit_version_history a version comment now a' i :
  edit_version a version comment now = Ok (a', i) ->
  (a' = a
   \/ exists entry, a' = set_versions (Some (default [] (a_versions a) ++ [entry])%list) a)
  /\ (version = None \/ version = Some "stage" -> a' = a).
Proof.
  unfold edit_version, mbind, result_bind. intros H.
  destruct version as [v |].
  - destruct (String.eqb_spec v "stage") as [-> | Hne]; cbn [negb] in H.
    + spine H. injection H as <- <-. split; [by left | done].
    + spine H. injection H as <- <-. split; [right; eauto |].
      intros [[=] | [= ->]]. done.
  - spine H. injection H as <- <-. split; [by left | done].
Qed.

(** An edit never changes what identifies an artifact or what counts its
    use: the stored row has the id, workspace, alias, parent, creation time,
    creator and the three counters of the row before; its modification time
    is the time of the call.  It never drops or reorders a version: the
    versions list before is a prefix of the list after, which is at most one
    entry longer, and is the same list when the version is omitted or
    "stage". *)
Theorem edit_keeps_identity_and_history self artifact_id manifest type config secrets
    version comment context env st d st' :
  edit self artifact_id manifest type config secrets version comment context env st
    = Ok (d, st') ->
  exists user_info live parent stored,
    resolve artifact_id "edit" context st = Ok (user_info, live, parent)
    /\ stored ∈ db st'
    /\ d = _generate_artifact_data stored parent
    /\ a_id stored = a_id live /\ a_workspace stored = a_workspace live
    /\ a_alias stored = a_alias live /\ a_parent_id stored = a_parent_id live
    /\ a_created_at stored = a_created_at live
    /\ a_created_by stored = a_created_by live
    /\ a_download_count stored = a_download_count live
    /\ a_view_count stored = a_view_count live
    /\ a_file_count stored = a_file_count live
    /\ a_last_modified stored = env_now env
    /\ default [] (a_versions live) `prefix_of` default [] (a_versions stored)
    /\ (length (default [] (a_versions stored))
        <= S (length (default [] (a_versions live))))%nat
    /\ (version = None \/ version = Some "stage" ->
        a_versions stored = a_versions live).
Proof.
  intros H. apply edit_inv in H
    as (u & live & parent & a1 & i & a2 & key & Hres & Hver & Hcfg & H).
  cbv zeta in H. destruct H as (Hupd & _ & _ & Hd).
  exists u, live, parent, (edit_output a2 secrets version (env_now env)).
  split; [exact Hres |].
  assert (exists c, a2 = set_config c a1) as [c ->].
  { unfold edit_config, mbind, result_bind in Hcfg. spine Hcfg;
      injection Hcfg as <-; eauto. exists (a_config a1). by destruct a1. }
  assert (forall x, a_id (edit_output x secrets version (env_now env)) = a_id x
                    /\ a_workspace (edit_output x secrets version (env_now env))
                       = a_workspace x
                    /\ a_alias (edit_output x secrets version (env_now env))
                       = a_alias x
                    /\ a_parent_id (edit_output x secrets version (env_now env))
                       = a_parent_id x
                    /\ a_created_at (edit_output x secrets version (env_now env))
                       = a_created_at x
                    /\ a_created_by (edit_output x secrets version (env_now env))
                       = a_created_by x
                    /\ a_download_count (edit_output x secrets version (env_now env))
                       = a_download_count x
                    /\ a_view_count (edit_output x secrets version (env_now env))
                       = a_view_count x
                    /\ a_file_count (edit_output x secrets version (env_now env))
                       = a_file_count x
                    /\ a_last_modified (edit_output x secrets version (env_now env))
                       = env_now env
                    /\ a_versions (edit_output x secrets version (env_now env))
                       = a_versions x) as Hout.
  { intros x. unfold edit_output. cbv zeta.
    destruct secrets, (negb (bool_decide (version = Some "stage")));
      cbn [a_staging set_last_modified set_secrets];
      try destruct (py_value (a_staging x)) as [[| f fs] |]; repeat split. }
  destruct (Hout (set_config c a1))
    as (-> & -> & -> & -> & -> & -> & -> & -> & -> & -> & ->).
  cbn [set_config a_id a_workspace a_alias a_parent_id a_created_at a_created_by
       a_download_count a_view_count a_file_count a_versions].
  assert (a_id a1 = a_id live /\ a_workspace a1 = a_workspace live
          /\ a_alias a1 = a_alias live /\ a_parent_id a1 = a_parent_id live
          /\ a_created_at a1 = a_created_at live
          /\ a_created_by a1 = a_created_by live
          /\ a_download_count a1 = a_download_count live
          /\ a_view_count a1 = a_view_count live
          /\ a_file_count a1 = a_file_count live
          /\ default [] (a_versions live) `prefix_of` default [] (a_versions a1)
          /\ (length (default [] (a_versions a1))
              <= S (length (default [] (a_versions live))))%nat
          /\ (version = None \/ version = Some "stage" ->
              a_versions a1 = a_versions live)) as Hkeep.
  { destruct (edit_version_history _ _ _ _ _ _ Hver) as [[-> | [entry ->]] Hsame].
    - unfold edit_input. cbv zeta. destruct (truthy_dict manifest);
        cbn [set_manifest set_type a_id a_workspace a_alias a_parent_id
             a_created_at a_created_by a_download_count a_view_count a_file_count
             a_versions];
        repeat apply conj; try reflexivity; lia.
    - assert (a_versions (edit_input live manifest type) = a_versions live) as Hvi
        by (unfold edit_input; cbv zeta; destruct (truthy_dict manifest);
            reflexivity).
      cbn [set_versions a_id a_workspace a_alias a_parent_id a_created_at
           a_created_by a_download_count a_view_count a_file_count a_versions
           option.default].
      rewrite Hvi.
      repeat apply conj;
        try (unfold edit_input; cbv zeta; destruct (truthy_dict manifest);
             reflexivity).
      + unfold id. apply prefix_app_r. reflexivity.
      + unfold id. rewrite length_app. cbn. lia.
      + intros Hv. specialize (Hsame Hv).
        apply (f_equal a_versions) in Hsame. cbn [set_versions a_versions] in Hsame.
        rewrite Hvi in Hsame. exact Hsame. }
  destruct Hkeep as (H1 & H2 & H3 & H4 & H5 & H6 & H7 & H8 & H9 & H10 & H11 & H12).
  split.
  { eapply db_update_elem; [| exact Hupd].
    destruct (Hout (set_config c a1)) as (Hid & _). rewrite Hid. cbn [set_config a_id].
    rewrite H1. apply has_id_elem. eapply resolve_elem. exact Hres. }
  split; [exact Hd |]. repeat apply conj; assumption || reflexivity.
Qed.

(** Carol edits "ds" as a new version: the row keeps its id and its alias,
    and the version v0 stays first. *)
Lemma edit_keeps_identity_and_history_witness :
  exists d st' stored,
    edit Scenario.controller "ds" None None None None (Some "new") None
      Scenario.context Scenario.env (Scenario.state_of (Scenario.created (Some "v0")))
    = Ok (d, st')
    /\ stored ∈ db st'
    /\ a_id stored = "id-1" /\ a_alias stored = Some "ds"
    /\ [mkVersion "v0" (Some "Initial version") 1000]
       `prefix_of` default [] (a_versions stored).
Proof.
  assert (exists live,
            resolve "ds" "edit" Scenario.context
              (Scenario.state_of (Scenario.created (Some "v0")))
            = Ok (Scenario.carol, live, None)
            /\ a_id live = "id-1" /\ a_alias live = Some "ds"
            /\ default [] (a_versions live)
               = [mkVersion "v0" (Some "Initial version") 1000])
    as (live0 & Hlive & Hid0 & Hal0 & Hvs0).
  { eexists. split; [vm_compute; reflexivity |]. repeat split. }
  assert (is_ok (edit Scenario.controller "ds" None None None None (Some "new") None
                   Scenario.context Scenario.env
                   (Scenario.state_of (Scenario.created (Some "v0")))) = true)
    as Hok by (vm_compute; reflexivity).
  destruct (ran _ Hok) as (d & st' & E).
  destruct (edit_keeps_identity_and_history _ _ _ _ _ _ _ _ _ _ _ _ _ E)
    as (u & live & parent & stored & Hres & Hin & _ & Hid & _ & Hal & _ & _ & _
        & _ & _ & _ & _ & Hpre & _).
  rewrite Hlive in Hres. injection Hres as <- <- <-.
  exists d, st', stored. split; [exact E |]. split; [exact Hin |].
  split; [by rewrite Hid |]. split; [by rewrite Hal |]. by rewrite <- Hvs0.
Defined.

(** ** Deleting a version *)

Lemma py_pop_inv {A} (i : Z) (l l' : list A) :
  py_pop i l = Ok l' ->
  let j := if i <? 0 then i + Z.of_nat (length l) else i in
  0 <= j < Z.of_nat (length l)
  /\ l' = base.delete (Z.to_nat j) l
  /\ S (length l') = length l.
Proof.
  unfold py_pop. cbv zeta.
  destruct ((0 <=? _) && (_ <? _)) eqn:Hb; [| done]. intros [= <-].
  apply andb_true_iff in Hb as [H0 Hn]. apply Z.leb_le in H0. apply Z.ltb_lt in Hn.
  split; [lia |]. split; [reflexivity |].
  rewrite length_delete.
  - lia.
  - apply lookup_lt_is_Some. lia.
Qed.

(** A successful delete of one version removes exactly one entry from the
    versions of the row, the one at the index the selector resolves to
    (counted from the end when the index is negative, as for "latest" on an
    artifact without versions it would be), keeps the other entries in their
    order and leaves the rest of the row as it was. *)
Theorem delete_version_removes_one_entry self artifact_id delete_files recursive
    version context st st' :
  version <> VNone ->
  delete self artifact_id delete_files recursive version context st = Ok st' ->
  exists user_info live parent versions i,
    resolve artifact_id "delete" context st = Ok (user_info, live, parent)
    /\ a_versions live = Some versions
    /\ _get_version_index live version = Ok i
    /\ let j := if i <? 0 then i + Z.of_nat (length versions) else i in
       0 <= j < Z.of_nat (length versions)
       /\ set_versions (Some (base.delete (Z.to_nat j) versions)) live ∈ db st'
       /\ S (length (base.delete (Z.to_nat j) versions)) = length versions.
Proof.
  intros Hv. unfold delete, delete_body, resolve, not_awaited, mbind, result_bind.
  intros H.
  destruct (require_ws context) as [[user_info ws] |]; [| done].
  destruct (_validate_artifact_id artifact_id ws) as [aid |]; [| done].
  destruct (_get_artifact_with_permission (db st) user_info aid "delete")
    as [[live parent] |] eqn:Hget; [| done].
  match type of H with
  | match ?m with _ => _ end = _ => destruct m as [st1 |] eqn:H1; [| done]
  end.
  assert (db st1 = db st) as Hdb1.
  { spine H1; injection H1 as <-; reflexivity. }
  assert (match _get_version_index live version with
          | Ok version_index =>
              match match a_versions live with
                    | Some vs => py_pop version_index vs
                    | None => Err AttributeError
                    end with
              | Ok versions =>
                  match db_update (set_versions (Some versions) live) (db st1) with
                  | Ok rows => Ok (set_db rows st1)
                  | Err e => Err e
                  end
              | Err e => Err e
              end
          | Err e => Err e
          end = Ok st') as H'.
  { destruct version; [done | exact H | exact H | exact H]. }
  clear H. destruct (_get_version_index live version) as [i |] eqn:Hi; [| done].
  destruct (a_versions live) as [versions |] eqn:Hvs; [| done].
  destruct (py_pop i versions) as [versions' |] eqn:Hpop; [| done].
  destruct (db_update _ (db st1)) as [rows |] eqn:Hupd; [| done].
  injection H' as <-. rewrite Hdb1 in Hupd.
  destruct (py_pop_inv _ _ _ Hpop) as (Hj & -> & Hlen).
  exists user_info, live, parent, versions, i.
  split; [reflexivity |]. split; [exact Hvs |]. split; [exact Hi |].
  cbv zeta. split; [exact Hj |]. split; [| exact Hlen].
  cbn [db set_db]. eapply db_update_elem; [| exact Hupd].
  apply (has_id_elem live). eapply get_artifact_with_permission_elem. exact Hget.
Qed.

(** The artifact has the versions v0 and v1; the delete of version 0
    leaves v1. *)
Lemma delete_version_removes_one_entry_witness :
  exists st' stored,
    delete Scenario.controller "ds" false false (VInt 0) Scenario.context
      Scenario.two_versions = Ok st'
    /\ stored ∈ db st'
    /\ option_map (map v_version) (a_versions stored) = Some ["v1"].
Proof.
  assert (exists live versions,
            resolve "ds" "delete" Scenario.context Scenario.two_versions
            = Ok (Scenario.carol, live, None)
            /\ a_versions live = Some versions
            /\ map v_version versions = ["v0"; "v1"])
    as (live0 & versions0 & Hlive & Hvs0 & Hlabels).
  { do 2 eexists. split; [vm_compute; reflexivity |]. split; reflexivity. }
  assert (is_ok (delete Scenario.controller "ds" false false (VInt 0)
                   Scenario.context Scenario.two_versions) = true) as Hok
    by (vm_compute; reflexivity).
  destruct (delete Scenario.controller "ds" false false (VInt 0) Scenario.context
              Scenario.two_versions) as [st' | e] eqn:E; [| discriminate Hok].
  assert (VInt 0 <> VNone) as Hv by discriminate.
  destruct (delete_version_removes_one_entry _ _ _ _ _ _ _ _ Hv E)
    as (u & live & parent & versions & i & Hres & Hvs & Hi & H).
  rewrite Hlive in Hres. injection Hres as <- <- <-.
  rewrite Hvs0 in Hvs. injection Hvs as <-.
  cbn in Hi. injection Hi as <-. cbv zeta in H. cbn [Z.ltb Z.compare Z.to_nat] in H.
  destruct H as (_ & Hin & _).
  eexists st', _. split; [reflexivity |]. split; [exact Hin |].
  cbn [a_versions set_versions option_map]. f_equal.
  destruct versions0 as [| v0 [| v1 [| v2 l]]]; try discriminate Hlabels.
  injection Hlabels as _ Hv1.
  change (base.delete (Z.to_nat 0) [v0; v1]) with [v1]. cbn [map]. by rewrite Hv1.
Defined.
